(** * JobBot: the job relevance and routing engine

    A shallow embedding of [filters.py] (class [JobFilter]), of the
    contact extraction of [emailer.py] (class [EmailManager]), of the
    choice of the jobs to apply to in [main.py] and of the summary of
    [auto_apply.py], with the properties of the routing pipeline proved
    on it.

    Conventions of the embedding.
    - A Python [str] is a [string], one character per byte; [str.lower],
      [str.split], [str.title] and the character classes of [re] act on
      the ASCII range, other bytes are carried unchanged.
    - A Python [int] is a [Z]. [int] reads a run of at most 4300 decimal
      digits and raises [ValueError] on a longer one, the limit the
      interpreter sets on the conversion of a string to an integer.
    - A Python [float] is the exact rational [Q] it was read from, kept
      in lowest terms, and [float] reads a run of any length: the
      rounding of an amount to a binary float and the overflow of a sum
      to infinity are not modelled. How the interpreter prints a float
      is a parameter, [float_str].
    - The fields of a job record are [None], booleans, integers and
      strings ([Py.scalar]), an integer being one the interpreter prints
      (of at most 4300 digits); the record is a [gmap string Py.scalar]. The
      configuration is a record with the keys the code reads, of the types
      the code expects. The dicts the code builds with a fixed set of keys
      are records; [details] is a [gmap].
    - A block under [try] runs in the error monad [Py.res]; [Raise]
      carries the exception with the text [str] gives of it.
    - Where a property depends on which dict a statement writes, the
      dicts live in a store (module [Heap]): a dict is reached through
      its location, and an assignment writes the dict at the location
      it is given, the job dict like any other.
    - [re.findall], [re.sub] and [re.match] are the functions of module
      [Re], a backtracking matcher for the constructs the patterns of the
      repository use. *)

From Stdlib Require Import ZArith QArith Ascii String List Bool Lia Lqa.
From Stdlib Require Import DecimalString Sorted.
From stdpp Require Import base option list gmap strings.

Close Scope Q_scope.
Local Open Scope string_scope.
Local Open Scope list_scope.

Set Default Proof Using "Type".

(** ** Characters and strings *)

Module Str.

Definition code (a : ascii) : nat := nat_of_ascii a.

Definition in_range (lo hi : nat) (a : ascii) : bool :=
  (lo <=? code a)%nat && (code a <=? hi)%nat.

Definition is_upper : ascii -> bool := in_range 65 90.
Definition is_lower : ascii -> bool := in_range 97 122.
Definition is_digit : ascii -> bool := in_range 48 57.
Definition is_alpha (a : ascii) : bool := is_upper a || is_lower a.

(** [str.isspace] on the ASCII range: TAB..CR, FS..US and the blank. *)
Definition is_space (a : ascii) : bool :=
  in_range 9 13 a || in_range 28 32 a.

Definition lower_char (a : ascii) : ascii :=
  if is_upper a then ascii_of_nat (code a + 32) else a.

Definition upper_char (a : ascii) : ascii :=
  if is_lower a then ascii_of_nat (code a - 32) else a.

Fixpoint map (f : ascii -> ascii) (s : string) : string :=
  match s with
  | EmptyString => EmptyString
  | String a s' => String (f a) (map f s')
  end.

(** [s.lower()] *)
Definition lower (s : string) : string := map lower_char s.

Fixpoint all (p : ascii -> bool) (s : string) : bool :=
  match s with
  | EmptyString => true
  | String a s' => p a && all p s'
  end.

(** [s.isdigit()] *)
Definition isdigit (s : string) : bool :=
  match s with
  | EmptyString => false
  | _ => all is_digit s
  end.

(** [needle in hay] *)
Fixpoint contains (needle hay : string) : bool :=
  String.prefix needle hay ||
  match hay with
  | EmptyString => false
  | String _ hay' => contains needle hay'
  end.

(** [s.split()]: the maximal runs of non-blank characters. *)
Fixpoint split_go (cur : string) (s : string) : list string :=
  match s with
  | EmptyString => if String.eqb cur "" then [] else [String.rev cur]
  | String a s' =>
      if is_space a
      then (if String.eqb cur "" then [] else [String.rev cur]) ++ split_go "" s'
      else split_go (String a cur) s'
  end.

Definition split (s : string) : list string := split_go "" s.

(** [s.strip()] *)
Fixpoint lstrip (s : string) : string :=
  match s with
  | String a s' => if is_space a then lstrip s' else s
  | EmptyString => EmptyString
  end.

Definition strip (s : string) : string :=
  String.rev (lstrip (String.rev (lstrip s))).

(** [s.title()]: a letter that follows a letter is lowered, any other
    letter is raised. *)
Fixpoint title_go (prev : bool) (s : string) : string :=
  match s with
  | EmptyString => EmptyString
  | String a s' =>
      String (if is_alpha a then (if prev then lower_char a else upper_char a) else a)
             (title_go (is_alpha a) s')
  end.

Definition title (s : string) : string := title_go false s.

(** [s[:n]] *)
Fixpoint take (n : nat) (s : string) : string :=
  match n, s with
  | S n', String a s' => String a (take n' s')
  | _, _ => EmptyString
  end.

(** [s.replace(old, new)] for a non-empty [old]; [skip] counts the
    characters of the current occurrence that are still to be dropped. *)
Fixpoint replace_go (old new : string) (s : string) (skip : nat) : string :=
  match s with
  | EmptyString => EmptyString
  | String a s' =>
      match skip with
      | S k => replace_go old new s' k
      | O =>
          if String.prefix old s
          then new +:+ replace_go old new s' (String.length old - 1)
          else String a (replace_go old new s' 0)
      end
  end.

Definition replace (old new s : string) : string := replace_go old new s 0.

(** [str(n)] for an [int] *)
Definition of_Z (z : Z) : string := NilZero.string_of_int (Z.to_int z).

(** The value of a run of decimal digits, read left to right. *)
Fixpoint digits_val (acc : Z) (s : string) : option Z :=
  match s with
  | EmptyString => Some acc
  | String a s' =>
      if is_digit a
      then digits_val (10 * acc + Z.of_nat (code a - 48)) s'
      else None
  end.

(** The number a run of decimal digits denotes, whatever its length;
    [None] when the text is no run of digits. *)
Definition decimal (s : string) : option Z :=
  if isdigit s then digits_val 0 s else None.

(** Splits at the first full stop. *)
Fixpoint cut_dot (s : string) : string * option string :=
  match s with
  | EmptyString => (EmptyString, None)
  | String a s' =>
      if Ascii.eqb a "." then (EmptyString, Some s')
      else let '(i, f) := cut_dot s' in (String a i, f)
  end.

(** [float(s)] on a literal of the shape [digits] or [digits.digits],
    of any length; [None] stands for [ValueError]. *)
Definition to_float (s : string) : option Q :=
  match cut_dot s with
  | (i, None) => z ← decimal i; Some (inject_Z z)
  | (i, Some f) =>
      zi ← decimal i; zf ← decimal f;
      Some (Qmake (zi * 10 ^ Z.of_nat (String.length f) + zf)
                  (Z.to_pos (10 ^ Z.of_nat (String.length f))))
  end.

End Str.

(** ** Regular expressions

    The backtracking matcher of [re], for the constructs the repository's
    patterns use: literals, character classes, sequencing, greedy [?],
    greedy [*], [+] and [{n,}] on a character class, groups, [^] and [$].
    [run] lists the ways a pattern can match at the head of the subject,
    in the order [re] tries them, so the head of the list is the match
    [re] reports. *)

Module Re.

Inductive regex : Type :=
| Eps
| Chr (p : ascii -> bool)
| Cat (r1 r2 : regex)
| Opt (r : regex)
| Rep (p : ascii -> bool) (n : nat)
| Grp (i : nat) (r : regex)
| Bol
| Eol.

(** Captured groups, the most recent binding first. *)
Definition caps := list (nat * string).

Fixpoint group (i : nat) (c : caps) : option string :=
  match c with
  | [] => None
  | (j, w) :: c' => if Nat.eqb i j then Some w else group i c'
  end.

(** [p*], longest first: the subjects left after each possible run. *)
Fixpoint rep_greedy (p : ascii -> bool) (s : string) : list string :=
  match s with
  | String a s' => if p a then rep_greedy p s' ++ [s] else [s]
  | EmptyString => [s]
  end.

(** Exactly [n] characters of the class. *)
Fixpoint eat (p : ascii -> bool) (n : nat) (s : string) : option string :=
  match n with
  | O => Some s
  | S n' =>
      match s with
      | String a s' => if p a then eat p n' s' else None
      | EmptyString => None
      end
  end.

(** The text consumed between subject [s] and its suffix [s']. *)
Definition consumed (s s' : string) : string :=
  Str.take (String.length s - String.length s') s.

(** [total] is the length of the whole subject, for [^]. *)
Fixpoint run (total : nat) (r : regex) (s : string) (c : caps)
  : list (string * caps) :=
  match r with
  | Eps => [(s, c)]
  | Chr p =>
      match s with
      | String a s' => if p a then [(s', c)] else []
      | EmptyString => []
      end
  | Cat r1 r2 =>
      flat_map (fun sc => run total r2 (fst sc) (snd sc)) (run total r1 s c)
  | Opt r1 => run total r1 s c ++ [(s, c)]
  | Rep p n =>
      match eat p n s with
      | Some s1 => List.map (fun s2 => (s2, c)) (rep_greedy p s1)
      | None => []
      end
  | Grp i r1 =>
      List.map (fun sc => (fst sc, (i, consumed s (fst sc)) :: snd sc))
               (run total r1 s c)
  | Bol => if Nat.eqb (String.length s) total then [(s, c)] else []
  | Eol =>
      match s with
      | EmptyString => [(s, c)]
      | String a EmptyString => if Ascii.eqb a "010" then [(s, c)] else []
      | _ => []
      end
  end.

(** One match: the text it covers and its groups. *)
Definition hit := (string * caps)%type.

Definition first_hit (total : nat) (r : regex) (s : string) : option (nat * hit) :=
  match run total r s [] with
  | (s1, c) :: _ => Some (String.length s - String.length s1, (consumed s s1, c))
  | [] => None
  end.

(** The scan shared by [findall] and [sub]: it walks the subject from left
    to right, [skip] counting the characters of the last match that are
    still to be passed over. *)
Fixpoint findall_go (total : nat) (r : regex) (s : string) (skip : nat)
  : list hit :=
  match skip with
  | S k =>
      match s with
      | String _ s' => findall_go total r s' k
      | EmptyString => []
      end
  | O =>
      match first_hit total r s with
      | Some (len, h) =>
          h :: match s with
               | String _ s' => findall_go total r s' (len - 1)
               | EmptyString => []
               end
      | None =>
          match s with
          | String _ s' => findall_go total r s' 0
          | EmptyString => []
          end
      end
  end.

(** [re.finditer(r, s)]: each match with its text and groups. *)
Definition finditer (r : regex) (s : string) : list hit :=
  findall_go (String.length s) r s 0.

(** [re.sub(r, '', s)] *)
Fixpoint remove_go (total : nat) (r : regex) (s : string) (skip : nat)
  : string :=
  match skip with
  | S k =>
      match s with
      | String _ s' => remove_go total r s' k
      | EmptyString => EmptyString
      end
  | O =>
      match first_hit total r s with
      | Some (len, _) =>
          match s with
          | String a s' =>
              if Nat.eqb len 0 then String a (remove_go total r s' 0)
              else remove_go total r s' (len - 1)
          | EmptyString => EmptyString
          end
      | None =>
          match s with
          | String a s' => String a (remove_go total r s' 0)
          | EmptyString => EmptyString
          end
      end
  end.

Definition remove (r : regex) (s : string) : string :=
  remove_go (String.length s) r s 0.

(** [bool(re.match(r, s))] *)
Definition matches (r : regex) (s : string) : bool :=
  match first_hit (String.length s) r s with
  | Some _ => true
  | None => false
  end.

(** A compiled pattern: the expression and the number of its groups. *)
Record pattern : Type := { pat_re : regex; pat_groups : nat }.

(** What [findall] hands back for a pattern with [n] groups: the text of
    the match when [n = 0], the text of the group when [n = 1], the tuple
    of the groups otherwise; a group that took no part is the empty
    string. *)
Inductive item : Type :=
| Text (s : string)
| Tuple (l : list string).

Definition group_text (i : nat) (h : hit) : string :=
  default "" (group i (snd h)).

Definition groups (n : nat) (h : hit) : list string :=
  List.map (fun i => group_text i h) (seq 1 n).

Definition item_of (n : nat) (h : hit) : item :=
  match n with
  | 0 => Text (fst h)
  | 1 => Text (group_text 1 h)
  | _ => Tuple (groups n h)
  end.

(** [re.findall(p, s)] *)
Definition findall (p : pattern) (s : string) : list item :=
  List.map (item_of (pat_groups p)) (finditer (pat_re p) s).

(** *** Pattern syntax *)

Definition chr (a : ascii) : regex := Chr (Ascii.eqb a).

Fixpoint lit (s : string) : regex :=
  match s with
  | EmptyString => Eps
  | String a EmptyString => chr a
  | String a s' => Cat (chr a) (lit s')
  end.

Fixpoint cat (rs : list regex) : regex :=
  match rs with
  | [] => Eps
  | [r] => r
  | r :: rs' => Cat r (cat rs')
  end.

(** [\d], [\s] and [.] *)
Definition digit : ascii -> bool := Str.is_digit.
Definition space : ascii -> bool := Str.is_space.
Definition any_but_newline (a : ascii) : bool := negb (Ascii.eqb a "010").

(** A character class given by its members and ranges. *)
Definition one_of (members : string) (ranges : list (ascii * ascii))
  (a : ascii) : bool :=
  existsb (Ascii.eqb a) (list_ascii_of_string members) ||
  existsb (fun lh => Str.in_range (Str.code (fst lh)) (Str.code (snd lh)) a) ranges.

(** *** Notions used to state what the matcher does *)

(** The words a pattern can cover. *)
Fixpoint lang (r : regex) (w : string) : Prop :=
  match r with
  | Eps | Bol | Eol => w = ""
  | Chr p => exists a, w = String a "" /\ p a = true
  | Cat r1 r2 => exists w1 w2, w = w1 +:+ w2 /\ lang r1 w1 /\ lang r2 w2
  | Opt r1 => w = "" \/ lang r1 w
  | Rep p n => (n <= String.length w)%nat /\ Str.all p w = true
  | Grp _ r1 => lang r1 w
  end.

(** [P i w]: group [i] may hold the text [w]. *)
Definition caps_ok (P : nat -> string -> Prop) (c : caps) : Prop :=
  forall i w, In (i, w) c -> P i w.

(** Every group of the pattern captures a text that [P] admits. *)
Fixpoint grp_ok (P : nat -> string -> Prop) (r : regex) : Prop :=
  match r with
  | Cat r1 r2 => grp_ok P r1 /\ grp_ok P r2
  | Opt r1 => grp_ok P r1
  | Grp i r1 => grp_ok P r1 /\ forall w, lang r1 w -> P i w
  | _ => True
  end.

(** The pattern binds group [i] on every path. *)
Fixpoint binds (i : nat) (r : regex) : bool :=
  match r with
  | Cat r1 r2 => binds i r1 || binds i r2
  | Grp j r1 => Nat.eqb i j || binds i r1
  | _ => false
  end.

(** A hit of the scan: a way [run] finds to match at some position, with
    the text it covers. *)
Definition hit_of (total : nat) (r : regex) (h : hit) : Prop :=
  exists s0 s1, In (s1, snd h) (run total r s0 []) /\ fst h = consumed s0 s1.

End Re.

(** ** Python values, faults and formatting *)

Module Py.

(** The values a scraped or JSON-loaded job record holds in its fields. *)
Inductive scalar : Type :=
| SNone
| SBool (b : bool)
| SInt (z : Z)
| SStr (s : string).

Inductive exn : Type :=
| AttributeError (msg : string)
| ValueError (msg : string)
| TypeError (msg : string).

(** [str(e)] *)
Definition exn_str (e : exn) : string :=
  match e with
  | AttributeError msg => msg
  | ValueError msg => msg
  | TypeError msg => msg
  end.

(** The outcome of a block that may raise. *)
Inductive res (A : Type) : Type :=
| Ok (a : A)
| Raise (e : exn).
Arguments Ok {A} a.
Arguments Raise {A} e.

Global Instance res_ret : MRet res := fun A a => Ok a.
Global Instance res_bind : MBind res := fun A B f m =>
  match m with
  | Ok a => f a
  | Raise e => Raise e
  end.

(** [type(v).__name__] *)
Definition type_name (v : scalar) : string :=
  match v with
  | SNone => "NoneType"
  | SBool _ => "bool"
  | SInt _ => "int"
  | SStr _ => "str"
  end.

(** [str(v)], which is what an f-string field [{v}] shows. *)
Definition fmt (v : scalar) : string :=
  match v with
  | SNone => "None"
  | SBool true => "True"
  | SBool false => "False"
  | SInt z => Str.of_Z z
  | SStr s => s
  end.

(** [bool(v)] *)
Definition truthy (v : scalar) : bool :=
  match v with
  | SNone => false
  | SBool b => b
  | SInt z => negb (Z.eqb z 0)
  | SStr s => negb (String.eqb s "")
  end.

(** [v.lower()]: only a [str] has the method. *)
Definition lower (v : scalar) : res string :=
  match v with
  | SStr s => Ok (Str.lower s)
  | _ => Raise (AttributeError
                  ("'" +:+ type_name v +:+ "' object has no attribute 'lower'"))
  end.

Definition hex_digit (n : nat) : ascii :=
  if (n <? 10)%nat then ascii_of_nat (48 + n) else ascii_of_nat (87 + n).

(** [repr(s)] for a [str]: single quotes unless the text holds a single
    quote and no double quote; backslash, the chosen quote, TAB, LF and CR
    are escaped, the other control characters are written [\xhh]. *)
Definition repr_char (q : ascii) (a : ascii) : string :=
  if Ascii.eqb a "\" then "\\"
  else if Ascii.eqb a q then String "\" (String q "")
  else if Ascii.eqb a "009" then "\t"
  else if Ascii.eqb a "010" then "\n"
  else if Ascii.eqb a "013" then "\r"
  else if (Str.code a <? 32)%nat || Nat.eqb (Str.code a) 127
  then String "\" (String "x" (String (hex_digit (Str.code a / 16))
                               (String (hex_digit (Str.code a mod 16)) "")))
  else String a "".

Fixpoint repr_body (q : ascii) (s : string) : string :=
  match s with
  | EmptyString => EmptyString
  | String a s' => repr_char q a +:+ repr_body q s'
  end.

Definition dquote : ascii := ascii_of_nat 34.

Definition repr_str (s : string) : string :=
  let q := if Str.contains "'" s && negb (Str.contains (String dquote "") s)
           then dquote else "'"%char in
  String q (repr_body q s +:+ String q "").

Fixpoint join (sep : string) (l : list string) : string :=
  match l with
  | [] => ""
  | [x] => x
  | x :: l' => x +:+ sep +:+ join sep l'
  end.

(** [str(l)] for a list of [str] *)
Definition fmt_list (l : list string) : string :=
  "[" +:+ join ", " (List.map repr_str l) +:+ "]".

(** [sys.get_int_max_str_digits()], as the interpreter sets it. *)
Definition max_str_digits : Z := 4300.

(** The fault of [int] on a run of [n] digits, [n] above the limit. *)
Definition int_limit (n : nat) : exn :=
  ValueError
    ("Exceeds the limit (4300 digits) for integer string conversion: " +:+
     "value has " +:+ Str.of_Z (Z.of_nat n) +:+
     " digits; use sys.set_int_max_str_digits() to increase the limit").

(** [int(s)] on a text without sign, blanks or underscores, which is
    what the code passes to it: a run of digits is read when it has no
    more digits than the limit allows; any other text is no literal. *)
Definition int (s : string) : res Z :=
  match Str.decimal s with
  | Some z =>
      if (max_str_digits <? Z.of_nat (String.length s))%Z
      then Raise (int_limit (String.length s))
      else Ok z
  | None => Raise (ValueError
                     ("invalid literal for int() with base 10: " +:+ repr_str s))
  end.

(** [float(s)]; a literal of any length is read. *)

Definition float (s : string) : res Q :=
  match Str.to_float s with
  | Some q => Ok (Qred q)
  | None => Raise (ValueError
                     ("could not convert string to float: " +:+ repr_str s))
  end.

(** A number read from the JSON configuration. *)
Inductive number : Type :=
| NInt (z : Z)
| NFloat (q : Q).

Definition num_val (n : number) : Q :=
  match n with
  | NInt z => inject_Z z
  | NFloat q => q
  end.

(** [a < b] and [a <= b] on numbers *)
Definition lt (a b : Q) : bool := negb (Qle_bool b a).
Definition le (a b : Q) : bool := Qle_bool a b.

(** [[x for x in l]] under [try]: the first fault ends the comprehension. *)
Fixpoint traverse {A B : Type} (f : A -> res B) (l : list A) : res (list B) :=
  match l with
  | [] => Ok []
  | x :: l' => y ← f x; ys ← traverse f l'; Ok (y :: ys)
  end.

End Py.

(** ** filters.py: class JobFilter *)

Module Filter.

Import Re.

(** The part of [config.json] the filter reads in [__init__]. *)
Record Config : Type := {
  positive : list string;
  negative : list string;
  fresher_friendly : list string;
  min_salary : Py.number;
  max_salary : Py.number;
  target_locations : list string;
  qa_automation : string;
  qa_entry : string;
  qa_general : string
}.

(** The dict [is_relevant_role] returns; the key [fresher_friendly] is
    present on acceptance only. *)
Record RoleCheck : Type := {
  rc_is_relevant : bool;
  rc_reason : string;
  rc_matched_keywords : list string;
  rc_fresher_friendly : option bool;
  rc_score : Z
}.

Record SalaryInfo : Type := {
  si_min_salary : Q;
  si_max_salary : Q;
  si_average_salary : Q;
  si_found : bool
}.

Record LocationCheck : Type := {
  lc_is_match : bool;
  lc_reason : string
}.

Record ExperienceCheck : Type := {
  ec_is_match : bool;
  ec_required_exp : Z;
  ec_reason : string
}.

(** A value stored under [details]. *)
Inductive stage : Type :=
| RoleStage (r : RoleCheck)
| LocationStage (l : LocationCheck)
| ExperienceStage (e : ExperienceCheck)
| SalaryStage (s : SalaryInfo).

(** The value under [salary_lpa]. *)
Inductive salary : Type :=
| Lpa (q : Q)
| NotSpecified.

(** The dict [filter_job] returns; the last three keys are added by the
    final [update] only. *)
Record FilterResult : Type := {
  is_relevant : bool;
  reason : string;
  details : gmap string stage;
  resume_to_use : string;
  relevance_score : Z;
  salary_lpa : option salary;
  is_fresher_friendly : option bool;
  matched_keywords : option (list string)
}.

(** A job record: the dict produced by a scraper or read back from JSON. *)
Abbreviation job := (gmap string Py.scalar).

(** [job_data.get(key, '')] *)
Definition get (job_data : job) (key : string) : Py.scalar :=
  default (Py.SStr "") (job_data !! key).

(** The keywords of [kws] that occur in [text], in the order of [kws]. *)
Definition hits (kws : list string) (text : string) : list string :=
  List.filter (fun keyword => Str.contains keyword text) kws.

(** [sum(1 for keyword in kws if keyword in text)] *)
Definition score (kws : list string) (text : string) : Z :=
  Z.of_nat (List.length (hits kws text)).

(** [f"{a} {b}".lower()] *)
Definition joined (a b : Py.scalar) : string :=
  Str.lower (Py.fmt a +:+ " " +:+ Py.fmt b).

Section WithConfig.

(** [str(x)] for a [float], as the interpreter prints it. *)
Variable float_str : Q -> string.

Variable cfg : Config.

Definition number_str (n : Py.number) : string :=
  match n with
  | Py.NInt z => Str.of_Z z
  | Py.NFloat q => float_str q
  end.

Definition is_relevant_role (job_title job_description : Py.scalar) : RoleCheck :=
  let text := joined job_title job_description in
  let matched_keywords := hits (positive cfg) text in
  let positive_matches := Z.of_nat (List.length matched_keywords) in
  if (positive_matches <? 2)%Z then
    {| rc_is_relevant := false;
       rc_reason := "Insufficient QA/Testing keywords";
       rc_matched_keywords := matched_keywords;
       rc_fresher_friendly := None;
       rc_score := 0 |}
  else
    let negative_keywords := hits (negative cfg) text in
    let negative_matches := Z.of_nat (List.length negative_keywords) in
    let fresher_matches := score (fresher_friendly cfg) text in
    if (0 <? negative_matches)%Z && (fresher_matches =? 0)%Z then
      {| rc_is_relevant := false;
         rc_reason := "High experience requirement: " +:+ Py.fmt_list negative_keywords;
         rc_matched_keywords := matched_keywords;
         rc_fresher_friendly := None;
         rc_score := 0 |}
    else
      {| rc_is_relevant := true;
         rc_reason := "Good match with " +:+ Str.of_Z positive_matches +:+ " QA keywords";
         rc_matched_keywords := matched_keywords;
         rc_fresher_friendly := Some (0 <? fresher_matches)%Z;
         rc_score := Z.min 100 (positive_matches * 10 + fresher_matches * 5) |}.

(** *** Salary *)

(** [(\d+(?:\.\d+)?)] as group [i] *)
Definition amount (i : nat) : regex :=
  Grp i (Cat (Rep digit 1) (Opt (Cat (chr ".") (Rep digit 1)))).

(** [\s*] *)
Definition ws : regex := Rep space 0.

(** [\s*-?\s*(\d+(?:\.\d+)?)?\s*] *)
Definition upper_bound : list regex :=
  [ws; Opt (chr "-"); ws; Opt (amount 2); ws].

Definition salary_patterns : list pattern :=
  [ {| pat_re := cat (amount 1 :: upper_bound ++ [lit "lpa"]); pat_groups := 2 |};
    {| pat_re := cat (lit "â‚ą" :: ws :: amount 1 :: upper_bound ++ [lit "lakh"]);
       pat_groups := 2 |};
    {| pat_re := cat (amount 1 :: upper_bound ++
                      [lit "lakh"; Opt (chr "s"); ws; lit "per"; ws; lit "annum"]);
       pat_groups := 2 |};
    {| pat_re := cat (lit "salary" :: Opt (chr ":") :: ws :: amount 1 ::
                      upper_bound ++ [lit "lpa"]);
       pat_groups := 2 |};
    {| pat_re := cat (lit "ctc" :: Opt (chr ":") :: ws :: amount 1 ::
                      upper_bound ++ [lit "lpa"]);
       pat_groups := 2 |};
    {| pat_re := cat (lit "package" :: Opt (chr ":") :: ws :: amount 1 ::
                      upper_bound ++ [lit "lpa"]);
       pat_groups := 2 |};
    {| pat_re := cat [amount 1; ws; lit "to"; ws; amount 2; ws; lit "lpa"];
       pat_groups := 2 |};
    {| pat_re := cat [lit "upt"; Opt (chr "o"); ws; amount 1; ws; lit "lpa"];
       pat_groups := 1 |} ].

(** [x and x.replace('.', '').isdigit()] *)
Definition is_amount (x : string) : bool :=
  negb (String.eqb x "") && Str.isdigit (Str.replace "." "" x).

Definition no_salary : SalaryInfo :=
  {| si_min_salary := 0; si_max_salary := 0; si_average_salary := 0;
     si_found := false |}.

Definition one_salary (salary : Q) : SalaryInfo :=
  {| si_min_salary := salary; si_max_salary := salary;
     si_average_salary := salary; si_found := true |}.

(** [min], [max] and [sum(..) / 2] of a list of two floats *)
Definition min2 (a b : Q) : Q := if Py.lt b a then b else a.
Definition max2 (a b : Q) : Q := if Py.lt a b then b else a.
Definition mean2 (a b : Q) : Q := Qred ((a + b) / 2)%Q.

(** The loop [for pattern in patterns] of [extract_salary]. *)
Fixpoint salary_scan (patterns : list pattern) (text : string)
  : Py.res SalaryInfo :=
  match patterns with
  | [] => mret no_salary
  | pattern :: rest =>
      match findall pattern text with
      | [] => salary_scan rest text
      | Tuple t :: _ =>
          salaries ← Py.traverse Py.float (List.filter is_amount t);
          match salaries with
          | [a; b] =>
              mret {| si_min_salary := min2 a b; si_max_salary := max2 a b;
                      si_average_salary := mean2 a b; si_found := true |}
          | [a] => mret (one_salary a)
          | _ => salary_scan rest text
          end
      | Text x :: _ => salary ← Py.float x; mret (one_salary salary)
      end
  end.

Definition extract_salary (job_text : string) : Py.res SalaryInfo :=
  salary_scan salary_patterns (Str.lower job_text).

(** *** Location *)

Definition remote_indicators : list string :=
  ["remote"; "work from home"; "wfh"; "anywhere"; "virtual";
   "distributed"; "home based"; "telecommute"].

(** [any(word in location_lower for word in target_loc.lower().split())] *)
Definition partial_match (location_lower target_loc : string) : bool :=
  existsb (fun word => Str.contains word location_lower)
          (Str.split (Str.lower target_loc)).

Definition is_location_match (location : Py.scalar) : Py.res LocationCheck :=
  if negb (Py.truthy location) then
    mret {| lc_is_match := true;
            lc_reason := "No location specified (assuming remote)" |}
  else
    location_lower ← Py.lower location;
    match List.find (fun target_loc => Str.contains (Str.lower target_loc) location_lower)
                    (target_locations cfg) with
    | Some target_loc =>
        mret {| lc_is_match := true;
                lc_reason := "Matches preferred location: " +:+ target_loc |}
    | None =>
    match List.find (fun indicator => Str.contains indicator location_lower)
                    remote_indicators with
    | Some indicator =>
        mret {| lc_is_match := true;
                lc_reason := "Remote work: " +:+ indicator |}
    | None =>
    match List.find (partial_match location_lower) (target_locations cfg) with
    | Some target_loc =>
        mret {| lc_is_match := true;
                lc_reason := "Partial location match: " +:+ target_loc |}
    | None =>
        mret {| lc_is_match := false;
                lc_reason := "Location " +:+ Py.fmt location +:+
                             " not in preferred list" |}
    end end end.

(** *** Resume selection *)

Definition automation_keywords : list string :=
  ["selenium"; "pytest"; "automation framework"; "ci/cd"; "jenkins";
   "api testing"; "python automation"; "test framework"; "automation engineer";
   "sdet"; "technical testing"; "test automation"; "framework development";
   "scripting"; "api automation"; "regression automation"].

Definition entry_keywords : list string :=
  ["fresher"; "entry level"; "trainee"; "graduate"; "0-1 year";
   "0-2 year"; "manual testing"; "basic"; "beginner"; "new grad";
   "associate"; "junior"; "starting career"].

Definition advanced_project_keywords : list string :=
  ["framework"; "tool development"; "python"; "automation tool";
   "testing utility"; "performance testing"; "load testing"].

Definition select_resume (job_title job_description : Py.scalar) : string :=
  let text := joined job_title job_description in
  let automation_score := score automation_keywords text in
  let entry_score := score entry_keywords text in
  let advanced_score := score advanced_project_keywords text in
  if (3 <=? automation_score)%Z || (2 <=? advanced_score)%Z then qa_automation cfg
  else if (2 <=? entry_score)%Z then qa_entry cfg
  else qa_general cfg.

(** *** Experience *)

Definition actual_experience : Q := 3 # 2.

(** [(\d+)] as group [i], and [years?] *)
Definition count (i : nat) : regex := Grp i (Rep digit 1).
Definition years : regex := Cat (lit "year") (Opt (chr "s")).

Definition exp_patterns : list pattern :=
  [ {| pat_re := cat [count 1; Opt (chr "+"); ws; years; ws;
                      Opt (Cat (lit "of") ws); lit "experience"];
       pat_groups := 1 |};
    {| pat_re := cat [count 1; ws; lit "to"; ws; count 2; ws; years];
       pat_groups := 2 |};
    {| pat_re := cat [lit "minimum"; ws; count 1; ws; years]; pat_groups := 1 |};
    {| pat_re := cat [lit "at"; ws; lit "least"; ws; count 1; ws; years];
       pat_groups := 1 |};
    {| pat_re := cat [count 1; ws; chr "-"; ws; count 2; ws; years];
       pat_groups := 2 |} ].

(** [min(l) if l else 0] *)
Definition min_or_zero (l : list Z) : Z :=
  match l with
  | [] => 0%Z
  | x :: l' => List.fold_left Z.min l' x
  end.

(** The verdict on a requirement of [required_exp] years. *)
Definition experience_verdict (required_exp : Z) : ExperienceCheck :=
  if Py.le (inject_Z required_exp) (actual_experience + 1)%Q then
    {| ec_is_match := true;
       ec_required_exp := required_exp;
       ec_reason := "Experience requirement (" +:+ Str.of_Z required_exp +:+
                    " years) matches profile" |}
  else
    {| ec_is_match := false;
       ec_required_exp := required_exp;
       ec_reason := "Requires " +:+ Str.of_Z required_exp +:+
                    " years, profile has " +:+ float_str actual_experience |}.

(** What the first match of a pattern asks for. *)
Definition requirement (first : item) : Py.res Z :=
  match first with
  | Tuple t =>
      exp_nums ← Py.traverse Py.int (List.filter Str.isdigit t);
      mret (min_or_zero exp_nums)
  | Text x => Py.int x
  end.

(** The loop [for pattern in exp_patterns]. *)
Fixpoint experience_scan (patterns : list pattern) (text : string)
  : Py.res ExperienceCheck :=
  match patterns with
  | [] =>
      mret {| ec_is_match := true;
              ec_required_exp := 0;
              ec_reason := "No specific experience requirement mentioned" |}
  | pattern :: rest =>
      match findall pattern text with
      | [] => experience_scan rest text
      | first :: _ =>
          required_exp ← requirement first;
          mret (experience_verdict required_exp)
      end
  end.

Definition calculate_experience_match (job_description : Py.scalar)
  : Py.res ExperienceCheck :=
  text ← Py.lower job_description;
  experience_scan exp_patterns text.

(** *** The pipeline *)

(** [filter_result] as first built, with [reason] and [details] as they
    stand at a [return]. *)
Definition rejected (why : string) (det : gmap string stage) : FilterResult :=
  {| is_relevant := false;
     reason := why;
     details := det;
     resume_to_use := "";
     relevance_score := 0;
     salary_lpa := None;
     is_fresher_friendly := None;
     matched_keywords := None |}.

(** The salary test of step 4: the reason to reject, if any. *)
Definition salary_objection (salary_info : SalaryInfo) : option string :=
  if si_found salary_info then
    if Py.lt (si_max_salary salary_info) (Py.num_val (min_salary cfg)) then
      Some ("Salary " +:+ float_str (si_max_salary salary_info) +:+
            " LPA below minimum " +:+ number_str (min_salary cfg) +:+ " LPA")
    else if Py.lt (Py.num_val (max_salary cfg)) (si_min_salary salary_info) then
      Some ("Salary " +:+ float_str (si_min_salary salary_info) +:+
            " LPA above realistic range")
    else None
  else None.

(** The body of the [try] block. *)
Definition filter_job_try (job_data : job) : Py.res FilterResult :=
  let title := get job_data "title" in
  let description := get job_data "description" in
  let location := get job_data "location" in
  let role_check := is_relevant_role title description in
  let det1 : gmap string stage := {[ "role_check" := RoleStage role_check ]} in
  if negb (rc_is_relevant role_check) then
    mret (rejected (rc_reason role_check) det1)
  else
    location_check ← is_location_match location;
    let det2 := <[ "location_check" := LocationStage location_check ]> det1 in
    if negb (lc_is_match location_check) then
      mret (rejected (lc_reason location_check) det2)
    else
      exp_check ← calculate_experience_match description;
      let det3 := <[ "experience_check" := ExperienceStage exp_check ]> det2 in
      if negb (ec_is_match exp_check) then
        mret (rejected (ec_reason exp_check) det3)
      else
        salary_info ← extract_salary (Py.fmt title +:+ " " +:+ Py.fmt description);
        let det4 := <[ "salary_info" := SalaryStage salary_info ]> det3 in
        match salary_objection salary_info with
        | Some why => mret (rejected why det4)
        | None =>
            let resume_file := select_resume title description in
            mret {| is_relevant := true;
                    reason := "Job matches all criteria";
                    details := det4;
                    resume_to_use := resume_file;
                    relevance_score := rc_score role_check;
                    salary_lpa :=
                      Some (if si_found salary_info
                            then Lpa (si_average_salary salary_info)
                            else NotSpecified);
                    is_fresher_friendly :=
                      Some (default false (rc_fresher_friendly role_check));
                    matched_keywords := Some (rc_matched_keywords role_check) |}
        end.

(** The [except Exception] handler. *)
Definition on_fault (e : Py.exn) : FilterResult :=
  rejected ("Error filtering job: " +:+ Py.exn_str e) ∅.

Definition filter_job (job_data : job) : FilterResult :=
  match filter_job_try job_data with
  | Py.Ok filter_result => filter_result
  | Py.Raise e => on_fault e
  end.

(** *** Notions used to state the properties of the stages *)

(** The rules of [is_location_match] that follow the test for an empty
    location. *)
Definition location_verdict (l location : string) : Py.res LocationCheck :=
  match List.find (fun target_loc => Str.contains (Str.lower target_loc) l)
                  (target_locations cfg) with
  | Some target_loc =>
      Py.Ok {| lc_is_match := true;
               lc_reason := "Matches preferred location: " +:+ target_loc |}
  | None =>
  match List.find (fun indicator => Str.contains indicator l) remote_indicators with
  | Some indicator =>
      Py.Ok {| lc_is_match := true; lc_reason := "Remote work: " +:+ indicator |}
  | None =>
  match List.find (partial_match l) (target_locations cfg) with
  | Some target_loc =>
      Py.Ok {| lc_is_match := true;
               lc_reason := "Partial location match: " +:+ target_loc |}
  | None =>
      Py.Ok {| lc_is_match := false;
               lc_reason := "Location " +:+ location +:+ " not in preferred list" |}
  end end end.

End WithConfig.

(** *** Notions used to state the properties of the pipeline *)

(** A group of a salary pattern holds a literal [float] can read. *)
Definition floatP (_ : nat) (w : string) : Prop := is_Some (Str.to_float w).

(** A pattern all of whose groups capture a decimal literal, and which
    binds its group when it has one only. *)
Definition amount_pattern (p : pattern) : Prop :=
  grp_ok floatP (pat_re p) /\
  (pat_groups p = 1%nat /\ binds 1 (pat_re p) = true \/ (2 <= pat_groups p)%nat).

(** A group of an experience pattern holds a run of digits. *)
Definition digitsP (_ : nat) (w : string) : Prop := Str.isdigit w = true.

(** A pattern whose groups capture runs of digits and are all bound. *)
Definition count_pattern (p : pattern) : Prop :=
  grp_ok digitsP (pat_re p) /\ binds 1 (pat_re p) = true /\
  (pat_groups p = 1%nat \/ pat_groups p = 2%nat /\ binds 2 (pat_re p) = true).

(** The configuration with another list of negative keywords. *)
Definition with_negative (kws : list string) (cfg : Config) : Config :=
  {| positive := positive cfg;
     negative := kws;
     fresher_friendly := fresher_friendly cfg;
     min_salary := min_salary cfg;
     max_salary := max_salary cfg;
     target_locations := target_locations cfg;
     qa_automation := qa_automation cfg;
     qa_entry := qa_entry cfg;
     qa_general := qa_general cfg |}.

(** The text the role check and the resume selection look at. *)
Definition job_text (job_data : job) : string :=
  joined (get job_data "title") (get job_data "description").

(** [x] is the first element of [l] with the property [P]. *)
Definition first_such {A : Type} (P : A -> Prop) (l : list A) (x : A) : Prop :=
  exists l1 l2, l = l1 ++ x :: l2 /\ P x /\ forall y, In y l1 -> ~ P y.

Definition none_such {A : Type} (P : A -> Prop) (l : list A) : Prop :=
  forall y, In y l -> ~ P y.

(** The three ways a location can match, on the lower-cased location. *)
Definition names_target (location_lower target_loc : string) : Prop :=
  Str.contains (Str.lower target_loc) location_lower = true.

Definition names_remote (location_lower indicator : string) : Prop :=
  Str.contains indicator location_lower = true.

Definition names_word_of (location_lower target_loc : string) : Prop :=
  exists word, In word (Str.split (Str.lower target_loc)) /\
               Str.contains word location_lower = true.

(** The first pattern of [patterns] that finds something in [text], with
    the first thing it finds. *)
Definition first_match (patterns : list pattern) (text : string)
  (p : pattern) (first : item) : Prop :=
  exists before after more,
    patterns = before ++ p :: after /\
    Forall (fun q => findall q text = []) before /\
    findall p text = first :: more.

Definition accepted (check : LocationCheck) (why : string) : Prop :=
  lc_is_match check = true /\ lc_reason check = why.

(** A figure [int] reads, and one with more digits than it reads. *)
Definition short (x : string) : Prop :=
  (Z.of_nat (String.length x) <= Py.max_str_digits)%Z.

Definition long (x : string) : Prop :=
  (Py.max_str_digits < Z.of_nat (String.length x))%Z.

(** The texts of a match that go to [int]. *)
Definition figures (first : item) : list string :=
  match first with
  | Text x => [x]
  | Tuple t => List.filter Str.isdigit t
  end.

(** The check decides on the requirement [required_exp]: it returns the
    verdict on it, which accepts exactly within the experience of the
    profile plus one year and otherwise cites the requirement. *)
Definition decided (float_str : Q -> string)
  (outcome : Py.res ExperienceCheck) (required_exp : Z) : Prop :=
  outcome = Py.Ok (experience_verdict float_str required_exp) /\
  ec_required_exp (experience_verdict float_str required_exp) = required_exp /\
  (ec_is_match (experience_verdict float_str required_exp) = true <->
   (inject_Z required_exp <= actual_experience + 1)%Q) /\
  (ec_is_match (experience_verdict float_str required_exp) = false ->
   ec_reason (experience_verdict float_str required_exp) =
   "Requires " +:+ Str.of_Z required_exp +:+ " years, profile has " +:+
   float_str actual_experience).

(** The fault of a location or a description that is not a string: it
    has no method [lower]. *)
Definition no_lower (v : Py.scalar) : Py.exn :=
  Py.AttributeError ("'" +:+ Py.type_name v +:+ "' object has no attribute 'lower'").

End Filter.

(** ** emailer.py: the contact extraction of class EmailManager *)

Module Emailer.

Import Re.

Inductive source : Type := domain_pattern | job_description | location_pattern.
Inductive confidence : Type := high | medium | low.

(** The dict appended to [contacts]. *)
Record Contact : Type := {
  email : string;
  name : string;
  company : string;
  source_of : source;
  job_title : Py.scalar;
  confidence_of : confidence
}.

Abbreviation job := (gmap string Py.scalar).

Definition get (job_data : job) (key : string) : Py.scalar :=
  default (Py.SStr "") (job_data !! key).

Definition letters_digits : list (ascii * ascii) :=
  [("A", "Z"); ("a", "z"); ("0", "9")]%char.

(** *** clean_company_name *)

Definition suffixes : list string :=
  ["pvt ltd"; "private limited"; "ltd"; "limited"; "inc"; "corporation";
   "corp"; "company"; "technologies"; "technology"; "tech"; "solutions";
   "solution"; "systems"; "system"; "services"; "service"; "enterprises";
   "enterprise"; "group"; "pvt"; "llp"; "llc"].

(** The pattern written [rf'\\b{suffix}\\b']: in a raw string the two
    backslashes stand for one literal backslash, so the pattern is the
    text of [suffix] between two literal [\b]. *)
Definition suffix_pattern (suffix : string) : regex :=
  lit ("\b" +:+ suffix +:+ "\b").

(** [[^a-zA-Z0-9\\s]]: any character but a letter, a digit, a backslash
    and the letter s. *)
Definition special_char : regex :=
  Chr (fun a => negb (one_of "\s" [("a", "z"); ("A", "Z"); ("0", "9")]%char a)).

(** [\\s+]: a backslash and a run of the letter s. *)
Definition backslash_s : regex := Cat (chr "\") (Rep (Ascii.eqb "s") 1).

Definition clean_company_name (company_name : Py.scalar) : Py.res string :=
  clean_name ← Py.lower company_name;
  let clean_name :=
    List.fold_left (fun acc suffix => remove (suffix_pattern suffix) acc)
                   suffixes clean_name in
  let clean_name := remove special_char clean_name in
  mret (Str.strip (remove backslash_s clean_name)).

(** *** generate_company_domains *)

Definition with_tlds (base : string) (tlds : list string) : list string :=
  List.map (fun tld => base +:+ tld) tlds.

Definition generate_company_domains (clean_company : string) : list string :=
  if String.eqb clean_company "" then []
  else
    let domains := with_tlds clean_company [".com"; ".in"; ".co.in"; ".org"] in
    let domains :=
      if (8 <? String.length clean_company)%nat
      then domains ++ with_tlds (Str.take 8 clean_company) [".com"; ".in"]
      else domains in
    let variations :=
      [Str.replace "technologies" "tech" clean_company;
       Str.replace "solutions" "sol" clean_company;
       Str.replace "systems" "sys" clean_company] in
    let domains :=
      List.fold_left
        (fun acc variation =>
           if String.eqb variation clean_company then acc
           else acc ++ with_tlds variation [".com"; ".in"])
        variations domains in
    List.firstn 5 domains.

(** *** extract_emails_from_text *)

(** The pattern written
    [r'\\b[A-Za-z0-9._%+-]+@[A-Za-z0-9.-]+\\.[A-Z|a-z]{2,}\\b']: a literal
    backslash and b, the local part, [@], the domain part, a literal
    backslash, any character, two or more of [A-Z|a-z], and again a
    literal backslash and b. *)
Definition local_part : ascii -> bool := one_of "._%+-" letters_digits.
Definition domain_part : ascii -> bool := one_of ".-" letters_digits.
Definition tld_part : ascii -> bool := one_of "|" [("A", "Z"); ("a", "z")]%char.

Definition address : list regex :=
  [Rep local_part 1; chr "@"; Rep domain_part 1; chr "\";
   Chr any_but_newline; Rep tld_part 2].

Definition email_pattern : pattern :=
  {| pat_re := cat (lit "\b" :: address ++ [lit "\b"]); pat_groups := 0 |}.

Definition avoid_patterns : list string :=
  ["noreply"; "no-reply"; "donotreply"; "admin"; "support"].

Definition texts (l : list item) : list string :=
  List.flat_map (fun i => match i with Text s => [s] | Tuple _ => [] end) l.

Definition extract_emails_from_text (text : Py.scalar) : Py.res (list string) :=
  match text with
  | Py.SStr text =>
      let found_emails := texts (findall email_pattern text) in
      mret (List.filter
              (fun email =>
                 negb (existsb (fun pattern => Str.contains pattern (Str.lower email))
                               avoid_patterns))
              found_emails)
  | _ => Py.Raise (Py.TypeError
                     ("expected string or bytes-like object, got '"
                      +:+ Py.type_name text +:+ "'"))
  end.

(** *** is_valid_email *)

Definition valid_pattern : regex := cat (Bol :: address ++ [Eol]).

Definition is_valid_email (email : string) : bool := matches valid_pattern email.

(** *** extract_hr_contacts *)

Definition hr_patterns (domain : string) : list string :=
  List.map (fun who => who +:+ "@" +:+ domain)
           ["hr"; "careers"; "jobs"; "recruitment"; "hiring"; "talent"].

(** The three kinds of dict appended to [contacts]. *)
Definition hr_team (company : string) (title : Py.scalar) (email : string)
  : Contact :=
  {| email := email; name := "HR Team"; company := company;
     source_of := domain_pattern; job_title := title; confidence_of := medium |}.

Definition contact_person (company : string) (title : Py.scalar) (email : string)
  : Contact :=
  {| email := email; name := "Contact Person"; company := company;
     source_of := job_description; job_title := title; confidence_of := high |}.

Definition local_hr (company : string) (title : Py.scalar)
  (location city : string) (possible_domains : list string) : Contact :=
  {| email := "hr." +:+ city +:+ "@" +:+
              match possible_domains with
              | domain :: _ => domain
              | [] => "company.com"
              end;
     name := "HR Team - " +:+ Str.title location;
     company := company;
     source_of := location_pattern;
     job_title := title;
     confidence_of := low |}.

(** The statements under [try], once the company is known to be a
    non-empty value: the contacts appended so far go with the outcome,
    since a fault leaves [contacts] as it stands. *)
Definition gather_from (job_data : job) (company : Py.scalar) : list Contact :=
  let title := get job_data "title" in
  match clean_company_name company with
  | Py.Raise _ => []
  | Py.Ok clean_company =>
      let company := Py.fmt company in
      let possible_domains := generate_company_domains clean_company in
      let contacts :=
        List.flat_map
          (fun domain => List.map (hr_team company title) (hr_patterns domain))
          possible_domains in
      match extract_emails_from_text (get job_data "description") with
      | Py.Raise _ => contacts
      | Py.Ok extracted_emails =>
          let contacts :=
            contacts ++ List.map (contact_person company title) extracted_emails in
          if existsb (fun keyword => Str.contains keyword (Str.lower company))
                     ["tech"; "solutions"; "systems"; "software"]
          then
            match Py.lower (get job_data "location") with
            | Py.Raise _ => contacts
            | Py.Ok location =>
                if Str.contains "hyderabad" location ||
                   Str.contains "bangalore" location
                then
                  match Str.split location with
                  | [] => contacts
                  | city :: _ =>
                      contacts ++
                      [local_hr company title location city possible_domains]
                  end
                else contacts
            end
          else contacts
      end
  end.

(** The [try] block as a whole; [None] is the early [return contacts]. *)
Definition gather (job_data : job) : option (list Contact) :=
  let company := get job_data "company" in
  if negb (Py.truthy company) then None
  else Some (gather_from job_data company).

(** The loop that removes duplicates and stops at three contacts. *)
Fixpoint dedupe (contacts : list Contact) (seen_emails : gset string)
  (unique_contacts : list Contact) : list Contact :=
  match contacts with
  | [] => unique_contacts
  | contact :: rest =>
      if bool_decide (email contact ∉ seen_emails) && is_valid_email (email contact)
      then
        let unique_contacts := unique_contacts ++ [contact] in
        if (3 <=? List.length unique_contacts)%nat then unique_contacts
        else dedupe rest ({[ email contact ]} ∪ seen_emails) unique_contacts
      else dedupe rest seen_emails unique_contacts
  end.

Definition extract_hr_contacts (job_data : job) : list Contact :=
  match gather job_data with
  | None => []
  | Some contacts => dedupe contacts ∅ []
  end.

(** *** Notions used to state the properties of the extraction *)

(** Where a gathered contact comes from: a guessed domain, the
    description, or the location. *)
Definition guessed (company_value : Py.scalar) (c : Contact) : Prop :=
  exists clean_company domain,
    clean_company_name company_value = Py.Ok clean_company /\
    In domain (generate_company_domains clean_company) /\
    In (email c) (hr_patterns domain) /\
    source_of c = domain_pattern.

Definition quoted (job_data : job) (c : Contact) : Prop :=
  exists extracted,
    extract_emails_from_text (get job_data "description") = Py.Ok extracted /\
    In (email c) extracted /\
    source_of c = job_description.

Definition located (job_data : job) (company_value : Py.scalar) (c : Contact)
  : Prop :=
  exists clean_company location city rest,
    clean_company_name company_value = Py.Ok clean_company /\
    Py.lower (get job_data "location") = Py.Ok location /\
    Str.split location = city :: rest /\
    email c = "hr." +:+ city +:+ "@" +:+
              match generate_company_domains clean_company with
              | domain :: _ => domain
              | [] => "company.com"
              end /\
    source_of c = location_pattern.

(** The text has no upper-case letter. *)
Definition lowered (s : string) : Prop :=
  Str.all (fun a => negb (Str.is_upper a)) s = true.

(** The contacts of a list that pass [is_valid_email] and whose address
    has not occurred before, in the order of the list; [seen] holds the
    addresses that count as having occurred. *)
Fixpoint distinct_valid (seen : gset string) (contacts : list Contact)
  : list Contact :=
  match contacts with
  | [] => []
  | contact :: rest =>
      if bool_decide (email contact ∉ seen) && is_valid_email (email contact)
      then contact :: distinct_valid ({[ email contact ]} ∪ seen) rest
      else distinct_valid seen rest
  end.

(** The character is no backslash. *)
Definition plain_char (a : ascii) : bool := negb (Ascii.eqb a "\").

(** The character is a lower-case letter, a digit or a backslash. *)
Definition clean_char (a : ascii) : bool :=
  Str.is_lower a || Str.is_digit a || Ascii.eqb a "\".

(** A value that holds no backslash: a text without one, or no text. *)
Definition plain_value (v : Py.scalar) : bool :=
  match v with
  | Py.SStr s => Str.all plain_char s
  | _ => true
  end.

(** The text the six parts of [address] cover, and what the pattern asks
    of each part. *)
Definition address_of (local domain : string) (c : ascii) (tld : string)
  : string :=
  local +:+ "@" +:+ domain +:+ "\" +:+ String c tld.

Definition address_parts (local domain : string) (c : ascii) (tld : string)
  : Prop :=
  (1 <= String.length local)%nat /\ Str.all local_part local = true /\
  (1 <= String.length domain)%nat /\ Str.all domain_part domain = true /\
  any_but_newline c = true /\
  (2 <= String.length tld)%nat /\ Str.all tld_part tld = true.

(** The letters and digits of a text, in order. *)
Fixpoint letters_and_digits (s : string) : string :=
  match s with
  | EmptyString => EmptyString
  | String a s' =>
      if Str.is_alpha a || Str.is_digit a
      then String a (letters_and_digits s')
      else letters_and_digits s'
  end.

End Emailer.

(** ** filter_job on the heap

    [filter_job] receives a reference to the job dict and hands back a
    reference to the dict it builds. In the store below every object is
    a dict, and one primitive, [setitem], stands for every assignment
    [d[key] = value]: it writes to whatever dict the reference leads to,
    the job dict included. What the call writes, and where, is then read
    off the run.

    A run ends with a value, with a fault, or, as [None], outside the
    embedding: at a reference that leads nowhere, or at a field of the
    job that is no scalar where the code formats or lowers it. *)

Module Heap.

Import Filter.

Definition loc := nat.

(** What a dict holds under a key: a scalar, a float, a list of strings
    or a reference to a dict. *)
Inductive value : Type :=
| Scalar (v : Py.scalar)
| Float (q : Q)
| Strs (l : list string)
| Ref (d : loc).

Abbreviation dict := (gmap string value).
Abbreviation heap := (gmap loc dict).

Definition M (A : Type) : Type := heap -> option (Py.res A * heap).

Definition ret {A : Type} (a : A) : M A := fun h => Some (Py.Ok a, h).

(** A fault ends the run of the block; the store stays as it is then. *)
Definition bind {A B : Type} (m : M A) (f : A -> M B) : M B :=
  fun h =>
    match m h with
    | Some (Py.Ok a, h') => f a h'
    | Some (Py.Raise e, h') => Some (Py.Raise e, h')
    | None => None
    end.

Definition lift {A : Type} (r : Py.res A) : M A := fun h => Some (r, h).

Definition outside {A : Type} : M A := fun _ => None.

Notation "'let!' x ':=' m 'in' k" := (bind m (fun x => k))
  (at level 10, x name, m at level 100, k at level 200).
Notation "'do!' m 'in' k" := (bind m (fun _ => k))
  (at level 10, m at level 100, k at level 200).

(** A dict display: a new dict at an unused location. *)
Definition new_dict (d : dict) : M loc :=
  fun h => let l := fresh (dom h) in Some (Py.Ok l, <[ l := d ]> h).

(** [d.get(key, otherwise)] *)
Definition dict_get (d : loc) (key : string) (otherwise : value) : M value :=
  fun h =>
    match h !! d with
    | Some o => Some (Py.Ok (default otherwise (o !! key)), h)
    | None => None
    end.

(** [d[key]], for a key the dict holds. *)
Definition getitem (d : loc) (key : string) : M value :=
  fun h =>
    match h !! d with
    | Some o =>
        match o !! key with
        | Some v => Some (Py.Ok v, h)
        | None => None
        end
    | None => None
    end.

(** [d[key] = v]: the dict behind [d] is written, whichever it is. *)
Definition setitem (d : loc) (key : string) (v : value) : M unit :=
  fun h =>
    match h !! d with
    | Some o => Some (Py.Ok tt, <[ d := <[ key := v ]> o ]> h)
    | None => None
    end.

(** [d.update({...})], entry by entry. *)
Fixpoint update (d : loc) (entries : list (string * value)) : M unit :=
  match entries with
  | [] => ret tt
  | (key, v) :: rest => do! setitem d key v in update d rest
  end.

(** A value used as a scalar, and one used as a reference. *)
Definition scalar (v : value) : M Py.scalar :=
  match v with
  | Scalar s => ret s
  | _ => outside
  end.

Definition reference (v : value) : M loc :=
  match v with
  | Ref d => ret d
  | _ => outside
  end.

(** [d[outer][key] = v] *)
Definition setitem2 (d : loc) (outer key : string) (v : value) : M unit :=
  let! inner := getitem d outer in
  let! inner := reference inner in
  setitem inner key v.

(** *** The dicts the stages return *)

Definition bool_value (b : bool) : value := Scalar (Py.SBool b).
Definition str_value (s : string) : value := Scalar (Py.SStr s).
Definition int_value (z : Z) : value := Scalar (Py.SInt z).

Definition role_dict (c : RoleCheck) : dict :=
  let d : dict :=
    <[ "is_relevant" := bool_value (rc_is_relevant c) ]>
      (<[ "reason" := str_value (rc_reason c) ]>
         (<[ "matched_keywords" := Strs (rc_matched_keywords c) ]>
            (<[ "score" := int_value (rc_score c) ]> ∅))) in
  match rc_fresher_friendly c with
  | Some b => <[ "fresher_friendly" := bool_value b ]> d
  | None => d
  end.

Definition location_dict (c : LocationCheck) : dict :=
  <[ "is_match" := bool_value (lc_is_match c) ]>
    (<[ "reason" := str_value (lc_reason c) ]> ∅).

Definition experience_dict (c : ExperienceCheck) : dict :=
  <[ "is_match" := bool_value (ec_is_match c) ]>
    (<[ "required_exp" := int_value (ec_required_exp c) ]>
       (<[ "reason" := str_value (ec_reason c) ]> ∅)).

(** The amounts of a salary that was found are floats; the zeros of the
    dict for no salary are integers. *)
Definition salary_dict (s : SalaryInfo) : dict :=
  let amount (q : Q) : value := if si_found s then Float q else int_value 0 in
  <[ "min_salary" := amount (si_min_salary s) ]>
    (<[ "max_salary" := amount (si_max_salary s) ]>
       (<[ "average_salary" := amount (si_average_salary s) ]>
          (<[ "found" := bool_value (si_found s) ]> ∅))).

(** The dict display [filter_job] starts from, and that of its handler. *)
Definition first_result (why : string) (details : loc) : dict :=
  <[ "is_relevant" := bool_value false ]>
    (<[ "reason" := str_value why ]>
       (<[ "details" := Ref details ]>
          (<[ "resume_to_use" := str_value "" ]>
             (<[ "relevance_score" := int_value 0 ]> ∅)))).

Section WithConfig.

Variable float_str : Q -> string.
Variable cfg : Config.

(** The entries of the final [filter_result.update({...})]. *)
Definition accepted_entries (resume_file : string) (role_check : RoleCheck)
  (salary_info : SalaryInfo) : list (string * value) :=
  [ ("is_relevant", bool_value true);
    ("reason", str_value "Job matches all criteria");
    ("resume_to_use", str_value resume_file);
    ("relevance_score", int_value (rc_score role_check));
    ("salary_lpa", if si_found salary_info
                   then Float (si_average_salary salary_info)
                   else str_value "Not specified");
    ("is_fresher_friendly",
     bool_value (default false (rc_fresher_friendly role_check)));
    ("matched_keywords", Strs (rc_matched_keywords role_check)) ].

(** The body of the [try] block, statement by statement. A stage is
    called with the values read from the job and returns a dict of its
    own, which the body reads as the record the stage computed. *)
Definition filter_job_try (job_data : loc) : M loc :=
  let! title := dict_get job_data "title" (str_value "") in
  let! description := dict_get job_data "description" (str_value "") in
  let! location := dict_get job_data "location" (str_value "") in
  let! company := dict_get job_data "company" (str_value "") in
  let! details := new_dict ∅ in
  let! filter_result := new_dict (first_result "" details) in
  let! title := scalar title in
  let! description := scalar description in
  let role_check := is_relevant_role cfg title description in
  let! role_ref := new_dict (role_dict role_check) in
  do! setitem2 filter_result "details" "role_check" (Ref role_ref) in
  if negb (rc_is_relevant role_check) then
    do! setitem filter_result "reason" (str_value (rc_reason role_check)) in
    ret filter_result
  else
    let! location := scalar location in
    let! location_check := lift (is_location_match cfg location) in
    let! location_ref := new_dict (location_dict location_check) in
    do! setitem2 filter_result "details" "location_check" (Ref location_ref) in
    if negb (lc_is_match location_check) then
      do! setitem filter_result "reason" (str_value (lc_reason location_check)) in
      ret filter_result
    else
      let! exp_check := lift (calculate_experience_match float_str description) in
      let! exp_ref := new_dict (experience_dict exp_check) in
      do! setitem2 filter_result "details" "experience_check" (Ref exp_ref) in
      if negb (ec_is_match exp_check) then
        do! setitem filter_result "reason" (str_value (ec_reason exp_check)) in
        ret filter_result
      else
        let! salary_info :=
          lift (extract_salary (Py.fmt title +:+ " " +:+ Py.fmt description)) in
        let! salary_ref := new_dict (salary_dict salary_info) in
        do! setitem2 filter_result "details" "salary_info" (Ref salary_ref) in
        match salary_objection float_str cfg salary_info with
        | Some why =>
            do! setitem filter_result "reason" (str_value why) in
            ret filter_result
        | None =>
            let resume_file := select_resume cfg title description in
            do! update filter_result
                  (accepted_entries resume_file role_check salary_info) in
            ret filter_result
        end.

(** [filter_job]: the handler answers a fault with a dict of its own. *)
Definition filter_job (job_data : loc) (h : heap) : option (loc * heap) :=
  match filter_job_try job_data h with
  | Some (Py.Ok filter_result, h') => Some (filter_result, h')
  | Some (Py.Raise e, h') =>
      match (let! details := new_dict ∅ in
             new_dict (first_result ("Error filtering job: " +:+ Py.exn_str e)
                                    details)) h' with
      | Some (Py.Ok filter_result, h'') => Some (filter_result, h'')
      | _ => None
      end
  | None => None
  end.

End WithConfig.

(** [job['filter_result'] = filter_result], the assignment of
    [morning_routine] and [evening_routine] to a relevant job. *)
Definition annotate (job : loc) (filter_result : loc) : M unit :=
  setitem job "filter_result" (Ref filter_result).

(** *** Reading a result back from the store *)

Definition as_bool (v : value) : option bool :=
  match v with Scalar (Py.SBool b) => Some b | _ => None end.
Definition as_str (v : value) : option string :=
  match v with Scalar (Py.SStr s) => Some s | _ => None end.
Definition as_int (v : value) : option Z :=
  match v with Scalar (Py.SInt z) => Some z | _ => None end.
Definition as_strs (v : value) : option (list string) :=
  match v with Strs l => Some l | _ => None end.
Definition as_ref (v : value) : option loc :=
  match v with Ref d => Some d | _ => None end.
Definition as_amount (v : value) : option Q :=
  match v with
  | Float q => Some q
  | Scalar (Py.SInt z) => Some (inject_Z z)
  | _ => None
  end.
Definition as_salary (v : value) : option salary :=
  match v with
  | Float q => Some (Lpa q)
  | Scalar (Py.SStr "Not specified") => Some NotSpecified
  | _ => None
  end.

(** A key that must be there, and one that may be missing. *)
Definition required {A : Type} (read : value -> option A) (d : dict)
  (key : string) : option A :=
  v ← d !! key; read v.

Definition optional {A : Type} (read : value -> option A) (d : dict)
  (key : string) : option (option A) :=
  match d !! key with
  | Some v => a ← read v; Some (Some a)
  | None => Some None
  end.

Definition read_role (d : dict) : option RoleCheck :=
  is_relevant ← required as_bool d "is_relevant";
  why ← required as_str d "reason";
  keywords ← required as_strs d "matched_keywords";
  fresher ← optional as_bool d "fresher_friendly";
  score ← required as_int d "score";
  Some {| rc_is_relevant := is_relevant; rc_reason := why;
          rc_matched_keywords := keywords; rc_fresher_friendly := fresher;
          rc_score := score |}.

Definition read_location (d : dict) : option LocationCheck :=
  is_match ← required as_bool d "is_match";
  why ← required as_str d "reason";
  Some {| lc_is_match := is_match; lc_reason := why |}.

Definition read_experience (d : dict) : option ExperienceCheck :=
  is_match ← required as_bool d "is_match";
  required_exp ← required as_int d "required_exp";
  why ← required as_str d "reason";
  Some {| ec_is_match := is_match; ec_required_exp := required_exp;
          ec_reason := why |}.

Definition read_salary (d : dict) : option SalaryInfo :=
  lowest ← required as_amount d "min_salary";
  highest ← required as_amount d "max_salary";
  average ← required as_amount d "average_salary";
  found ← required as_bool d "found";
  Some {| si_min_salary := lowest; si_max_salary := highest;
          si_average_salary := average; si_found := found |}.

(** The dict a key of [details] refers to, read as the result of its
    stage. *)
Definition read_stage {A : Type} (h : heap) (read : dict -> option A)
  (wrap : A -> stage) (d : dict) (key : string) : option (option stage) :=
  match d !! key with
  | Some v => l ← as_ref v; o ← h !! l; a ← read o; Some (Some (wrap a))
  | None => Some None
  end.

Definition with_stage (key : string) (s : option stage)
  (m : gmap string stage) : gmap string stage :=
  match s with
  | Some s => <[ key := s ]> m
  | None => m
  end.

Definition stage_keys : gset string :=
  {[ "role_check"; "location_check"; "experience_check"; "salary_info" ]}.

(** [details]: the results of the stages under their keys, and no other
    key. *)
Definition read_details (h : heap) (d : dict) : option (gmap string stage) :=
  role ← read_stage h read_role RoleStage d "role_check";
  location ← read_stage h read_location LocationStage d "location_check";
  experience ← read_stage h read_experience ExperienceStage d "experience_check";
  salary_info ← read_stage h read_salary SalaryStage d "salary_info";
  if bool_decide (dom d ⊆ stage_keys) then
    Some (with_stage "salary_info" salary_info
            (with_stage "experience_check" experience
               (with_stage "location_check" location
                  (with_stage "role_check" role ∅))))
  else None.

(** A dict read as a result of [filter_job], and the dict behind a
    reference read so. *)
Definition read_fields (h : heap) (d : dict) : option FilterResult :=
  relevant ← required as_bool d "is_relevant";
  why ← required as_str d "reason";
  details_ref ← required as_ref d "details";
  details_dict ← h !! details_ref;
  stages ← read_details h details_dict;
  resume ← required as_str d "resume_to_use";
  score ← required as_int d "relevance_score";
  lpa ← optional as_salary d "salary_lpa";
  fresher ← optional as_bool d "is_fresher_friendly";
  keywords ← optional as_strs d "matched_keywords";
  Some {| is_relevant := relevant; reason := why; details := stages;
          resume_to_use := resume; relevance_score := score;
          salary_lpa := lpa; is_fresher_friendly := fresher;
          matched_keywords := keywords |}.

Definition read_result (h : heap) (l : loc) : option FilterResult :=
  d ← h !! l; read_fields h d.

(** The fields of a job dict that [filter_job] uses hold the scalars of
    the record [fields], or are missing where the record has none. *)
Definition holds (job : dict) (fields : gmap string Py.scalar) : Prop :=
  forall key, In key ["title"; "description"; "location"] ->
              job !! key = Scalar <$> (fields !! key).

(** Every dict of [h] is in [h'] as it is in [h]. *)
Definition kept (h h' : heap) : Prop :=
  forall l d, h !! l = Some d -> h' !! l = Some d.

End Heap.

(** ** filters.py: get_filter_summary *)

Module Summary.

Import Filter.

(** The dict [get_filter_summary] returns. *)
Record FilterSummary : Type := {
  total_jobs : Z;
  relevant_jobs : Z;
  relevance_rate : Q;
  rejection_reasons : gmap string Z;
  relevant_job_list : list (gmap string Py.scalar)
}.

(** [a / b] on two [int]; [None] stands for [ZeroDivisionError]. *)
Definition true_div (a b : Z) : option Q :=
  if (b =? 0)%Z then None else Some (Qred (inject_Z a / inject_Z b)%Q).

Section WithConfig.

Variable float_str : Q -> string.
Variable cfg : Config.

(** [round(x, 2)], as the interpreter computes it. *)
Variable round2 : Q -> Q.

(** The loop [for job in jobs], with the two collections it fills. *)
Fixpoint summary_scan (jobs : list (gmap string Py.scalar))
  (relevant : list (gmap string Py.scalar)) (reasons : gmap string Z)
  : list (gmap string Py.scalar) * gmap string Z :=
  match jobs with
  | [] => (relevant, reasons)
  | job :: rest =>
      let result := filter_job float_str cfg job in
      if is_relevant result
      then summary_scan rest (relevant ++ [job]) reasons
      else summary_scan rest relevant
             (<[ reason result := (default 0 (reasons !! reason result) + 1)%Z ]>
                reasons)
  end.

Definition get_filter_summary (jobs : list (gmap string Py.scalar))
  : option FilterSummary :=
  let total := Z.of_nat (List.length jobs) in
  let found := summary_scan jobs [] ∅ in
  ratio ← true_div (Z.of_nat (List.length (fst found))) (Z.max total 1);
  Some {| total_jobs := total;
          relevant_jobs := Z.of_nat (List.length (fst found));
          relevance_rate := round2 (ratio * 100)%Q;
          rejection_reasons := snd found;
          relevant_job_list := fst found |}.

End WithConfig.

(** *** Notions used to state the properties of the summary *)

(** The sum of the counts of a dict of counters. *)
Definition sum_counts (m : gmap string Z) : Z :=
  map_fold (fun _ n acc => (n + acc)%Z) 0%Z m.

(** How many jobs of the list [filter_job] rejects with the reason [why]. *)
Definition rejected_with (float_str : Q -> string) (cfg : Config)
  (why : string) (jobs : list (gmap string Py.scalar)) : Z :=
  Z.of_nat (List.length
    (List.filter
       (fun job => negb (is_relevant (filter_job float_str cfg job)) &&
                   String.eqb (reason (filter_job float_str cfg job)) why)
       jobs)).

End Summary.

(** ** main.py: the choice of the jobs to apply to

    The part of [morning_routine] and [evening_routine] between the
    scrape and the call of the applicator: the jobs are filtered, the
    relevant ones are annotated with their result, sorted by score and cut
    to the batch size. *)

Module Main.

Import Filter.

(** A job dict after [job['filter_result'] = filter_result]. *)
Record Annotated : Type := {
  fields : gmap string Py.scalar;
  filter_result : FilterResult
}.

(** [x['filter_result'].get('relevance_score', 0)] *)
Definition key (x : Annotated) : Z := relevance_score (filter_result x).

(** [sorted(l, key=key, reverse=True)]: the stable sort by falling key.
    An element goes before the first element whose key is not above its
    own, so that elements of equal key stay in the order of the input. *)
Fixpoint insert_desc {A : Type} (key : A -> Z) (x : A) (l : list A) : list A :=
  match l with
  | [] => [x]
  | y :: l' =>
      if (key x <? key y)%Z then y :: insert_desc key x l' else x :: l
  end.

Definition sorted_desc {A : Type} (key : A -> Z) (l : list A) : list A :=
  List.fold_right (insert_desc key) [] l.

(** [l[:n]] for an [int] bound: a negative bound counts from the end. *)
Definition slice_to {A : Type} (n : Z) (l : list A) : list A :=
  if (0 <=? n)%Z then List.firstn (Z.to_nat n) l
  else List.firstn (List.length l - Z.to_nat (- n)) l.

Section WithConfig.

Variable float_str : Q -> string.
Variable cfg : Config.

(** The loop that filters the scraped jobs and annotates the relevant
    ones. *)
Definition relevant_jobs (jobs : list (gmap string Py.scalar)) : list Annotated :=
  List.flat_map
    (fun job =>
       let filter_result := filter_job float_str cfg job in
       if is_relevant filter_result
       then [ {| fields := job; filter_result := filter_result |} ]
       else [])
    jobs.

(** [morning_jobs]: the best matches, at most [morning_limit] of them;
    [None] when the routine returns for want of relevant jobs. *)
Definition morning_jobs (morning_limit : Z) (jobs : list (gmap string Py.scalar))
  : option (list Annotated) :=
  match relevant_jobs jobs with
  | [] => None
  | _ :: _ =>
      let sorted_jobs := sorted_desc key (relevant_jobs jobs) in
      Some (slice_to morning_limit sorted_jobs)
  end.

(** [best_evening_jobs]; [None] when the evening applies to nothing,
    for want of relevant jobs or of quota. *)
Definition best_evening_jobs (evening_limit max_applications
  applications_attempted : Z) (evening_jobs : list (gmap string Py.scalar))
  : option (list Annotated) :=
  let relevant_evening_jobs := relevant_jobs evening_jobs in
  let remaining_quota := (max_applications - applications_attempted)%Z in
  match relevant_evening_jobs with
  | [] => None
  | _ :: _ =>
      if (0 <? remaining_quota)%Z then
        let evening_applications := Z.min evening_limit remaining_quota in
        Some (slice_to evening_applications (sorted_desc key relevant_evening_jobs))
      else None
  end.

End WithConfig.

(** *** Notions used to state the properties of the choice *)

(** [x] may stand before [y] in a list sorted by falling key. *)
Definition above {A : Type} (key : A -> Z) (x y : A) : Prop :=
  (key y <= key x)%Z.

(** The keys fall along the list. *)
Definition falling {A : Type} (key : A -> Z) (l : list A) : Prop :=
  forall i j x y, (i < j)%nat -> List.nth_error l i = Some x ->
                  List.nth_error l j = Some y -> (key y <= key x)%Z.

(** The elements of the list that have the key [k], in their order. *)
Definition with_key {A : Type} (key : A -> Z) (k : Z) (l : list A) : list A :=
  List.filter (fun x => (key x =? k)%Z) l.

(** [batch] is a best choice from [pool]: with some rest it is an
    arrangement of the pool by falling key in which jobs of equal key keep
    the order they have in the pool. *)
Definition best_of {A : Type} (key : A -> Z) (pool batch : list A) : Prop :=
  exists rest,
    Permutation (batch ++ rest) pool /\
    falling key (batch ++ rest) /\
    forall k, with_key key k (batch ++ rest) = with_key key k pool.

End Main.

(** ** auto_apply.py: get_application_summary *)

Module Applicator.

(** A value of an application result: a scalar, or the filter result
    stored under [filter_result]. *)
Inductive field : Type :=
| Plain (v : Py.scalar)
| Nested (r : Filter.FilterResult).

Abbreviation result := (gmap string field).

(** The dict [get_application_summary] returns; [success_rate] is the
    [int] 0 or the rounded [float]. *)
Record ApplicationSummary : Type := {
  total_attempted : Z;
  successful : Z;
  failed : Z;
  external : Z;
  login_required : Z;
  unsupported : Z;
  success_rate : Py.number;
  details : list result
}.

(** [v == status] for a [str] literal [status] *)
Definition is_status (status : string) (v : field) : bool :=
  match v with
  | Plain (Py.SStr s) => String.eqb s status
  | _ => false
  end.

(** [len([r for r in results if r['status'] == status])]; [None] stands
    for the [KeyError] of a result without the key. *)
Fixpoint count_status (status : string) (results : list result) : option Z :=
  match results with
  | [] => Some 0%Z
  | r :: rest =>
      v ← r !! "status";
      n ← count_status status rest;
      Some (if is_status status v then (1 + n)%Z else n)
  end.

Section WithRound.

(** [round(x, 2)], as the interpreter computes it. *)
Variable round2 : Q -> Q.

Definition get_application_summary (results : list result)
  : option ApplicationSummary :=
  let total := Z.of_nat (List.length results) in
  n_success ← count_status "success" results;
  n_failed ← count_status "failed" results;
  n_external ← count_status "external" results;
  n_login ← count_status "login_required" results;
  n_unsupported ← count_status "unsupported" results;
  rate ← (if (0 <? total)%Z
          then ratio ← Summary.true_div n_success total;
               Some (Py.NFloat (round2 (ratio * 100)%Q))
          else Some (Py.NInt 0));
  Some {| total_attempted := total;
          successful := n_success;
          failed := n_failed;
          external := n_external;
          login_required := n_login;
          unsupported := n_unsupported;
          success_rate := rate;
          details := results |}.

End WithRound.

(** *** Notions used to state the properties of the summary *)

(** The result has the status [status]. *)
Definition has_status (status : string) (r : result) : bool :=
  match r !! "status" with
  | Some v => is_status status v
  | None => false
  end.

(** How many results have the status. *)
Definition with_status (status : string) (results : list result) : Z :=
  Z.of_nat (List.length (List.filter (has_status status) results)).

(** The five statuses the summary counts. *)
Definition counted : list string :=
  ["success"; "failed"; "external"; "login_required"; "unsupported"].

End Applicator.

(** ** Sample data

    The configuration file is not part of the sources; the examples run on
    the values below. The jobs are the test jobs at the end of
    [filters.py]. *)

Module Sample.

Import Filter.

Definition cfg : Config :=
  {| positive := ["qa"; "test"; "automation"; "selenium"; "sdet"; "quality"];
     negative := ["senior"; "lead"; "5+ years"; "manager"];
     fresher_friendly := ["fresher"; "entry level"; "graduate"; "0-1 year"];
     min_salary := Py.NInt 3;
     max_salary := Py.NInt 15;
     target_locations := ["Hyderabad"; "Bangalore"; "New Delhi"];
     qa_automation := "Mani_QA1.pdf";
     qa_entry := "Mani_QA3.pdf";
     qa_general := "Mani_QA2.pdf" |}.

(** A stand-in for the interpreter's [str] on floats: it prints a
    rational with at most one decimal. *)
Definition float_str (q : Q) : string :=
  let tenths := (Qnum q * 10 / Z.pos (Qden q))%Z in
  Str.of_Z (tenths / 10) +:+ "." +:+ Str.of_Z (tenths mod 10).

Definition record (title description location company : Py.scalar)
  : gmap string Py.scalar :=
  <[ "title" := title ]> (<[ "description" := description ]>
  (<[ "location" := location ]> (<[ "company" := company ]> ∅))).

Definition fresher_job : gmap string Py.scalar :=
  record (Py.SStr "QA Automation Engineer - Fresher")
         (Py.SStr "Looking for fresher QA engineer with Python and Selenium knowledge. 0-1 years experience. Salary: 5-8 LPA")
         (Py.SStr "Hyderabad") (Py.SStr "Tech Startup").

Definition senior_job : gmap string Py.scalar :=
  record (Py.SStr "Senior Test Lead")
         (Py.SStr "Seeking experienced test lead with 5+ years experience in automation testing")
         (Py.SStr "Bangalore") (Py.SStr "Big Corp").

Definition remote_job : gmap string Py.scalar :=
  record (Py.SStr "SDET - Entry Level")
         (Py.SStr "Entry level SDET position. Python, Selenium, API testing. Remote work available. Fresh graduates welcome.")
         (Py.SStr "Remote") (Py.SStr "Product Company").

(** A posting with one positive keyword only. *)
Definition cook_job : gmap string Py.scalar :=
  record (Py.SStr "Line Cook") (Py.SStr "Quality food, fresher welcome. 5-8 LPA")
         (Py.SStr "Hyderabad") (Py.SStr "Diner").

(** The fresher job with a senior flavour added to its title. *)
Definition mixed_job : gmap string Py.scalar :=
  <[ "title" := Py.SStr "Senior QA Automation Engineer - Fresher" ]> fresher_job.

(** The fresher job with a salary under the configured minimum. *)
Definition underpaid_job : gmap string Py.scalar :=
  <[ "description" := Py.SStr "Fresher QA engineer, Selenium. Salary: 1-2 LPA" ]> fresher_job.

(** The fresher job with a number where the location should be. *)
Definition broken_job : gmap string Py.scalar :=
  <[ "location" := Py.SInt 5 ]> fresher_job.

(** A figure of 4301 digits, one more than [int] reads, as a
    requirement, and the fresher job with it in its description. *)
Definition long_figure : string := Pos.iter (String "9") "" 4301%positive.

Definition long_requirement : string := long_figure +:+ " years experience".

Definition overlong_job : gmap string Py.scalar :=
  <[ "description" := Py.SStr ("QA tester. " +:+ long_requirement) ]> fresher_job.

(** Three automation keywords and five entry-level keywords. *)
Definition cascade_title : Py.scalar := Py.SStr "SDET fresher trainee".
Definition cascade_description : Py.scalar :=
  Py.SStr "Selenium and PyTest; graduate, junior or associate".

(** Scenario E of the specification. *)
Definition scenario_e : string :=
  "contact: careers@acme.com and noreply@acme.com".

Definition acme_job : gmap string Py.scalar :=
  record (Py.SStr "QA Engineer") (Py.SStr scenario_e)
         (Py.SStr "Hyderabad") (Py.SStr "Acme").

(** A company whose cleaned name is meant to be empty, so that no domain
    is guessed and the addresses of the description come first. *)
Definition ltd_job : gmap string Py.scalar :=
  record (Py.SStr "QA Engineer") (Py.SStr scenario_e)
         (Py.SStr "Hyderabad") (Py.SStr "Ltd").

(** The test job of [emailer.py] whose description names an address. *)
Definition techsolutions_job : gmap string Py.scalar :=
  record (Py.SStr "QA Automation Engineer")
         (Py.SStr "Looking for QA engineer with automation skills. Contact: careers@techsolutions.com for more details.")
         (Py.SStr "Hyderabad") (Py.SStr "TechSolutions Pvt Ltd").

(** A company name that ends in a backslash. *)
Definition backslash_job : gmap string Py.scalar :=
  record (Py.SStr "QA Engineer") (Py.SStr scenario_e)
         (Py.SStr "Pune") (Py.SStr "Acme\").

(** A store with the fresher job at location 7 and the senior job at
    location 2. *)
Definition store : gmap Heap.loc Heap.dict :=
  <[ 7%nat := Heap.Scalar <$> fresher_job ]>
    (<[ 2%nat := Heap.Scalar <$> senior_job ]> ∅).

End Sample.

(** * Properties *)

(** ** Strings *)

Module StrFacts.

Import Str.

Lemma app_cons a s t : String a s +:+ t = String a (s +:+ t).
Proof. reflexivity. Qed.

Lemma app_nil_r s : s +:+ "" = s.
Proof. induction s as [|a s IH]; [reflexivity|]. rewrite app_cons, IH. reflexivity. Qed.

Lemma app_assoc s t u : (s +:+ t) +:+ u = s +:+ (t +:+ u).
Proof.
  induction s as [|a s IH]; [reflexivity|].
  rewrite !app_cons, IH. reflexivity.
Qed.

Lemma length_app s t :
  String.length (s +:+ t) = (String.length s + String.length t)%nat.
Proof.
  induction s as [|a s IH]; [reflexivity|].
  rewrite app_cons. simpl. rewrite IH. reflexivity.
Qed.

Lemma take_app s t : take (String.length s) (s +:+ t) = s.
Proof.
  induction s as [|a s IH]; [destruct t; reflexivity|].
  rewrite app_cons. simpl. rewrite IH. reflexivity.
Qed.

Lemma all_app p s t : all p (s +:+ t) = all p s && all p t.
Proof.
  induction s as [|a s IH]; [reflexivity|].
  rewrite app_cons. simpl. rewrite IH. apply andb_assoc.
Qed.

Lemma digits_val_some s : forall acc, all is_digit s = true -> is_Some (digits_val acc s).
Proof.
  induction s as [|a s IH]; intros acc H; simpl in *; [eauto|].
  apply andb_true_iff in H as [Ha Hs]. rewrite Ha. apply IH, Hs.
Qed.

Lemma decimal_some s : isdigit s = true -> is_Some (decimal s).
Proof.
  intros H. unfold decimal. rewrite H. apply digits_val_some.
  destruct s; [discriminate|exact H].
Qed.

Lemma isdigit_all s : isdigit s = true <-> s <> "" /\ all is_digit s = true.
Proof.
  destruct s; simpl; split; try intros [? ?]; try easy.
Qed.

Lemma is_digit_not_dot a : is_digit a = true -> Ascii.eqb a "." = false.
Proof.
  destruct (Ascii.eqb_spec a "."); [subst; discriminate|reflexivity].
Qed.

Lemma cut_dot_digits s : all is_digit s = true -> cut_dot s = (s, None).
Proof.
  induction s as [|a s IH]; simpl; [reflexivity|].
  intros H. apply andb_true_iff in H as [Ha Hs].
  rewrite (is_digit_not_dot _ Ha), (IH Hs). reflexivity.
Qed.

Lemma cut_dot_app s t :
  all is_digit s = true -> cut_dot (s +:+ String "." t) = (s, Some t).
Proof.
  induction s as [|a s IH]; [reflexivity|].
  simpl. intros H. apply andb_true_iff in H as [Ha Hs].
  rewrite ?app_cons. simpl. rewrite (is_digit_not_dot _ Ha), (IH Hs). reflexivity.
Qed.

(** [float] reads every literal of the shape [digits] or [digits.digits]. *)
Lemma to_float_plain s : isdigit s = true -> is_Some (to_float s).
Proof.
  intros H. unfold to_float.
  rewrite cut_dot_digits by (apply isdigit_all in H; tauto).
  destruct (decimal_some s H) as [z ->]. simpl. eauto.
Qed.

Lemma to_float_point s t :
  isdigit s = true -> isdigit t = true -> is_Some (to_float (s +:+ String "." t)).
Proof.
  intros Hs Ht. unfold to_float.
  rewrite cut_dot_app by (apply isdigit_all in Hs; tauto).
  destruct (decimal_some s Hs) as [z ->], (decimal_some t Ht) as [z' ->].
  simpl. eauto.
Qed.

End StrFacts.
(** ** The matcher *)

Module ReFacts.

Import Str Re StrFacts.

Lemma rep_greedy_sound p s s' :
  In s' (rep_greedy p s) -> exists w, s = w +:+ s' /\ all p w = true.
Proof.
  induction s as [|a s IH]; simpl.
  - intros [<-|[]]. exists "". split; reflexivity.
  - destruct (p a) eqn:Hp.
    + intros H. apply in_app_or in H as [H|[<-|[]]].
      * destruct (IH H) as (w & -> & Hw). exists (String a w). split; [reflexivity|].
        simpl. rewrite Hp, Hw. reflexivity.
      * exists "". split; reflexivity.
    + intros [<-|[]]. exists "". split; reflexivity.
Qed.

Lemma eat_sound p n : forall s s',
  eat p n s = Some s' ->
  exists w, s = w +:+ s' /\ all p w = true /\ String.length w = n.
Proof.
  induction n as [|n IH]; simpl; intros s s' H.
  - injection H as <-. exists "". repeat split.
  - destruct s as [|a s]; [discriminate|].
    destruct (p a) eqn:Hp; [|discriminate].
    destruct (IH _ _ H) as (w & -> & Hw & <-).
    exists (String a w). repeat split. simpl. rewrite Hp, Hw. reflexivity.
Qed.

(** Every way [run] finds covers a word of the pattern's language. *)
Lemma run_sound total r : forall s c s' c',
  In (s', c') (run total r s c) -> exists w, s = w +:+ s' /\ lang r w.
Proof.
  induction r as [|p|r1 IH1 r2 IH2|r1 IH1|p n|i r1 IH1| |]; simpl; intros s c s' c' H.
  - destruct H as [[= <- <-]|[]]. exists "". split; reflexivity.
  - destruct s as [|a s]; [destruct H|].
    destruct (p a) eqn:Hp; [|destruct H].
    destruct H as [[= <- <-]|[]]. exists (String a ""). split; [reflexivity|eauto].
  - apply in_flat_map in H as ([s1 c1] & H1 & H2). simpl in H2.
    destruct (IH1 _ _ _ _ H1) as (w1 & -> & L1).
    destruct (IH2 _ _ _ _ H2) as (w2 & -> & L2).
    exists (w1 +:+ w2). split; [symmetry; apply app_assoc|eauto].
  - apply in_app_or in H as [H|[[= <- <-]|[]]].
    + destruct (IH1 _ _ _ _ H) as (w & -> & L). eauto.
    + exists "". split; [reflexivity|left; reflexivity].
  - destruct (eat p n s) as [s1|] eqn:He; [|destruct H].
    apply in_map_iff in H as (s2 & [= <- <-] & H).
    destruct (eat_sound _ _ _ _ He) as (w1 & -> & Hw1 & <-).
    destruct (rep_greedy_sound _ _ _ H) as (w2 & -> & Hw2).
    exists (w1 +:+ w2). split; [symmetry; apply app_assoc|].
    split; [rewrite length_app; lia|rewrite all_app, Hw1, Hw2; reflexivity].
  - apply in_map_iff in H as ([s1 c1] & [= <- <-] & H). eauto.
  - destruct (Nat.eqb _ _); [|destruct H].
    destruct H as [[= <- <-]|[]]. exists "". split; reflexivity.
  - destruct s as [|a [|b s]]; try destruct H.
    + injection H as <- <-. exists "". split; reflexivity.
    + destruct H.
    + destruct (Ascii.eqb a "010"); [|destruct H].
      destruct H as [[= <- <-]|[]]. exists "". split; reflexivity.
Qed.

Lemma consumed_app w s : consumed (w +:+ s) s = w.
Proof.
  unfold consumed. rewrite length_app.
  replace (String.length w + String.length s - String.length s)%nat
    with (String.length w) by lia.
  apply take_app.
Qed.

(** *** Captured groups *)

Lemma run_caps P total r : forall s c s' c',
  grp_ok P r -> caps_ok P c -> In (s', c') (run total r s c) -> caps_ok P c'.
Proof.
  induction r as [|p|r1 IH1 r2 IH2|r1 IH1|p n|i r1 IH1| |]; simpl;
    intros s c s' c' G C H.
  - destruct H as [[= <- <-]|[]]. exact C.
  - destruct s as [|a s]; [destruct H|].
    destruct (p a); [|destruct H]. destruct H as [[= <- <-]|[]]. exact C.
  - destruct G as [G1 G2].
    apply in_flat_map in H as ([s1 c1] & H1 & H2). simpl in H2. eauto.
  - apply in_app_or in H as [H|[[= <- <-]|[]]]; eauto.
  - destruct (eat p n s); [|destruct H].
    apply in_map_iff in H as (s2 & [= <- <-] & H). exact C.
  - destruct G as [G1 G2].
    apply in_map_iff in H as ([s1 c1] & [= <- <-] & H). simpl.
    intros j w [[= <- <-]|Hin].
    + destruct (run_sound _ _ _ _ _ _ H) as (w & -> & L).
      rewrite consumed_app. apply G2, L.
    + eapply IH1; eauto.
  - destruct (Nat.eqb _ _); [|destruct H]. destruct H as [[= <- <-]|[]]. exact C.
  - destruct s as [|a [|b s]]; try destruct H.
    + injection H as <- <-. exact C.
    + destruct H.
    + destruct (Ascii.eqb a "010"); [|destruct H].
      destruct H as [[= <- <-]|[]]. exact C.
Qed.

Lemma group_in i c w : group i c = Some w -> In (i, w) c.
Proof.
  induction c as [|[j v] c IH]; simpl; [discriminate|].
  destruct (Nat.eqb_spec i j) as [->|_].
  - intros [= ->]. left; reflexivity.
  - intros H. right. apply IH, H.
Qed.

Lemma run_binds i total r : forall s c s' c',
  binds i r = true \/ is_Some (group i c) ->
  In (s', c') (run total r s c) -> is_Some (group i c').
Proof.
  induction r as [|p|r1 IH1 r2 IH2|r1 IH1|p n|j r1 IH1| |]; simpl;
    intros s c s' c' B H.
  - destruct H as [[= <- <-]|[]]. destruct B as [?|B]; [discriminate|exact B].
  - destruct s as [|a s]; [destruct H|].
    destruct (p a); [|destruct H]. destruct H as [[= <- <-]|[]].
    destruct B as [?|B]; [discriminate|exact B].
  - apply in_flat_map in H as ([s1 c1] & H1 & H2). simpl in H2.
    destruct B as [B|B].
    + apply orb_true_iff in B as [B|B].
      * eapply IH2; [right|exact H2]. eapply IH1; [left; exact B|exact H1].
      * eapply IH2; [left; exact B|exact H2].
    + eapply IH2; [right|exact H2]. eapply IH1; [right; exact B|exact H1].
  - destruct B as [?|B]; [discriminate|].
    apply in_app_or in H as [H|[[= <- <-]|[]]]; [|exact B].
    eapply IH1; [right; exact B|exact H].
  - destruct (eat p n s); [|destruct H].
    apply in_map_iff in H as (s2 & [= <- <-] & H).
    destruct B as [?|B]; [discriminate|exact B].
  - apply in_map_iff in H as ([s1 c1] & [= <- <-] & H). simpl.
    destruct (Nat.eqb_spec i j) as [->|Hne]; [eauto|].
    simpl in B. eapply IH1; [exact B|exact H].
  - destruct (Nat.eqb _ _); [|destruct H]. destruct H as [[= <- <-]|[]].
    destruct B as [?|B]; [discriminate|exact B].
  - destruct B as [?|B]; [discriminate|].
    destruct s as [|a [|b s]]; try destruct H.
    + injection H as <- <-. exact B.
    + destruct H.
    + destruct (Ascii.eqb a "010"); [|destruct H].
      destruct H as [[= <- <-]|[]]. exact B.
Qed.

(** *** Scanning *)

Lemma first_hit_of total r s len h :
  first_hit total r s = Some (len, h) -> hit_of total r h.
Proof.
  unfold first_hit. destruct (run total r s []) as [|[s1 c] l] eqn:E; [discriminate|].
  intros [= <- <-]. exists s, s1. rewrite E. split; [left|]; reflexivity.
Qed.

Lemma findall_go_hits total r s : forall skip h,
  In h (findall_go total r s skip) -> hit_of total r h.
Proof.
  induction s as [|a s IH]; intros skip h; simpl.
  - destruct skip; [|intros []].
    destruct (first_hit total r "") as [[len h0]|] eqn:E; [|intros []].
    intros [<-|[]]. eapply first_hit_of, E.
  - destruct skip; [|apply IH].
    destruct (first_hit total r (String a s)) as [[len h0]|] eqn:E; [|apply IH].
    intros [<-|H]; [eapply first_hit_of, E|eapply IH, H].
Qed.

Lemma finditer_hits r s h : In h (finditer r s) -> hit_of (String.length s) r h.
Proof. apply findall_go_hits. Qed.

(** The text of a hit is a word of the pattern. *)
Lemma hit_lang total r h : hit_of total r h -> lang r (fst h).
Proof.
  intros (s0 & s1 & H & ->).
  destruct (run_sound _ _ _ _ _ _ H) as (w & -> & L).
  rewrite consumed_app. exact L.
Qed.

(** A group of a hit is empty or a text the pattern lets it hold. *)
Lemma hit_group P total r h i :
  grp_ok P r -> hit_of total r h ->
  group_text i h = "" \/ P i (group_text i h).
Proof.
  intros G (s0 & s1 & H & _). unfold group_text.
  destruct (group i (snd h)) as [w|] eqn:E; [right|left; reflexivity].
  simpl. eapply (run_caps P); [exact G| |exact H|apply group_in, E].
  intros ? ? [].
Qed.

(** A group the pattern binds holds such a text. *)
Lemma hit_bound P total r h i :
  grp_ok P r -> binds i r = true -> hit_of total r h -> P i (group_text i h).
Proof.
  intros G B (s0 & s1 & H & _). unfold group_text.
  destruct (run_binds i _ _ _ _ _ _ (or_introl B) H) as [w E].
  rewrite E. simpl. eapply (run_caps P); [exact G| |exact H|apply group_in, E].
  intros ? ? [].
Qed.

(** *** The length of what is captured *)

Lemma length_take n : forall s, (String.length (take n s) <= String.length s)%nat.
Proof.
  induction n as [|n IH]; intros [|a s]; cbn [take String.length]; try lia.
  specialize (IH s). lia.
Qed.

(** A group holds no more characters than the subject it was read from,
    and what is left of the subject is no longer than the subject. *)
Lemma run_lengths total r : forall s c s' c',
  In (s', c') (run total r s c) ->
  (String.length s' <= String.length s)%nat /\
  forall i w, In (i, w) c' ->
              In (i, w) c \/ (String.length w <= String.length s)%nat.
Proof.
  induction r as [|p|r1 IH1 r2 IH2|r1 IH1|p n|i r1 IH1| |];
    cbn [run]; intros s c s' c' H.
  - destruct H as [[= <- <-]|[]]. auto.
  - destruct s as [|a s]; [destruct H|].
    destruct (p a); [|destruct H].
    destruct H as [[= <- <-]|[]]. cbn [String.length]. split; [lia|auto].
  - apply in_flat_map in H as ([s1 c1] & H1 & H2). cbn [fst snd] in H2.
    destruct (IH1 _ _ _ _ H1) as [L1 C1], (IH2 _ _ _ _ H2) as [L2 C2].
    split; [lia|]. intros i w Hw.
    destruct (C2 i w Hw) as [Hw1|Hw1]; [|right; lia].
    destruct (C1 i w Hw1); [left|right]; assumption.
  - apply in_app_or in H as [H|[[= <- <-]|[]]]; [eapply IH1, H|auto].
  - destruct (eat p n s) as [s1|] eqn:He; [|destruct H].
    apply in_map_iff in H as (s2 & [= <- <-] & H).
    destruct (eat_sound _ _ _ _ He) as (w1 & -> & _ & _).
    destruct (rep_greedy_sound _ _ _ H) as (w2 & -> & _).
    rewrite !length_app. split; [lia|auto].
  - apply in_map_iff in H as ([s1 c1] & [= <- <-] & H).
    destruct (IH1 _ _ _ _ H) as [L1 C1]. split; [exact L1|].
    intros j w [[= <- <-]|Hw]; [right; apply length_take|apply C1, Hw].
  - destruct (Nat.eqb _ _); [|destruct H].
    destruct H as [[= <- <-]|[]]. auto.
  - destruct s as [|a [|b s]]; try destruct H.
    + injection H as <- <-. auto.
    + destruct H.
    + destruct (Ascii.eqb a "010"); [|destruct H].
      destruct H as [[= <- <-]|[]]. auto.
Qed.

Lemma findall_go_lengths total r s : forall skip h i,
  In h (findall_go total r s skip) ->
  (String.length (group_text i h) <= String.length s)%nat.
Proof.
  assert (forall s len h i, first_hit total r s = Some (len, h) ->
          (String.length (group_text i h) <= String.length s)%nat) as Hfirst.
  { intros s0 len h i. unfold first_hit.
    destruct (run total r s0 []) as [|[s1 c1] l] eqn:E; [discriminate|].
    intros [= _ <-]. unfold group_text. cbn [snd].
    destruct (group i c1) as [w|] eqn:G; cbn [default]; [|cbn; lia].
    apply group_in in G.
    assert (In (s1, c1) (run total r s0 [])) as Hin by (rewrite E; left; reflexivity).
    destruct (run_lengths _ _ _ _ _ _ Hin) as [_ C].
    destruct (C i w G) as [[]|H]. exact H. }
  induction s as [|a s IH]; intros skip h i; cbn [findall_go].
  - destruct skip; [|intros []].
    destruct (first_hit total r "") as [[len h0]|] eqn:E; [|intros []].
    intros [<-|[]]. eapply Hfirst, E.
  - cbn [String.length].
    assert (forall k, In h (findall_go total r s k) ->
            (String.length (group_text i h) <= S (String.length s))%nat) as Hrest
      by (intros k Hk; specialize (IH k h i Hk); lia).
    destruct skip; [|apply Hrest].
    destruct (first_hit total r (String a s)) as [[len h0]|] eqn:E; [|apply Hrest].
    intros [<-|H]; [apply (Hfirst _ _ _ i E)|eapply Hrest, H].
Qed.

End ReFacts.

(** ** The filter *)

Module FilterFacts.

Import Str Re StrFacts ReFacts Filter.

Lemma traverse_ok {A B : Type} (f : A -> Py.res B) (l : list A) :
  Forall (fun x => exists y, f x = Py.Ok y) l ->
  exists ys, Py.traverse f l = Py.Ok ys /\ List.length ys = List.length l.
Proof.
  induction 1 as [|x l [y Hy] _ (ys & IH & Hlen)]; simpl; [eauto|].
  rewrite Hy. simpl. rewrite IH. simpl. exists (y :: ys). simpl. auto.
Qed.

(** [int] on a run of digits: it reads a short run and refuses a long
    one. *)
Lemma int_short x :
  isdigit x = true -> short x ->
  exists z, Py.int x = Py.Ok z /\ decimal x = Some z.
Proof.
  intros H Hs. unfold Py.int. destruct (decimal_some x H) as [z ->].
  unfold short in Hs.
  destruct (Z.ltb_spec Py.max_str_digits (Z.of_nat (String.length x))); [lia|].
  eauto.
Qed.

Lemma int_long x :
  isdigit x = true -> long x -> Py.int x = Py.Raise (Py.int_limit (String.length x)).
Proof.
  intros H Hl. unfold Py.int. destruct (decimal_some x H) as [z ->].
  unfold long in Hl.
  destruct (Z.ltb_spec Py.max_str_digits (Z.of_nat (String.length x))); [|lia].
  reflexivity.
Qed.

Lemma short_or_long x : short x \/ long x.
Proof. unfold short, long. lia. Qed.

Lemma long_not_short x : long x -> short x -> False.
Proof. unfold short, long. lia. Qed.

Lemma float_ok x : is_Some (to_float x) -> exists q, Py.float x = Py.Ok q.
Proof. intros [q H]. unfold Py.float. rewrite H. eauto. Qed.

(** The patterns at work: the first salary pattern reads a range, a
    single amount and a range with blanks; the first experience pattern
    reads the figure before the word years. *)
Example salary_pattern_finds :
  List.map (findall (nth 0 salary_patterns {| pat_re := Eps; pat_groups := 0 |}))
           ["salary: 5-8 lpa and 58lpa"; "3.5 - 4.25   lpa"; "12.5.7lpa"; "7. lpa"] =
  [[Tuple ["5"; "8"]; Tuple ["58"; ""]]; [Tuple ["3.5"; "4.25"]];
   [Tuple ["5.7"; ""]]; []].
Proof. vm_compute. reflexivity. Qed.

Example experience_pattern_finds :
  findall (nth 0 exp_patterns {| pat_re := Eps; pat_groups := 0 |})
          "seeking 5+ years experience in; 12 year of   experience" =
  [Text "5"; Text "12"].
Proof. vm_compute. reflexivity. Qed.

(** What a findall item is made of. *)
Lemma findall_head p text first more :
  findall p text = first :: more ->
  exists h, hit_of (String.length text) (pat_re p) h /\ first = item_of (pat_groups p) h.
Proof.
  unfold findall. intros H.
  destruct (finditer (pat_re p) text) as [|h l] eqn:E; [discriminate|].
  injection H as <- _. exists h. split; [|reflexivity].
  apply finditer_hits. rewrite E. left; reflexivity.
Qed.

(** *** Salary literals *)

Lemma lang_rep_digit w : lang (Rep digit 1) w -> isdigit w = true.
Proof.
  intros [Hn Ha]. apply isdigit_all. split; [|exact Ha].
  intros ->. simpl in Hn. lia.
Qed.

Lemma grp_ok_amount i : grp_ok floatP (amount i).
Proof.
  split; [simpl; tauto|]. intros w (w1 & w2 & -> & L1 & [->|L2]).
  - rewrite app_nil_r. apply to_float_plain, lang_rep_digit, L1.
  - destruct L2 as (w3 & w4 & -> & (a & -> & Ha) & L4).
    apply Ascii.eqb_eq in Ha as <-.
    apply to_float_point; apply lang_rep_digit; assumption.
Qed.

Lemma grp_ok_lit P s : grp_ok P (lit s).
Proof.
  induction s as [|a [|b s] IH]; simpl; auto.
Qed.

Lemma grp_ok_cat P rs : Forall (grp_ok P) rs -> grp_ok P (cat rs).
Proof.
  induction 1 as [|r [|r' rs] Hr Hrs IH]; simpl; auto.
Qed.

Lemma binds_lit i s : binds i (lit s) = false.
Proof.
  induction s as [|a [|b s] IH]; simpl; auto.
Qed.

Ltac amount_pat :=
  split; cbn [pat_re pat_groups];
  [ apply grp_ok_cat; cbn [app];
    repeat (apply List.Forall_cons;
            [first [exact I | apply grp_ok_lit | exact (grp_ok_amount _)]|]);
    apply List.Forall_nil
  | first [left; split; reflexivity | right; simpl; lia] ].

Lemma salary_patterns_ok : Forall amount_pattern salary_patterns.
Proof.
  unfold salary_patterns, upper_bound.
  repeat (apply List.Forall_cons; [amount_pat|]). apply List.Forall_nil.
Qed.

Lemma tuple_floats total r h n :
  grp_ok floatP r -> hit_of total r h ->
  exists salaries,
    Py.traverse Py.float (List.filter is_amount (groups n h)) = Py.Ok salaries.
Proof.
  intros G H.
  destruct (traverse_ok Py.float (List.filter is_amount (groups n h))) as (ys & E & _);
    [|eauto].
  apply List.Forall_forall. intros x Hx. apply filter_In in Hx as [Hin Hx].
  unfold groups in Hin. apply in_map_iff in Hin as (i & <- & _).
  destruct (hit_group floatP total r h i G H) as [E|F].
  - rewrite E in Hx. discriminate.
  - apply float_ok, F.
Qed.

(** [extract_salary] raises on no text. *)
Lemma salary_scan_ok ps text :
  Forall amount_pattern ps -> exists info, salary_scan ps text = Py.Ok info.
Proof.
  induction 1 as [|p ps [G B] _ IH]; simpl; [eauto|].
  destruct (findall p text) as [|first more] eqn:E; [exact IH|].
  destruct (findall_head _ _ _ _ E) as (h & H & ->).
  unfold item_of. destruct B as [[-> B]|B].
  - destruct (float_ok (group_text 1 h)) as [q ->]; [|simpl; eauto].
    apply (hit_bound floatP _ _ _ _ G B H).
  - destruct (pat_groups p) as [|[|n]]; [lia|lia|].
    destruct (tuple_floats _ _ _ (S (S n)) G H) as (salaries & ->). simpl.
    destruct salaries as [|a [|b [|c l]]]; eauto.
Qed.

Lemma extract_salary_ok job_text : exists info, extract_salary job_text = Py.Ok info.
Proof. apply salary_scan_ok, salary_patterns_ok. Qed.

(** *** Experience figures *)

Lemma grp_ok_count i : grp_ok digitsP (count i).
Proof. split; [exact I|]. intros w L. apply lang_rep_digit, L. Qed.

Ltac count_pat :=
  split; cbn [pat_re pat_groups];
  [ apply grp_ok_cat;
    repeat (apply List.Forall_cons;
            [first [exact I | apply grp_ok_lit | exact (grp_ok_count _)
                   | simpl; tauto]|]);
    apply List.Forall_nil
  | split; [reflexivity | first [left; reflexivity | right; split; reflexivity]] ].

Lemma exp_patterns_ok : Forall count_pattern exp_patterns.
Proof.
  unfold exp_patterns.
  repeat (apply List.Forall_cons; [count_pat|]). apply List.Forall_nil.
Qed.

(** What the first match of an experience pattern asks for: the figure
    it captured, or the lesser of the two it captured. *)
(** What the first match of an experience pattern hands to [int]: one
    run of digits, or two. *)
Lemma requirement_of_match p text first more :
  count_pattern p -> findall p text = first :: more ->
  (exists x, first = Text x /\ isdigit x = true /\
             requirement first = Py.int x) \/
  (exists x y, first = Tuple [x; y] /\ isdigit x = true /\ isdigit y = true /\
               requirement first =
               (a ← Py.int x; b ← Py.int y; mret (Z.min a b))).
Proof.
  intros (G & B1 & N) E.
  destruct (findall_head _ _ _ _ E) as (h & H & ->).
  pose proof (hit_bound digitsP _ _ _ _ G B1 H) as D1. unfold digitsP in D1.
  destruct N as [->|[-> B2]].
  - left. exists (group_text 1 h). cbn [item_of requirement]. auto.
  - right.
    pose proof (hit_bound digitsP _ _ _ _ G B2 H) as D2. unfold digitsP in D2.
    exists (group_text 1 h), (group_text 2 h).
    repeat split; try assumption.
    cbn [item_of requirement groups seq List.map List.filter].
    rewrite D1, D2. cbn [Py.traverse].
    destruct (Py.int (group_text 1 h)) as [a|e]; [|reflexivity].
    cbn [mbind Py.res_bind mret Py.res_ret].
    destruct (Py.int (group_text 2 h)) as [b|e]; reflexivity.
Qed.

Lemma figures_of_match p text first more :
  count_pattern p -> findall p text = first :: more ->
  Forall (fun x => isdigit x = true) (figures first) /\
  (List.length (figures first) <= 2)%nat.
Proof.
  intros C E.
  destruct (requirement_of_match _ _ _ _ C E)
    as [(x & -> & Hx & _)|(x & y & -> & Hx & Hy & _)]; cbn [figures List.filter].
  - split; [repeat constructor; exact Hx|cbn; lia].
  - rewrite Hx, Hy. split; [repeat constructor; assumption|cbn; lia].
Qed.

Lemma length_lower s : String.length (lower s) = String.length s.
Proof.
  unfold lower. induction s as [|a s IH]; cbn [Str.map String.length]; congruence.
Qed.

(** A figure of a match is no longer than the text. *)
Lemma figures_length p text first more :
  count_pattern p -> findall p text = first :: more ->
  Forall (fun x => (String.length x <= String.length text)%nat) (figures first).
Proof.
  unfold findall. intros (_ & _ & N) H.
  destruct (finditer (pat_re p) text) as [|h l] eqn:E; [discriminate|].
  injection H as <- _.
  assert (forall i, (String.length (group_text i h) <= String.length text)%nat) as L.
  { intros i. apply (findall_go_lengths (String.length text) (pat_re p) text 0).
    fold (finditer (pat_re p) text). rewrite E. left. reflexivity. }
  assert (forall n, Forall (fun x => (String.length x <= String.length text)%nat)
                           (groups n h)) as G.
  { intros n. unfold groups. apply List.Forall_forall. intros x Hx.
    apply in_map_iff in Hx as (i & <- & _). apply L. }
  unfold item_of. destruct (pat_groups p) as [|[|n]]; cbn [figures].
  - destruct N as [N|[N _]]; discriminate N.
  - repeat constructor. apply L.
  - apply List.Forall_forall. intros x Hx. apply filter_In in Hx as [Hx _].
    specialize (G (S (S n))). rewrite List.Forall_forall in G. apply G, Hx.
Qed.

End FilterFacts.

(** ** Properties of filter_job and its stages *)

Module FilterSpec.

Import Str Re StrFacts ReFacts Filter FilterFacts.

Section WithConfig.

Variable float_str : Q -> string.
Variable cfg : Config.

Lemma role_check_few_keywords title description :
  (score (positive cfg) (joined title description) < 2)%Z ->
  is_relevant_role cfg title description =
    {| rc_is_relevant := false;
       rc_reason := "Insufficient QA/Testing keywords";
       rc_matched_keywords := hits (positive cfg) (joined title description);
       rc_fresher_friendly := None;
       rc_score := 0 |}.
Proof.
  intros H. unfold is_relevant_role, score in *.
  apply Z.ltb_lt in H. rewrite H. reflexivity.
Qed.

(** C1. A job record in which fewer than two of the configured positive
    keywords occur in the lower-cased title and description (each entry of
    the configured list counting once, as the code counts) is rejected by
    [filter_job], whatever its other fields hold; the reason is the one of
    the keyword test. *)
Theorem filter_job_few_keywords (job_data : job) :
  (score (positive cfg) (job_text job_data) < 2)%Z ->
  is_relevant (filter_job float_str cfg job_data) = false /\
  reason (filter_job float_str cfg job_data) = "Insufficient QA/Testing keywords".
Proof.
  intros H. unfold filter_job, filter_job_try.
  rewrite (role_check_few_keywords _ _ H). simpl. split; reflexivity.
Qed.

Lemma role_check_negative title description :
  (0 < score (negative cfg) (joined title description))%Z ->
  score (fresher_friendly cfg) (joined title description) = 0%Z ->
  rc_is_relevant (is_relevant_role cfg title description) = false.
Proof.
  intros Hn Hf. unfold is_relevant_role.
  destruct (_ <? 2)%Z; [reflexivity|].
  fold (score (negative cfg) (joined title description)).
  apply Z.ltb_lt in Hn. rewrite Hn, Hf. reflexivity.
Qed.

Lemma role_check_fresher kws title description :
  (0 < score (fresher_friendly cfg) (joined title description))%Z ->
  is_relevant_role (with_negative kws cfg) title description =
  is_relevant_role cfg title description.
Proof.
  intros Hf. unfold is_relevant_role. simpl.
  destruct (_ <? 2)%Z; [reflexivity|].
  assert ((score (fresher_friendly cfg) (joined title description) =? 0)%Z = false)
    as -> by (apply Z.eqb_neq; lia).
  rewrite !andb_false_r. reflexivity.
Qed.

(** C2. A job record whose text holds a negative keyword and no
    fresher-friendly keyword is rejected, however many positive keywords
    it holds. When a fresher-friendly keyword is present the negative
    keywords have no say: the role check passes as soon as two positive
    keywords occur, and [filter_job] answers as it would with an empty
    list of negative keywords. *)
Theorem filter_job_negative_override (job_data : job) :
  ((0 < score (negative cfg) (job_text job_data))%Z ->
   score (fresher_friendly cfg) (job_text job_data) = 0%Z ->
   is_relevant (filter_job float_str cfg job_data) = false) /\
  ((0 < score (fresher_friendly cfg) (job_text job_data))%Z ->
   ((2 <= score (positive cfg) (job_text job_data))%Z ->
    rc_is_relevant (is_relevant_role cfg (get job_data "title")
                                     (get job_data "description")) = true) /\
   filter_job float_str cfg job_data =
   filter_job float_str (with_negative [] cfg) job_data).
Proof.
  unfold job_text. split.
  - intros Hn Hf. unfold filter_job, filter_job_try.
    rewrite (role_check_negative _ _ Hn Hf). reflexivity.
  - intros Hf. split.
    + intros Hp. unfold is_relevant_role, score in *.
      assert ((Z.of_nat (List.length (hits (positive cfg)
                (joined (get job_data "title") (get job_data "description")))) <? 2)%Z
              = false) as -> by (apply Z.ltb_ge; exact Hp).
      assert ((Z.of_nat (List.length (hits (fresher_friendly cfg)
                (joined (get job_data "title") (get job_data "description")))) =? 0)%Z
              = false) as -> by (apply Z.eqb_neq; lia).
      rewrite andb_false_r. reflexivity.
    + unfold filter_job, filter_job_try.
      rewrite (role_check_fresher [] _ _ Hf). reflexivity.
Qed.

(** C6. [select_resume] is a cascade: three automation keywords or two
    advanced-project keywords give the automation resume; failing that,
    two entry-level keywords give the entry-level resume; failing that,
    the general resume. The entry-level score is not compared with the
    others: with three automation keywords and five entry-level ones the
    automation resume is chosen. *)
Theorem select_resume_cascade (job_title job_description : Py.scalar) :
  let text := joined job_title job_description in
  let automation_score := score automation_keywords text in
  let entry_score := score entry_keywords text in
  let advanced_score := score advanced_project_keywords text in
  ((3 <= automation_score)%Z \/ (2 <= advanced_score)%Z ->
   select_resume cfg job_title job_description = qa_automation cfg) /\
  ((automation_score < 3)%Z -> (advanced_score < 2)%Z -> (2 <= entry_score)%Z ->
   select_resume cfg job_title job_description = qa_entry cfg) /\
  ((automation_score < 3)%Z -> (advanced_score < 2)%Z -> (entry_score < 2)%Z ->
   select_resume cfg job_title job_description = qa_general cfg) /\
  (automation_score = 3%Z -> entry_score = 5%Z ->
   select_resume cfg job_title job_description = qa_automation cfg).
Proof.
  intros text automation_score entry_score advanced_score.
  unfold select_resume.
  fold text. fold automation_score. fold entry_score. fold advanced_score.
  destruct (Z.leb_spec 3 automation_score), (Z.leb_spec 2 advanced_score),
    (Z.leb_spec 2 entry_score); simpl; repeat split; intros; try reflexivity; lia.
Qed.

Lemma find_first {A : Type} (p : A -> bool) (P : A -> Prop) (l : list A) (x : A) :
  (forall y, p y = true <-> P y) -> first_such P l x -> List.find p l = Some x.
Proof.
  intros Hp (l1 & l2 & -> & Hx & Hl1).
  induction l1 as [|y l1 IH]; simpl.
  - apply Hp in Hx. rewrite Hx. reflexivity.
  - destruct (p y) eqn:E.
    + exfalso. apply (Hl1 y); [left; reflexivity|apply Hp, E].
    + apply IH. intros z Hz. apply Hl1. right. exact Hz.
Qed.

Lemma find_none_such {A : Type} (p : A -> bool) (P : A -> Prop) (l : list A) :
  (forall y, p y = true <-> P y) -> none_such P l -> List.find p l = None.
Proof.
  intros Hp H. induction l as [|y l IH]; simpl; [reflexivity|].
  destruct (p y) eqn:E.
  - exfalso. apply (H y); [left; reflexivity|apply Hp, E].
  - apply IH. intros z Hz. apply H. right. exact Hz.
Qed.

Lemma partial_match_spec location_lower target_loc :
  partial_match location_lower target_loc = true <->
  names_word_of location_lower target_loc.
Proof. unfold partial_match, names_word_of. apply existsb_exists. Qed.

Lemma is_location_match_unfold location :
  location <> "" ->
  is_location_match cfg (Py.SStr location) =
  location_verdict cfg (Str.lower location) location.
Proof.
  intros Hne. unfold is_location_match, Py.truthy.
  rewrite negb_involutive. apply String.eqb_neq in Hne. rewrite Hne. reflexivity.
Qed.

Lemma location_verdict_total l location :
  exists check, location_verdict cfg l location = Py.Ok check.
Proof.
  unfold location_verdict.
  destruct (List.find _ (target_locations cfg)); [eauto|].
  destruct (List.find _ remote_indicators); [eauto|].
  destruct (List.find _ (target_locations cfg)); eauto.
Qed.

(** C4. [is_location_match] on a location string applies its rules in
    order and the first that applies decides: the empty location is
    accepted; else the first target location whose lower-cased name occurs
    in the lower-cased location; else the first term of the remote-work
    vocabulary that occurs in it; else the first target location one of
    whose words occurs in it; else the location is rejected. The location
    Remote is accepted under every configuration. *)
Theorem is_location_match_policy (location : string) :
  let l := Str.lower location in
  (exists check,
     is_location_match cfg (Py.SStr location) = Py.Ok check /\
     (location = "" ->
      accepted check "No location specified (assuming remote)") /\
     (location <> "" ->
      forall t, first_such (names_target l) (target_locations cfg) t ->
      accepted check ("Matches preferred location: " +:+ t)) /\
     (location <> "" ->
      none_such (names_target l) (target_locations cfg) ->
      forall i, first_such (names_remote l) remote_indicators i ->
      accepted check ("Remote work: " +:+ i)) /\
     (location <> "" ->
      none_such (names_target l) (target_locations cfg) ->
      none_such (names_remote l) remote_indicators ->
      forall t, first_such (names_word_of l) (target_locations cfg) t ->
      accepted check ("Partial location match: " +:+ t)) /\
     (location <> "" ->
      none_such (names_target l) (target_locations cfg) ->
      none_such (names_remote l) remote_indicators ->
      none_such (names_word_of l) (target_locations cfg) ->
      lc_is_match check = false /\
      lc_reason check = "Location " +:+ location +:+ " not in preferred list")) /\
  (exists check,
     is_location_match cfg (Py.SStr "Remote") = Py.Ok check /\
     lc_is_match check = true).
Proof.
  intros l. split.
  - destruct (String.eqb_spec location "") as [->|Hne].
    + eexists. split; [reflexivity|].
      repeat split; intros; try reflexivity; congruence.
    + rewrite (is_location_match_unfold _ Hne). fold l.
      destruct (location_verdict_total l location) as [check E].
      exists check. split; [exact E|].
      split; [intros ?; congruence|].
      unfold location_verdict in E.
      split; [|split; [|split]].
      * intros _ t Ht.
        rewrite (find_first _ (names_target l) _ t) in E
          by (reflexivity || exact Ht).
        injection E as <-. split; reflexivity.
      * intros _ Hn i Hi.
        rewrite (find_none_such _ (names_target l)) in E
          by (reflexivity || exact Hn).
        rewrite (find_first _ (names_remote l) _ i) in E
          by (reflexivity || exact Hi).
        injection E as <-. split; reflexivity.
      * intros _ Hn Hr t Ht.
        rewrite (find_none_such _ (names_target l)) in E
          by (reflexivity || exact Hn).
        rewrite (find_none_such _ (names_remote l)) in E
          by (reflexivity || exact Hr).
        rewrite (find_first _ (names_word_of l) _ t) in E
          by (apply partial_match_spec || exact Ht).
        injection E as <-. split; reflexivity.
      * intros _ Hn Hr Hw.
        rewrite (find_none_such _ (names_target l)) in E
          by (reflexivity || exact Hn).
        rewrite (find_none_such _ (names_remote l)) in E
          by (reflexivity || exact Hr).
        rewrite (find_none_such _ (names_word_of l)) in E
          by (apply partial_match_spec || exact Hw).
        injection E as <-. split; reflexivity.
  - unfold is_location_match. simpl.
    destruct (List.find _ (target_locations cfg)); [eexists; split; reflexivity|].
    eexists; split; reflexivity.
Qed.

Lemma experience_scan_skip before rest text :
  Forall (fun q => findall q text = []) before ->
  experience_scan float_str (before ++ rest) text =
  experience_scan float_str rest text.
Proof.
  induction 1 as [|q before Hq _ IH]; simpl; [reflexivity|].
  rewrite Hq. exact IH.
Qed.

Lemma experience_verdict_match required_exp :
  ec_is_match (experience_verdict float_str required_exp) = true <->
  (inject_Z required_exp <= actual_experience + 1)%Q.
Proof.
  unfold experience_verdict, Py.le.
  destruct (Qle_bool _ _) eqn:E; simpl.
  - apply Qle_bool_iff in E. tauto.
  - split; [discriminate|]. intros H. apply Qle_bool_iff in H. congruence.
Qed.

Lemma experience_verdict_reason required_exp :
  ec_required_exp (experience_verdict float_str required_exp) = required_exp /\
  (ec_is_match (experience_verdict float_str required_exp) = false ->
   ec_reason (experience_verdict float_str required_exp) =
   "Requires " +:+ Str.of_Z required_exp +:+ " years, profile has " +:+
   float_str actual_experience).
Proof.
  unfold experience_verdict. destruct (Py.le _ _); simpl; split; auto; discriminate.
Qed.

Lemma calculate_experience_match_str description :
  calculate_experience_match float_str (Py.SStr description) =
  experience_scan float_str exp_patterns (Str.lower description).
Proof. reflexivity. Qed.

Lemma decided_verdict outcome required_exp :
  outcome = Py.Ok (experience_verdict float_str required_exp) ->
  decided float_str outcome required_exp.
Proof.
  intros ->. split; [reflexivity|]. split; [apply experience_verdict_reason|].
  split; [apply experience_verdict_match|apply experience_verdict_reason].
Qed.

(** The outcome of the check when the first match is known. *)
Lemma experience_scan_first text p first :
  first_match exp_patterns text p first ->
  count_pattern p /\
  experience_scan float_str exp_patterns text =
    (required_exp ← requirement first;
     mret (experience_verdict float_str required_exp)).
Proof.
  intros (before & after & more & Hp & Hb & Hf).
  assert (count_pattern p) as C.
  { pose proof exp_patterns_ok as A. rewrite Hp in A.
    apply Forall_app in A as [_ A]. inversion A; assumption. }
  split; [exact C|].
  rewrite Hp, (experience_scan_skip _ _ _ Hb). cbn [experience_scan].
  rewrite Hf. reflexivity.
Qed.

(** C5 (amended). [calculate_experience_match] on a description tries
    its patterns in order on the lower-cased text. When none finds
    anything the check accepts with a requirement of 0 years. Otherwise
    the first pattern that finds something decides, by the first thing it
    finds, which holds one run of digits or two. When [int] reads them,
    a single figure is the requirement, of a pair of figures the lesser
    one is; the check accepts exactly when the requirement is at most the
    fixed experience of 1.5 years plus 1, and rejects otherwise with a
    reason that cites the requirement. When a figure has more than 4300
    digits, [int] raises its fault on the first such figure and the check
    gives no verdict. *)
Theorem calculate_experience_match_policy (description : string) :
  let text := Str.lower description in
  let outcome := calculate_experience_match float_str (Py.SStr description) in
  (Forall (fun p => findall p text = []) exp_patterns ->
   outcome =
   Py.Ok {| ec_is_match := true;
            ec_required_exp := 0;
            ec_reason := "No specific experience requirement mentioned" |}) /\
  (forall p first,
     first_match exp_patterns text p first ->
     match first with
     | Text x =>
         Str.isdigit x = true /\
         (short x ->
          exists required_exp,
            Str.decimal x = Some required_exp /\
            decided float_str outcome required_exp) /\
         (long x -> outcome = Py.Raise (Py.int_limit (String.length x)))
     | Tuple t =>
         exists x y,
           t = [x; y] /\ Str.isdigit x = true /\ Str.isdigit y = true /\
           (short x -> short y ->
            exists a b,
              Str.decimal x = Some a /\ Str.decimal y = Some b /\
              decided float_str outcome (Z.min a b)) /\
           (long x -> outcome = Py.Raise (Py.int_limit (String.length x))) /\
           (short x -> long y ->
            outcome = Py.Raise (Py.int_limit (String.length y)))
     end).
Proof.
  intros text outcome. unfold outcome.
  rewrite calculate_experience_match_str. fold text. split.
  - intros H. rewrite <- (List.app_nil_r exp_patterns).
    rewrite (experience_scan_skip _ [] _ H). reflexivity.
  - intros p first F. pose proof F as (before & after & more & _ & _ & Hf).
    destruct (experience_scan_first _ _ _ F) as [C ->].
    destruct (requirement_of_match _ _ _ _ C Hf)
      as [(x & -> & Hx & ->)|(x & y & -> & Hx & Hy & ->)].
    + split; [exact Hx|]. split.
      * intros Hs. destruct (int_short x Hx Hs) as (z & -> & Hz).
        exists z. split; [exact Hz|]. apply decided_verdict. reflexivity.
      * intros Hl. rewrite (int_long x Hx Hl). reflexivity.
    + exists x, y. split; [reflexivity|]. split; [exact Hx|]. split; [exact Hy|].
      split; [|split].
      * intros Hsx Hsy.
        destruct (int_short x Hx Hsx) as (a & -> & Ha).
        destruct (int_short y Hy Hsy) as (b & -> & Hb).
        exists a, b. split; [exact Ha|]. split; [exact Hb|].
        apply decided_verdict. reflexivity.
      * intros Hl. rewrite (int_long x Hx Hl). reflexivity.
      * intros Hsx Hly. destruct (int_short x Hx Hsx) as (a & -> & _).
        rewrite (int_long y Hy Hly). reflexivity.
Qed.

Lemma lt_spec a b : Py.lt a b = true <-> (a < b)%Q.
Proof.
  unfold Py.lt. rewrite negb_true_iff. split.
  - intros H. apply Qnot_le_lt. intros L. apply Qle_bool_iff in L. congruence.
  - intros H. destruct (Qle_bool b a) eqn:E; [|reflexivity].
    apply Qle_bool_iff in E. exfalso. exact (Qlt_not_le _ _ H E).
Qed.

Lemma salary_objection_spec salary_info :
  (exists why, salary_objection float_str cfg salary_info = Some why) <->
  si_found salary_info = true /\
  ((si_max_salary salary_info < Py.num_val (min_salary cfg))%Q \/
   (Py.num_val (max_salary cfg) < si_min_salary salary_info)%Q).
Proof.
  unfold salary_objection. destruct (si_found salary_info).
  - destruct (Py.lt (si_max_salary _) _) eqn:E1.
    + apply lt_spec in E1. split; eauto.
    + destruct (Py.lt _ (si_min_salary _)) eqn:E2.
      * apply lt_spec in E2. split; eauto.
      * split; [intros [? ?]; discriminate|].
        intros [_ [H|H]]; apply lt_spec in H; congruence.
  - split; [intros [? ?]; discriminate|intros [? _]; discriminate].
Qed.

(** C3. For a job record that passes the role, location and experience
    checks, salary extraction returns a result, and [filter_job] rejects
    the job exactly when that result has [found] set and either its
    maximum is below the configured minimum salary or its minimum is above
    the configured maximum; the reason is then the one of the salary test.
    When [found] is not set the job is accepted. *)
Theorem filter_job_salary_stage (job_data : job)
  (location_check : LocationCheck) (exp_check : ExperienceCheck) :
  let title := get job_data "title" in
  let description := get job_data "description" in
  rc_is_relevant (is_relevant_role cfg title description) = true ->
  is_location_match cfg (get job_data "location") = Py.Ok location_check ->
  lc_is_match location_check = true ->
  calculate_experience_match float_str description = Py.Ok exp_check ->
  ec_is_match exp_check = true ->
  exists salary_info,
    extract_salary (Py.fmt title +:+ " " +:+ Py.fmt description) = Py.Ok salary_info /\
    (is_relevant (filter_job float_str cfg job_data) = false <->
     si_found salary_info = true /\
     ((si_max_salary salary_info < Py.num_val (min_salary cfg))%Q \/
      (Py.num_val (max_salary cfg) < si_min_salary salary_info)%Q)) /\
    (is_relevant (filter_job float_str cfg job_data) = false ->
     salary_objection float_str cfg salary_info =
     Some (reason (filter_job float_str cfg job_data))) /\
    (si_found salary_info = false ->
     is_relevant (filter_job float_str cfg job_data) = true).
Proof.
  intros title description Hrole Hloc Hlm Hexp Hem.
  destruct (extract_salary_ok (Py.fmt title +:+ " " +:+ Py.fmt description))
    as [salary_info Hs].
  exists salary_info. split; [exact Hs|].
  assert (filter_job float_str cfg job_data =
          match salary_objection float_str cfg salary_info with
          | Some why => rejected why (details (filter_job float_str cfg job_data))
          | None => filter_job float_str cfg job_data
          end /\
          (salary_objection float_str cfg salary_info = None ->
           is_relevant (filter_job float_str cfg job_data) = true)) as [Hf Ha].
  { unfold filter_job, filter_job_try.
    fold title. fold description.
    rewrite Hrole, Hloc. simpl. rewrite Hlm, Hexp. simpl. rewrite Hem, Hs. simpl.
    destruct (salary_objection float_str cfg salary_info); split;
      try reflexivity; discriminate. }
  pose proof (salary_objection_spec salary_info) as Spec.
  destruct (salary_objection float_str cfg salary_info) as [why|] eqn:E.
  - rewrite Hf. simpl. split; [|split].
    + split; [intros _; apply Spec; eauto|reflexivity].
    + reflexivity.
    + intros Hnf. destruct Spec as [Spec _].
      destruct Spec as [Hfound _]; [eauto|congruence].
  - rewrite (Ha eq_refl). split; [|split].
    + split; [discriminate|]. intros H. apply Spec in H as [? ?]. discriminate.
    + discriminate.
    + reflexivity.
Qed.

Lemma lower_fault v e : Py.lower v = Py.Raise e -> e = no_lower v.
Proof. destruct v; simpl; intros [= <-]; reflexivity. Qed.

(** [is_location_match] raises on a value that counts as true and is no
    string, and on no other. *)
Lemma is_location_match_raises location e :
  is_location_match cfg location = Py.Raise e <->
  Py.truthy location = true /\ (forall s, location <> Py.SStr s) /\
  e = no_lower location.
Proof.
  split.
  - unfold is_location_match.
    destruct (Py.truthy location) eqn:Ht; cbn [negb]; [|discriminate].
    destruct location as [| | |s]; cbn [Py.lower mbind Py.res_bind];
      try (intros [= <-]; repeat split; discriminate).
    intros H. exfalso.
    repeat match type of H with
           | context [match ?x with Some _ => _ | None => _ end] => destruct x
           end; discriminate.
  - intros (Ht & Hs & ->). unfold is_location_match. rewrite Ht. cbn [negb].
    destruct location as [| | |s]; try reflexivity. elim (Hs s). reflexivity.
Qed.

Lemma first_match_or_none ps text :
  Forall (fun p => findall p text = []) ps \/
  exists p first, first_match ps text p first.
Proof.
  induction ps as [|q ps IH]; [left; constructor|].
  destruct (findall q text) as [|first more] eqn:E.
  - destruct IH as [IH|(p & first & before & after & more & -> & Hb & Hf)].
    + left. constructor; assumption.
    + right. exists p, first, (q :: before), after, more.
      split; [reflexivity|]. split; [constructor; assumption|exact Hf].
  - right. exists q, first, [], ps, more.
    split; [reflexivity|]. split; [constructor|exact E].
Qed.

(** The fault of [int] on the figures of a first match: that of the first
    figure that is too long. *)
Lemma requirement_raises p text first more e :
  count_pattern p -> findall p text = first :: more ->
  requirement first = Py.Raise e <->
  exists x, first_such long (figures first) x /\
            e = Py.int_limit (String.length x).
Proof.
  intros C E.
  destruct (requirement_of_match _ _ _ _ C E)
    as [(x & -> & Hx & ->)|(x & y & -> & Hx & Hy & ->)]; cbn [figures List.filter].
  - split.
    + intros H. destruct (short_or_long x) as [Hs|Hl].
      * destruct (int_short x Hx Hs) as (z & Hz & _). congruence.
      * rewrite (int_long x Hx Hl) in H. injection H as <-.
        exists x. split; [|reflexivity].
        exists [], []. split; [reflexivity|]. split; [exact Hl|intros y []].
    + intros (x' & (l1 & l2 & Hl12 & Hl & Hb) & ->).
      destruct l1 as [|a [|b l1]]; try discriminate.
      injection Hl12 as -> _. apply int_long; assumption.
  - rewrite Hx, Hy. split.
    + intros H. destruct (short_or_long x) as [Hsx|Hlx].
      * destruct (int_short x Hx Hsx) as (a & Ha & _). rewrite Ha in H.
        cbn [mbind Py.res_bind] in H.
        destruct (short_or_long y) as [Hsy|Hly].
        -- destruct (int_short y Hy Hsy) as (b & Hb & _). rewrite Hb in H.
           discriminate.
        -- rewrite (int_long y Hy Hly) in H. injection H as <-.
           exists y. split; [|reflexivity].
           exists [x], []. split; [reflexivity|]. split; [exact Hly|].
           intros z [<-|[]] Hz. exact (long_not_short _ Hz Hsx).
      * rewrite (int_long x Hx Hlx) in H. injection H as <-.
        exists x. split; [|reflexivity].
        exists [], [y]. split; [reflexivity|]. split; [exact Hlx|intros z []].
    + intros (x' & (l1 & l2 & Hl12 & Hl & Hb) & ->).
      destruct l1 as [|a [|b l1]].
      * injection Hl12 as -> _. rewrite (int_long x' Hx Hl). reflexivity.
      * injection Hl12 as -> -> _.
        destruct (short_or_long a) as [Hsa|Hla];
          [|elim (Hb a); [left; reflexivity|exact Hla]].
        destruct (int_short a Hx Hsa) as (z & -> & _).
        cbn [mbind Py.res_bind]. rewrite (int_long x' Hy Hl). reflexivity.
      * exfalso. injection Hl12 as _ _ Hrest.
        destruct l1; discriminate.
Qed.

Lemma first_match_unique ps text p first p' first' :
  first_match ps text p first -> first_match ps text p' first' ->
  p = p' /\ first = first'.
Proof.
  intros (b1 & a1 & m1 & H1 & Hb1 & Hf1) (b2 & a2 & m2 & H2 & Hb2 & Hf2).
  subst ps. revert b2 H2 Hb2.
  induction Hb1 as [|q b1 Hq _ IH]; intros b2 H2 Hb2.
  - destruct b2 as [|q2 b2]; cbn [app] in H2.
    + injection H2 as <- _. split; congruence.
    + injection H2 as <- _. inversion Hb2; subst. congruence.
  - destruct b2 as [|q2 b2]; cbn [app] in H2.
    + injection H2 as -> _. congruence.
    + injection H2 as _ H2. inversion Hb2; subst. eapply IH; eauto.
Qed.

(** [calculate_experience_match] raises on a description that is no
    string, and on one whose first match holds a figure that is too long
    for [int]; on no other. *)
Lemma calculate_experience_match_raises description e :
  calculate_experience_match float_str description = Py.Raise e <->
  ((forall s, description <> Py.SStr s) /\ e = no_lower description) \/
  (exists text p first x,
     description = Py.SStr text /\
     first_match exp_patterns (Str.lower text) p first /\
     first_such long (figures first) x /\
     e = Py.int_limit (String.length x)).
Proof.
  destruct description as [| |z|text];
    try (split; [intros [= <-]; left; split; [discriminate|reflexivity]
                |intros [[_ ->]|(t & _ & _ & _ & Hd & _)];
                 [reflexivity|discriminate]]).
  rewrite calculate_experience_match_str. split.
  - intros H. right.
    destruct (first_match_or_none exp_patterns (lower text))
      as [Hnone|(p & first & F)].
    + rewrite <- (List.app_nil_r exp_patterns) in H.
      rewrite (experience_scan_skip _ [] _ Hnone) in H. discriminate.
    + pose proof F as (before & after & more & _ & _ & Hf).
      destruct (experience_scan_first _ _ _ F) as [C E]. rewrite E in H.
      destruct (requirement first) as [z|e'] eqn:R; [discriminate|].
      injection H as <-.
      apply (requirement_raises _ _ _ _ _ C Hf) in R as (x & Hx & ->).
      exists text, p, first, x. auto.
  - intros [[Hs _]|(t & p & first & x & [= <-] & F & Hx & ->)];
      [elim (Hs text); reflexivity|].
    pose proof F as (before & after & more & _ & _ & Hf).
    destruct (experience_scan_first _ _ _ F) as [C ->].
    assert (requirement first = Py.Raise (Py.int_limit (String.length x))) as ->
      by (apply (requirement_raises _ _ _ _ _ C Hf); eauto).
    reflexivity.
Qed.

(** C7. [filter_job] always returns a result, for the body of its [try]
    block raises three faults only, each an [Exception] the handler
    catches: the attribute error of a location that counts as true and is
    no string, the attribute error of a description that is no string,
    and the value error of [int] on a figure of more than 4300 digits in
    the first match of the experience patterns. The first arises in the
    location stage, the other two in the experience stage, and only when
    the stages before have accepted the job; the role stage, the salary
    stage and the choice of the resume raise nothing. On a fault the
    result is a rejection whose reason is the text of the fault behind a
    fixed prefix and whose details are empty, so that not even the
    results of the stages that ran go with it. When no stage raises, the
    result is the one the stages built. *)
Theorem filter_job_catches_faults (job_data : job) :
  let title := get job_data "title" in
  let description := get job_data "description" in
  let location := get job_data "location" in
  let result := filter_job float_str cfg job_data in
  (forall e,
     filter_job_try float_str cfg job_data = Py.Raise e <->
     rc_is_relevant (is_relevant_role cfg title description) = true /\
     (is_location_match cfg location = Py.Raise e \/
      exists location_check,
        is_location_match cfg location = Py.Ok location_check /\
        lc_is_match location_check = true /\
        calculate_experience_match float_str description = Py.Raise e)) /\
  (forall e,
     is_location_match cfg location = Py.Raise e <->
     Py.truthy location = true /\ (forall s, location <> Py.SStr s) /\
     e = no_lower location) /\
  (forall e,
     calculate_experience_match float_str description = Py.Raise e <->
     ((forall s, description <> Py.SStr s) /\ e = no_lower description) \/
     (exists text p first x,
        description = Py.SStr text /\
        first_match exp_patterns (Str.lower text) p first /\
        first_such long (figures first) x /\
        e = Py.int_limit (String.length x))) /\
  (forall e,
     filter_job_try float_str cfg job_data = Py.Raise e ->
     is_relevant result = false /\
     reason result = "Error filtering job: " +:+ Py.exn_str e /\
     details result = ∅ /\
     resume_to_use result = "" /\
     relevance_score result = 0%Z) /\
  (forall filter_result,
     filter_job_try float_str cfg job_data = Py.Ok filter_result ->
     result = filter_result).
Proof.
  cbv zeta. split; [|split; [|split; [|split]]].
  - intros e. unfold filter_job_try.
    destruct (rc_is_relevant _); cbn [negb];
      [|split; [discriminate|intros [? _]; discriminate]].
    destruct (is_location_match cfg _) as [lc|e1] eqn:E1;
      cbn [mbind Py.res_bind mret Py.res_ret].
    2:{ split.
        - intros [= <-]. split; [reflexivity|]. left. reflexivity.
        - intros (_ & [[= <-]|(lc & ? & _)]); [reflexivity|discriminate]. }
    destruct (lc_is_match lc) eqn:Hm; cbn [negb].
    2:{ split; [discriminate|].
        intros (_ & [?|(lc' & [= <-] & ? & _)]); [discriminate|congruence]. }
    destruct (calculate_experience_match float_str _) as [ec|e2] eqn:E2;
      cbn [mbind Py.res_bind mret Py.res_ret].
    2:{ split.
        - intros [= <-]. split; [reflexivity|]. right. exists lc. auto.
        - intros (_ & [?|(lc' & _ & _ & [= <-])]); [discriminate|reflexivity]. }
    assert (forall r : Py.res FilterResult,
              (forall e', r <> Py.Raise e') ->
              r = Py.Raise e <->
              true = true /\
              (Py.Ok lc = Py.Raise e \/
               exists location_check,
                 Py.Ok lc = Py.Ok location_check /\
                 lc_is_match location_check = true /\
                 Py.Ok ec = Py.Raise e)) as Hno.
    { intros r Hr. split; [intros H; elim (Hr _ H)|].
      intros (_ & [?|(? & _ & _ & ?)]); discriminate. }
    destruct (ec_is_match ec); cbn [negb]; [|apply Hno; discriminate].
    destruct (extract_salary_ok
                (Py.fmt (get job_data "title") +:+ " " +:+
                 Py.fmt (get job_data "description"))) as [si E3].
    rewrite E3. cbn [mbind Py.res_bind mret Py.res_ret].
    destruct (salary_objection float_str cfg si); apply Hno; discriminate.
  - intros e. apply is_location_match_raises.
  - intros e. apply calculate_experience_match_raises.
  - intros e H. unfold filter_job. rewrite H. repeat split.
  - intros filter_result H. unfold filter_job. rewrite H. reflexivity.
Qed.

End WithConfig.

(** *** The properties on the sample data *)

(** The three test jobs of [filters.py] under the sample configuration. *)
Example fresher_job_accepted :
  let r := filter_job Sample.float_str Sample.cfg Sample.fresher_job in
  (is_relevant r, reason r, resume_to_use r, relevance_score r, salary_lpa r) =
  (true, "Job matches all criteria", "Mani_QA3.pdf", 40%Z, Some (Lpa (13 # 2))).
Proof. vm_compute. reflexivity. Qed.

Example senior_job_rejected :
  let r := filter_job Sample.float_str Sample.cfg Sample.senior_job in
  (is_relevant r, reason r) =
  (false, "High experience requirement: ['senior', 'lead', '5+ years']").
Proof. vm_compute. reflexivity. Qed.

Example remote_job_accepted :
  let r := filter_job Sample.float_str Sample.cfg Sample.remote_job in
  (is_relevant r, reason r, resume_to_use r, salary_lpa r) =
  (true, "Job matches all criteria", "Mani_QA1.pdf", Some NotSpecified).
Proof. vm_compute. reflexivity. Qed.


Lemma filter_job_few_keywords_witness :
  (score (positive Sample.cfg) (job_text Sample.cook_job) < 2)%Z /\
  is_relevant (filter_job Sample.float_str Sample.cfg Sample.cook_job) = false /\
  reason (filter_job Sample.float_str Sample.cfg Sample.cook_job) =
    "Insufficient QA/Testing keywords".
Proof.
  split; [vm_compute; reflexivity|].
  apply filter_job_few_keywords. vm_compute. reflexivity.
Defined.

Lemma filter_job_negative_override_witness :
  ((0 < score (negative Sample.cfg) (job_text Sample.senior_job))%Z /\
   score (fresher_friendly Sample.cfg) (job_text Sample.senior_job) = 0%Z /\
   is_relevant (filter_job Sample.float_str Sample.cfg Sample.senior_job) = false) /\
  ((0 < score (negative Sample.cfg) (job_text Sample.mixed_job))%Z /\
   (0 < score (fresher_friendly Sample.cfg) (job_text Sample.mixed_job))%Z /\
   is_relevant (filter_job Sample.float_str Sample.cfg Sample.mixed_job) = true /\
   filter_job Sample.float_str Sample.cfg Sample.mixed_job =
   filter_job Sample.float_str (with_negative [] Sample.cfg) Sample.mixed_job).
Proof.
  split.
  - split; [vm_compute; reflexivity|]. split; [vm_compute; reflexivity|].
    apply (proj1 (filter_job_negative_override
                    Sample.float_str Sample.cfg Sample.senior_job));
      vm_compute; reflexivity.
  - split; [vm_compute; reflexivity|]. split; [vm_compute; reflexivity|].
    split; [vm_compute; reflexivity|].
    apply (proj2 (filter_job_negative_override
                    Sample.float_str Sample.cfg Sample.mixed_job)).
    vm_compute. reflexivity.
Defined.

Lemma filter_job_salary_stage_witness :
  let title := get Sample.underpaid_job "title" in
  let description := get Sample.underpaid_job "description" in
  rc_is_relevant (is_relevant_role Sample.cfg title description) = true /\
  is_location_match Sample.cfg (get Sample.underpaid_job "location") =
    Py.Ok {| lc_is_match := true;
             lc_reason := "Matches preferred location: Hyderabad" |} /\
  calculate_experience_match Sample.float_str description =
    Py.Ok {| ec_is_match := true; ec_required_exp := 0;
             ec_reason := "No specific experience requirement mentioned" |} /\
  extract_salary (Py.fmt title +:+ " " +:+ Py.fmt description) =
    Py.Ok {| si_min_salary := 1; si_max_salary := 2;
             si_average_salary := 3 # 2; si_found := true |} /\
  is_relevant (filter_job Sample.float_str Sample.cfg Sample.underpaid_job) = false /\
  reason (filter_job Sample.float_str Sample.cfg Sample.underpaid_job) =
    "Salary 2.0 LPA below minimum 3 LPA".
Proof.
  intros title description.
  assert (rc_is_relevant (is_relevant_role Sample.cfg title description) = true)
    as H1 by (vm_compute; reflexivity).
  assert (is_location_match Sample.cfg (get Sample.underpaid_job "location") =
          Py.Ok {| lc_is_match := true;
                   lc_reason := "Matches preferred location: Hyderabad" |})
    as H2 by (vm_compute; reflexivity).
  assert (calculate_experience_match Sample.float_str description =
          Py.Ok {| ec_is_match := true; ec_required_exp := 0;
                   ec_reason := "No specific experience requirement mentioned" |})
    as H3 by (vm_compute; reflexivity).
  assert (extract_salary (Py.fmt title +:+ " " +:+ Py.fmt description) =
          Py.Ok {| si_min_salary := 1; si_max_salary := 2;
                   si_average_salary := 3 # 2; si_found := true |})
    as H4 by (vm_compute; reflexivity).
  destruct (filter_job_salary_stage Sample.float_str Sample.cfg Sample.underpaid_job
              _ _ H1 H2 eq_refl H3 eq_refl) as (salary_info & E & Hiff & Hwhy & _).
  fold title in E. fold description in E. rewrite H4 in E. injection E as <-.
  assert (is_relevant (filter_job Sample.float_str Sample.cfg Sample.underpaid_job)
          = false) as R.
  { apply Hiff. split; [reflexivity|]. left. vm_compute. reflexivity. }
  repeat (split; [assumption|]). vm_compute. reflexivity.
Defined.

Lemma is_location_match_policy_witness :
  exists check,
    is_location_match Sample.cfg (Py.SStr "New York") = Py.Ok check /\
    accepted check "Partial location match: New Delhi".
Proof.
  destruct (proj1 (is_location_match_policy Sample.cfg "New York"))
    as (check & E & _ & _ & _ & H & _).
  exists check. split; [exact E|].
  apply H.
  - discriminate.
  - intros t Ht C. vm_compute in Ht.
    destruct Ht as [<-|[<-|[<-|[]]]]; vm_compute in C; discriminate.
  - intros i Hi C. vm_compute in Hi.
    repeat (destruct Hi as [<-|Hi]; [vm_compute in C; discriminate|]).
    destruct Hi.
  - exists ["Hyderabad"; "Bangalore"], []. split; [reflexivity|]. split.
    + exists "new". split; [vm_compute; auto|vm_compute; reflexivity].
    + intros t Ht (w & Hw & C). vm_compute in Ht.
      destruct Ht as [<-|[<-|[]]]; vm_compute in Hw;
        destruct Hw as [<-|[]]; vm_compute in C; discriminate.
Defined.

Lemma calculate_experience_match_policy_witness :
  first_match exp_patterns "need 3 to 5 years; at least 2 years"
    (nth 1 exp_patterns {| pat_re := Eps; pat_groups := 0 |}) (Tuple ["3"; "5"]) /\
  short "3" /\ short "5" /\
  calculate_experience_match Sample.float_str
    (Py.SStr "Need 3 to 5 years; at least 2 years") =
    Py.Ok {| ec_is_match := false; ec_required_exp := 3;
             ec_reason := "Requires 3 years, profile has 1.5" |}.
Proof.
  assert (first_match exp_patterns "need 3 to 5 years; at least 2 years"
            (nth 1 exp_patterns {| pat_re := Eps; pat_groups := 0 |})
            (Tuple ["3"; "5"])) as F.
  { exists (firstn 1 exp_patterns), (skipn 2 exp_patterns), [].
    split; [reflexivity|]. split; [|vm_compute; reflexivity].
    apply List.Forall_cons; [vm_compute; reflexivity|apply List.Forall_nil]. }
  assert (short "3" /\ short "5") as [S3 S5]
    by (unfold short, Py.max_str_digits; cbn [String.length]; lia).
  split; [exact F|]. split; [exact S3|]. split; [exact S5|].
  destruct (proj2 (calculate_experience_match_policy Sample.float_str
                     "Need 3 to 5 years; at least 2 years") _ _ F)
    as (x & y & [= <- <-] & _ & _ & H & _).
  destruct (H S3 S5) as (a & b & Ha & Hb & E & _).
  vm_compute in Ha, Hb. injection Ha as <-. injection Hb as <-.
  rewrite E. vm_compute. reflexivity.
Defined.

(** C5, the counterexample to the claim as first stated: a description
    that asks for a number of years of 4301 digits. The first pattern
    finds the figure, [int] refuses it, and the check raises a value
    error where the claim has it reject with the requirement in the
    reason. *)
Lemma calculate_experience_match_long_figure :
  first_match exp_patterns (Str.lower Sample.long_requirement)
    (nth 0 exp_patterns {| pat_re := Eps; pat_groups := 0 |})
    (Text Sample.long_figure) /\
  Z.of_nat (String.length Sample.long_figure) = 4301%Z /\
  long Sample.long_figure /\
  calculate_experience_match Sample.float_str (Py.SStr Sample.long_requirement) =
    Py.Raise (Py.int_limit (String.length Sample.long_figure)).
Proof.
  split; [|split; [|split]].
  - exists [], (skipn 1 exp_patterns), [].
    split; [reflexivity|]. split; [apply List.Forall_nil|].
    vm_compute. reflexivity.
  - vm_compute. reflexivity.
  - vm_compute. reflexivity.
  - vm_compute. reflexivity.
Qed.

Lemma select_resume_cascade_witness :
  score automation_keywords
        (joined Sample.cascade_title Sample.cascade_description) = 3%Z /\
  score entry_keywords
        (joined Sample.cascade_title Sample.cascade_description) = 5%Z /\
  select_resume Sample.cfg Sample.cascade_title Sample.cascade_description =
    "Mani_QA1.pdf".
Proof.
  split; [vm_compute; reflexivity|]. split; [vm_compute; reflexivity|].
  apply (proj2 (proj2 (proj2 (select_resume_cascade
           Sample.cfg Sample.cascade_title Sample.cascade_description))));
    vm_compute; reflexivity.
Defined.

Lemma filter_job_catches_faults_witness :
  (filter_job_try Sample.float_str Sample.cfg Sample.broken_job =
     Py.Raise (Py.AttributeError "'int' object has no attribute 'lower'") /\
   is_relevant (filter_job Sample.float_str Sample.cfg Sample.broken_job) = false /\
   reason (filter_job Sample.float_str Sample.cfg Sample.broken_job) =
     "Error filtering job: 'int' object has no attribute 'lower'" /\
   details (filter_job Sample.float_str Sample.cfg Sample.broken_job) = ∅) /\
  (filter_job_try Sample.float_str Sample.cfg Sample.overlong_job =
     Py.Raise (Py.int_limit (String.length Sample.long_figure)) /\
   is_relevant (filter_job Sample.float_str Sample.cfg Sample.overlong_job) = false /\
   details (filter_job Sample.float_str Sample.cfg Sample.overlong_job) = ∅).
Proof.
  assert (filter_job_try Sample.float_str Sample.cfg Sample.broken_job =
          Py.Raise (Py.AttributeError "'int' object has no attribute 'lower'")) as F
    by (vm_compute; reflexivity).
  assert (filter_job_try Sample.float_str Sample.cfg Sample.overlong_job =
          Py.Raise (Py.int_limit (String.length Sample.long_figure))) as G
    by (vm_compute; reflexivity).
  split.
  - split; [exact F|].
    destruct (filter_job_catches_faults Sample.float_str Sample.cfg
                Sample.broken_job) as (_ & _ & _ & H & _).
    destruct (H _ F) as (R & W & D & _). repeat split; assumption.
  - split; [exact G|].
    destruct (filter_job_catches_faults Sample.float_str Sample.cfg
                Sample.overlong_job) as (_ & _ & _ & H & _).
    destruct (H _ G) as (R & _ & D & _). split; assumption.
Defined.

End FilterSpec.

(** ** Properties of the contact extraction *)

Module EmailerSpec.

Import Str Re StrFacts ReFacts Emailer.

(** *** The loop that removes duplicates *)

Lemma dedupe_spec contacts : forall seen_emails unique_contacts,
  (List.length unique_contacts < 3)%nat ->
  List.NoDup (List.map email unique_contacts) ->
  (forall c, In c unique_contacts -> email c ∈ seen_emails) ->
  let result := dedupe contacts seen_emails unique_contacts in
  (List.length result <= 3)%nat /\
  List.NoDup (List.map email result) /\
  (forall c, In c result ->
     In c unique_contacts \/ In c contacts /\ is_valid_email (email c) = true).
Proof.
  induction contacts as [|contact rest IH]; intros seen unique Hlen Hnd Hseen;
    cbn [dedupe]; cbv zeta.
  - split; [lia|]. split; [exact Hnd|]. auto.
  - destruct (bool_decide (email contact ∉ seen)) eqn:Hfresh; cbn [andb].
    + destruct (is_valid_email (email contact)) eqn:Hvalid.
      * apply bool_decide_eq_true in Hfresh.
        assert (List.NoDup (List.map email (unique ++ [contact]))) as Hnd'.
        { rewrite List.map_app. simpl.
          apply NoDup_ListNoDup, NoDup_app. split; [apply NoDup_ListNoDup, Hnd|].
          split; [|apply NoDup_singleton].
          intros e He Hin. apply list_elem_of_singleton in Hin as ->.
          apply list_elem_of_In, in_map_iff in He as (c & Hc & Hin).
          apply Hfresh. rewrite <- Hc. apply Hseen, Hin. }
        assert (forall c, In c (unique ++ [contact]) ->
                In c unique \/ In c (contact :: rest) /\
                               is_valid_email (email c) = true) as Hin'.
        { intros c Hc. apply in_app_or in Hc as [Hc|[<-|[]]]; [auto|].
          right. split; [left; reflexivity|exact Hvalid]. }
        destruct (Nat.leb_spec 3 (List.length (unique ++ [contact]))) as [Hfull|Hroom].
        -- split; [rewrite List.length_app; simpl; lia|]. split; assumption.
        -- destruct (IH ({[ email contact ]} ∪ seen) (unique ++ [contact]) Hroom Hnd')
             as (L & N & I).
           { intros c Hc. apply in_app_or in Hc as [Hc|[<-|[]]].
             - apply elem_of_union_r, Hseen, Hc.
             - apply elem_of_union_l, elem_of_singleton. reflexivity. }
           split; [exact L|]. split; [exact N|].
           intros c Hc. destruct (I c Hc) as [Hc'|[Hc' Hv]]; [exact (Hin' c Hc')|].
           right. split; [right; exact Hc'|exact Hv].
      * destruct (IH seen unique Hlen Hnd Hseen) as (L & N & I).
        split; [exact L|]. split; [exact N|].
        intros c Hc. destruct (I c Hc) as [Hc'|[Hc' Hv]]; [auto|].
        right. split; [right; exact Hc'|exact Hv].
    + destruct (IH seen unique Hlen Hnd Hseen) as (L & N & I).
      split; [exact L|]. split; [exact N|].
      intros c Hc. destruct (I c Hc) as [Hc'|[Hc' Hv]]; [auto|].
      right. split; [right; exact Hc'|exact Hv].
Qed.

(** *** The two address patterns *)

Lemma texts_findall p s e :
  pat_groups p = 0%nat -> In e (texts (findall p s)) ->
  exists h, In h (finditer (pat_re p) s) /\ e = fst h.
Proof.
  unfold findall, texts. intros -> H.
  apply in_flat_map in H as (i & Hi & He).
  apply in_map_iff in Hi as (h & <- & Hh).
  simpl in He. destruct He as [<-|[]]. eauto.
Qed.

(** Whatever the scan of a description finds begins with a backslash,
    since the pattern asks for a literal backslash and b before the local
    part. *)
Lemma found_email_backslash text e :
  In e (texts (findall email_pattern text)) -> exists s, e = String "\" s.
Proof.
  intros H. apply texts_findall in H as (h & Hh & ->); [|reflexivity].
  apply finditer_hits, hit_lang in Hh.
  destruct Hh as (w1 & w2 & -> & (w11 & w12 & -> & (a & -> & Ha) & _) & _).
  apply Ascii.eqb_eq in Ha as <-. eexists. reflexivity.
Qed.

(** No address that begins with a backslash is valid. *)
Lemma backslash_invalid s : is_valid_email (String "\" s) = false.
Proof.
  unfold is_valid_email, matches, first_hit, valid_pattern.
  cbn [cat app address run flat_map fst snd].
  rewrite Nat.eqb_refl. reflexivity.
Qed.

Lemma extract_emails_backslash text emails e :
  extract_emails_from_text text = Py.Ok emails -> In e emails ->
  exists s, e = String "\" s.
Proof.
  destruct text as [| | |text]; try discriminate.
  unfold extract_emails_from_text. intros [= <-] H.
  apply filter_In in H as [H _]. eapply found_email_backslash, H.
Qed.

(** Where the contacts gathered for a job come from. *)
Lemma gather_from_sources job_data company_value c :
  In c (gather_from job_data company_value) ->
  guessed company_value c \/ quoted job_data c \/
  located job_data company_value c.
Proof.
  unfold gather_from, guessed, quoted, located.
  destruct (clean_company_name company_value) as [clean_company|]; [|intros []].
  set (doms := List.flat_map _ _).
  match goal with |- _ -> ?G => assert (In c doms -> G) as Hdom end.
  { unfold doms. intros H. apply in_flat_map in H as (d & Hd & H).
    apply in_map_iff in H as (e & <- & He). left. eauto 10. }
  destruct (extract_emails_from_text _) as [extracted|] eqn:E; [|exact Hdom].
  set (both := doms ++ _).
  match goal with |- _ -> ?G => assert (In c both -> G) as Hboth end.
  { unfold both. intros H. apply in_app_or in H as [H|H]; [auto|].
    apply in_map_iff in H as (e & <- & He). right. left. eauto 10. }
  destruct (existsb _ _); [|exact Hboth].
  destruct (Py.lower _) as [location|] eqn:El; [|exact Hboth].
  destruct (_ || _); [|exact Hboth].
  destruct (split location) as [|city rest] eqn:Es; [exact Hboth|].
  intros H. apply in_app_or in H as [H|[<-|[]]]; [auto|].
  right. right. exists clean_company, location, city, rest. auto.
Qed.

(** An address found in the description never reaches the result: it
    fails [is_valid_email]. *)
Lemma description_contacts_dropped job_data c :
  In c (extract_hr_contacts job_data) -> source_of c <> job_description.
Proof.
  intros Hc Hsrc.
  assert (is_valid_email (email c) = true /\
          In c (gather_from job_data (get job_data "company"))) as (Hv & Hin).
  { unfold extract_hr_contacts, gather in Hc.
    destruct (negb _); [destruct Hc|].
    destruct (dedupe_spec (gather_from job_data (get job_data "company")) ∅ [])
      as (_ & _ & I); [simpl; lia|constructor|intros ? []|].
    destruct (I c Hc) as [[]|[Hin Hv]]. auto. }
  destruct (gather_from_sources _ _ _ Hin)
    as [(? & ? & _ & _ & _ & S)|[(extracted & E & He & _)|(? & ? & ? & ? & _ & _ & _ & _ & S)]];
    try congruence.
  destruct (extract_emails_backslash _ _ _ E He) as [s Hs].
  rewrite Hs, backslash_invalid in Hv. discriminate.
Qed.

(** *** Letter case *)

Lemma lower_char_not_upper a : negb (is_upper (lower_char a)) = true.
Proof.
  destruct a as [[] [] [] [] [] [] [] []]; vm_compute; reflexivity.
Qed.

Lemma lowered_lower s : lowered (lower s).
Proof.
  unfold lowered. induction s as [|a s IH]; simpl; [reflexivity|].
  rewrite lower_char_not_upper. exact IH.
Qed.

Lemma lower_lowered s : lowered s -> lower s = s.
Proof.
  unfold lowered, lower. induction s as [|a s IH]; simpl; [reflexivity|].
  intros H. apply andb_true_iff in H as [Ha Hs].
  rewrite (IH Hs). unfold lower_char.
  apply negb_true_iff in Ha. rewrite Ha. reflexivity.
Qed.

Lemma lowered_app s t : lowered s -> lowered t -> lowered (s +:+ t).
Proof. unfold lowered. intros Hs Ht. rewrite all_app, Hs, Ht. reflexivity. Qed.

Lemma all_rev_app p s : forall t,
  all p s = true -> all p t = true -> all p (String.rev_app s t) = true.
Proof.
  induction s as [|a s IH]; simpl; intros t Hs Ht; [exact Ht|].
  apply andb_true_iff in Hs as [Ha Hs]. apply IH; [exact Hs|].
  simpl. rewrite Ha, Ht. reflexivity.
Qed.

Lemma all_rev p s : all p s = true -> all p (String.rev s) = true.
Proof. intros H. apply all_rev_app; [exact H|reflexivity]. Qed.

Lemma all_lstrip p s : all p s = true -> all p (lstrip s) = true.
Proof.
  induction s as [|a s IH]; simpl; [auto|].
  intros H. destruct (is_space a); [|exact H].
  apply andb_true_iff in H as [_ Hs]. apply IH, Hs.
Qed.

Lemma all_strip p s : all p s = true -> all p (strip s) = true.
Proof.
  intros H. unfold strip. apply all_rev, all_lstrip, all_rev, all_lstrip, H.
Qed.

Lemma all_take p n : forall s, all p s = true -> all p (take n s) = true.
Proof.
  induction n as [|n IH]; intros [|a s]; simpl; auto.
  intros H. apply andb_true_iff in H as [Ha Hs]. rewrite Ha. apply IH, Hs.
Qed.

Lemma all_replace_go p old new s : forall skip,
  all p new = true -> all p s = true ->
  all p (replace_go old new s skip) = true.
Proof.
  induction s as [|a s IH]; intros skip Hn Hs; cbn [replace_go]; [reflexivity|].
  simpl in Hs. apply andb_true_iff in Hs as [Ha Hs].
  destruct skip; [|apply IH; assumption].
  destruct (String.prefix old (String a s)).
  - rewrite all_app, Hn. apply IH; assumption.
  - cbn [all]. rewrite Ha. apply IH; assumption.
Qed.

Lemma all_remove_go p total r s : forall skip,
  all p s = true -> all p (remove_go total r s skip) = true.
Proof.
  induction s as [|a s IH]; intros skip Hs; cbn [remove_go].
  - destruct skip; [|reflexivity].
    destruct (first_hit total r "") as [[len h]|]; reflexivity.
  - simpl in Hs. apply andb_true_iff in Hs as [Ha Hs].
    destruct skip; [|apply IH, Hs].
    destruct (first_hit total r (String a s)) as [[len h]|].
    + destruct (Nat.eqb len 0); [cbn [all]; rewrite Ha|]; apply IH, Hs.
    + cbn [all]. rewrite Ha. apply IH, Hs.
Qed.

Lemma all_remove p r s : all p s = true -> all p (remove r s) = true.
Proof. apply all_remove_go. Qed.

Lemma all_split_go p s : forall cur,
  all p cur = true -> all p s = true ->
  Forall (fun w => all p w = true) (split_go cur s).
Proof.
  induction s as [|a s IH]; intros cur Hc Hs; cbn [split_go].
  - destruct (String.eqb cur ""); constructor; [apply all_rev, Hc|constructor].
  - simpl in Hs. apply andb_true_iff in Hs as [Ha Hs].
    destruct (is_space a).
    + apply Forall_app. split; [|apply IH; [reflexivity|exact Hs]].
      destruct (String.eqb cur ""); constructor; [apply all_rev, Hc|constructor].
    + apply IH; [simpl; rewrite Ha, Hc; reflexivity|exact Hs].
Qed.

(** The cleaned company name, the guessed domains and the addresses built
    on them have no upper-case letter. *)
Lemma all_remove_suffixes p l : forall s,
  all p s = true ->
  all p (List.fold_left (fun acc suffix => remove (suffix_pattern suffix) acc) l s)
  = true.
Proof.
  induction l as [|x l IH]; intros s Hs; cbn [List.fold_left]; [exact Hs|].
  apply IH, all_remove, Hs.
Qed.

Lemma clean_company_name_str company :
  clean_company_name (Py.SStr company) =
  Py.Ok (strip (remove backslash_s (remove special_char
           (List.fold_left (fun acc suffix => remove (suffix_pattern suffix) acc)
                           suffixes (lower company))))).
Proof. reflexivity. Qed.

Lemma all_clean_company_name p company clean_company :
  clean_company_name (Py.SStr company) = Py.Ok clean_company ->
  all p (lower company) = true -> all p clean_company = true.
Proof.
  rewrite clean_company_name_str. intros H Hp.
  assert (clean_company =
          strip (remove backslash_s (remove special_char
            (List.fold_left (fun acc suffix => remove (suffix_pattern suffix) acc)
                            suffixes (lower company))))) as -> by congruence.
  apply all_strip, all_remove, all_remove, all_remove_suffixes, Hp.
Qed.

Lemma clean_company_name_lowered company_value clean_company :
  clean_company_name company_value = Py.Ok clean_company -> lowered clean_company.
Proof.
  destruct company_value as [| | |company]; try discriminate.
  intros H. eapply all_clean_company_name; [exact H|apply lowered_lower].
Qed.

Lemma with_tlds_lowered base tlds :
  lowered base -> Forall lowered tlds -> Forall lowered (with_tlds base tlds).
Proof.
  intros Hb Ht. unfold with_tlds. apply List.Forall_forall. intros d Hd.
  apply in_map_iff in Hd as (tld & <- & Hin).
  apply lowered_app; [exact Hb|].
  eapply List.Forall_forall in Ht; eauto.
Qed.

Lemma generate_company_domains_lowered clean_company :
  lowered clean_company ->
  Forall lowered (generate_company_domains clean_company).
Proof.
  intros H. unfold generate_company_domains.
  destruct (String.eqb clean_company ""); [constructor|].
  apply Forall_take.
  assert (forall tlds, Forall lowered tlds -> forall vs acc,
            Forall lowered vs -> Forall lowered acc ->
            Forall lowered
              (List.fold_left
                 (fun acc variation =>
                    if String.eqb variation clean_company then acc
                    else acc ++ with_tlds variation tlds) vs acc)) as Hfold.
  { intros tlds Ht vs. induction vs as [|v vs IH]; intros acc Hvs Hacc; simpl.
    - exact Hacc.
    - inversion Hvs; subst. apply IH; [assumption|].
      destruct (String.eqb v clean_company); [exact Hacc|].
      apply Forall_app. split; [exact Hacc|]. apply with_tlds_lowered; assumption. }
  apply Hfold.
  - repeat constructor.
  - repeat constructor; apply all_replace_go; (reflexivity || exact H).
  - destruct (_ <? _)%nat.
    + apply Forall_app. split; apply with_tlds_lowered;
        try exact H; try (apply all_take, H); repeat constructor.
    + apply with_tlds_lowered; [exact H|repeat constructor].
Qed.

Lemma hr_patterns_lowered domain e :
  lowered domain -> In e (hr_patterns domain) -> lowered e.
Proof.
  intros Hd He. unfold hr_patterns in He.
  apply in_map_iff in He as (who & <- & Hw).
  apply lowered_app; [|apply lowered_app; [reflexivity|exact Hd]].
  simpl in Hw. repeat (destruct Hw as [<-|Hw]; [reflexivity|]). destruct Hw.
Qed.

Lemma returned_sources job_data c :
  In c (extract_hr_contacts job_data) ->
  is_valid_email (email c) = true /\
  In c (gather_from job_data (get job_data "company")).
Proof.
  intros Hc. unfold extract_hr_contacts, gather in Hc.
  destruct (negb _); [destruct Hc|].
  destruct (dedupe_spec (gather_from job_data (get job_data "company")) ∅ [])
    as (_ & _ & I); [simpl; lia|constructor|intros ? []|].
  destruct (I c Hc) as [[]|[Hin Hv]]. auto.
Qed.

(** Every address returned is free of upper-case letters: lower-casing an
    address of the result changes nothing. *)
Lemma returned_lowered job_data c :
  In c (extract_hr_contacts job_data) -> lower (email c) = email c.
Proof.
  intros Hc. apply lower_lowered.
  destruct (returned_sources _ _ Hc) as [Hv Hin].
  destruct (gather_from_sources _ _ _ Hin)
    as [(clean & d & Hclean & Hd & He & _)
       |[(extracted & E & He & _)
        |(clean & location & city & rest & Hclean & Hl & Hs & He & _)]].
  - apply clean_company_name_lowered, generate_company_domains_lowered in Hclean.
    eapply List.Forall_forall in Hclean; [|exact Hd].
    eapply hr_patterns_lowered; eauto.
  - destruct (extract_emails_backslash _ _ _ E He) as [s Hs].
    rewrite Hs, backslash_invalid in Hv. discriminate.
  - rewrite He.
    apply clean_company_name_lowered, generate_company_domains_lowered in Hclean.
    assert (lowered city) as Hcity.
    { assert (lowered location) as Hloc.
      { destruct (get job_data "location"); try discriminate.
        injection Hl as <-. apply lowered_lower. }
      pose proof (all_split_go _ location "" eq_refl Hloc) as F.
      fold (split location) in F. rewrite Hs in F. inversion F; assumption. }
    apply lowered_app; [reflexivity|]. apply lowered_app; [exact Hcity|].
    apply lowered_app; [reflexivity|].
    destruct (generate_company_domains clean) as [|d ?]; [reflexivity|].
    inversion Hclean; assumption.
Qed.

(** C8. [extract_hr_contacts] returns at most three contacts, and no two
    of them carry the same address. The code compares addresses as they
    are stored, without a normalising step; as every address it returns
    has passed [is_valid_email] and has no upper-case letter, no two
    contacts carry the same address up to letter case either. *)
Theorem extract_hr_contacts_bounded (job_data : job) :
  (List.length (extract_hr_contacts job_data) <= 3)%nat /\
  List.NoDup (List.map email (extract_hr_contacts job_data)) /\
  List.NoDup (List.map (fun c => lower (email c)) (extract_hr_contacts job_data)) /\
  (forall c, In c (extract_hr_contacts job_data) -> is_valid_email (email c) = true).
Proof.
  assert ((List.length (extract_hr_contacts job_data) <= 3)%nat /\
          List.NoDup (List.map email (extract_hr_contacts job_data))) as [L N].
  { unfold extract_hr_contacts.
    destruct (gather job_data) as [contacts|].
    - destruct (dedupe_spec contacts ∅ []) as (L & N & _);
        [simpl; lia|constructor|intros c []|].
      split; assumption.
    - simpl. split; [lia|constructor]. }
  split; [exact L|]. split; [exact N|]. split.
  - rewrite (List.map_ext_in _ email); [exact N|].
    intros c Hc. apply returned_lowered with (job_data := job_data), Hc.
  - intros c Hc. apply (returned_sources _ _ Hc).
Qed.

(** C9 (the code departs from the claim). On the description of
    scenario E the scan of the description finds no address at all, and
    the extractor returns no contact: not for a company whose name is a
    mere suffix, where no guessed domain would come before the address of
    the description, not for the company Acme, and not for the test job of
    [emailer.py] itself. The pattern of the scan asks for a literal
    backslash and the letter b on both sides of an address, and
    [is_valid_email] for a literal backslash before the last part of the
    domain. *)
Theorem scenario_e_finds_nothing :
  extract_emails_from_text (Py.SStr Sample.scenario_e) = Py.Ok [] /\
  is_valid_email "careers@acme.com" = false /\
  extract_hr_contacts Sample.ltd_job = [] /\
  extract_hr_contacts Sample.acme_job = [] /\
  extract_hr_contacts Sample.techsolutions_job = [].
Proof. repeat split; vm_compute; reflexivity. Qed.

(** The extractor does return contacts for a company name that ends in
    a backslash: the three first guesses, which C8 bounds. *)
Example backslash_company_contacts :
  List.map (fun c => (email c, source_of c, confidence_of c))
           (extract_hr_contacts Sample.backslash_job) =
  [("hr@acme\.com", domain_pattern, medium);
   ("careers@acme\.com", domain_pattern, medium);
   ("jobs@acme\.com", domain_pattern, medium)].
Proof. vm_compute. reflexivity. Qed.

(** What the scan does keep is free of the noise tokens. *)
Lemma extract_emails_no_noise text emails e pattern :
  extract_emails_from_text text = Py.Ok emails -> In e emails ->
  In pattern avoid_patterns -> Str.contains pattern (Str.lower e) = false.
Proof.
  destruct text as [| | |text]; try discriminate.
  unfold extract_emails_from_text. intros [= <-] H Hp.
  apply filter_In in H as [_ H]. apply negb_true_iff in H.
  destruct (contains pattern (lower e)) eqn:E; [|reflexivity].
  apply Bool.not_true_iff_false in H. exfalso. apply H.
  destruct Hp as [<-|[<-|[<-|[<-|[<-|[]]]]]]; rewrite E;
    rewrite ?orb_true_r; reflexivity.
Qed.

End EmailerSpec.

(** ** More on the stages of filter_job *)

Module FilterMore.

Import Str Re StrFacts ReFacts Filter FilterFacts.

Section WithConfig.

Variable float_str : Q -> string.
Variable cfg : Config.

(** X1. The verdict of [is_relevant_role] is a function of three counts:
    the role is relevant exactly when two positive keywords occur and
    either no negative keyword or some fresher-friendly keyword does. A
    relevant role scores ten per positive and five per fresher-friendly
    keyword, capped at 100, hence between 20 and 100; a rejected one
    scores 0. The matched keywords are configured positive keywords that
    occur in the text, two or more when the role is relevant. *)
Theorem is_relevant_role_verdict (job_title job_description : Py.scalar) :
  let text := joined job_title job_description in
  let check := is_relevant_role cfg job_title job_description in
  (rc_is_relevant check = true <->
   (2 <= score (positive cfg) text)%Z /\
   (score (negative cfg) text = 0%Z \/ (0 < score (fresher_friendly cfg) text)%Z)) /\
  (rc_is_relevant check = true ->
   rc_score check =
     Z.min 100 (score (positive cfg) text * 10 +
                score (fresher_friendly cfg) text * 5) /\
   (20 <= rc_score check <= 100)%Z /\
   (2 <= List.length (rc_matched_keywords check))%nat) /\
  (rc_is_relevant check = false ->
   rc_score check = 0%Z /\ rc_fresher_friendly check = None) /\
  (forall keyword, In keyword (rc_matched_keywords check) ->
   In keyword (positive cfg) /\ Str.contains keyword text = true).
Proof.
  intros text check. unfold check, is_relevant_role. fold text.
  fold (score (positive cfg) text). fold (score (negative cfg) text).
  assert (0 <= score (negative cfg) text)%Z as Hn by (unfold score; lia).
  assert (0 <= score (fresher_friendly cfg) text)%Z as Hf by (unfold score; lia).
  assert (forall keyword, In keyword (hits (positive cfg) text) ->
          In keyword (positive cfg) /\ Str.contains keyword text = true) as Hk.
  { intros k Hin. apply filter_In in Hin. exact Hin. }
  destruct (Z.ltb_spec (score (positive cfg) text) 2) as [Hp|Hp]; simpl.
  - repeat split; try discriminate; try lia; try apply Hk; try assumption.
  - destruct (Z.ltb_spec 0 (score (negative cfg) text)) as [Hn'|Hn'];
      destruct (Z.eqb_spec (score (fresher_friendly cfg) text) 0) as [Hf'|Hf'];
      simpl; repeat split; try discriminate; try lia; try apply Hk;
      try assumption; try (intros [_ [?|?]]; lia);
      try (left; lia); try (right; lia);
      unfold score in *; lia.
Qed.

(** X4. [is_location_match] on any value: a value that counts as false
    (a missing key read as the empty string, [None], [False], 0) is
    accepted as an unspecified location; a string always gets a verdict;
    any other value raises the attribute error of [lower]. *)
Theorem is_location_match_values (job_data : job) (location : Py.scalar) :
  (job_data !! "location" = None ->
   is_location_match cfg (get job_data "location") =
   Py.Ok {| lc_is_match := true;
            lc_reason := "No location specified (assuming remote)" |}) /\
  (Py.truthy location = false ->
   is_location_match cfg location =
   Py.Ok {| lc_is_match := true;
            lc_reason := "No location specified (assuming remote)" |}) /\
  (forall s, location = Py.SStr s ->
   exists check, is_location_match cfg location = Py.Ok check) /\
  (Py.truthy location = true -> (forall s, location <> Py.SStr s) ->
   is_location_match cfg location = Py.Raise (no_lower location)).
Proof.
  split; [|split; [|split]].
  - intros H. unfold get. rewrite H. reflexivity.
  - intros H. unfold is_location_match. rewrite H. reflexivity.
  - intros s ->. destruct (is_location_match cfg (Py.SStr s)) as [c|e] eqn:E; [eauto|].
    exfalso. unfold is_location_match in E.
    destruct (negb (Py.truthy (Py.SStr s))); [discriminate|].
    simpl in E.
    repeat match type of E with
           | context [match ?x with Some _ => _ | None => _ end] => destruct x
           end; discriminate.
  - intros Ht Hs. unfold is_location_match. rewrite Ht.
    destruct location as [| | |s]; try reflexivity. exfalso. exact (Hs s eq_refl).
Qed.

Lemma digits_val_nonneg s : forall acc z,
  (0 <= acc)%Z -> digits_val acc s = Some z -> (0 <= z)%Z.
Proof.
  induction s as [|a s IH]; simpl; intros acc z Hacc H.
  - injection H as <-. exact Hacc.
  - destruct (is_digit a); [|discriminate].
    eapply IH; [|exact H]. lia.
Qed.

Lemma decimal_nonneg s z : decimal s = Some z -> (0 <= z)%Z.
Proof.
  unfold decimal. destruct (isdigit s); [|discriminate].
  apply digits_val_nonneg. lia.
Qed.

(** The outcome of the scan of the experience patterns: the default,
    the verdict on a requirement that is not negative, or the fault of
    [int] on a figure of the text that is too long. *)
Lemma experience_scan_cases ps text :
  Forall count_pattern ps ->
  experience_scan float_str ps text =
    Py.Ok {| ec_is_match := true; ec_required_exp := 0;
             ec_reason := "No specific experience requirement mentioned" |} \/
  (exists required_exp,
     (0 <= required_exp)%Z /\
     experience_scan float_str ps text =
       Py.Ok (experience_verdict float_str required_exp)) \/
  (exists figure,
     long figure /\
     (String.length figure <= String.length text)%nat /\
     experience_scan float_str ps text =
       Py.Raise (Py.int_limit (String.length figure))).
Proof.
  induction 1 as [|p ps C _ IH]; cbn [experience_scan]; [left; reflexivity|].
  destruct (findall p text) as [|first more] eqn:E; [exact IH|].
  right. pose proof (figures_length _ _ _ _ C E) as L.
  destruct (requirement_of_match _ _ _ _ C E)
    as [(x & -> & Hx & ->)|(x & y & -> & Hx & Hy & ->)];
    cbn [figures List.filter] in L.
  - inversion L as [|? ? Lx _]; subst.
    destruct (short_or_long x) as [Hs|Hl].
    + destruct (int_short x Hx Hs) as (z & -> & Hz). left.
      exists z. split; [eapply decimal_nonneg, Hz|reflexivity].
    + rewrite (int_long x Hx Hl). right. exists x. auto.
  - rewrite Hx, Hy in L.
    inversion L as [|? ? Lx L']; subst. inversion L' as [|? ? Ly _]; subst.
    destruct (short_or_long x) as [Hsx|Hlx].
    + destruct (int_short x Hx Hsx) as (a & -> & Ha).
      cbn [mbind Py.res_bind].
      destruct (short_or_long y) as [Hsy|Hly].
      * destruct (int_short y Hy Hsy) as (b & -> & Hb). left.
        exists (Z.min a b). split; [|reflexivity].
        apply decimal_nonneg in Ha, Hb. lia.
      * rewrite (int_long y Hy Hly). right. exists y. auto.
    + rewrite (int_long x Hx Hlx). right. exists x. auto.
Qed.

Lemma experience_verdict_two required_exp :
  ec_is_match (experience_verdict float_str required_exp) = true <->
  (required_exp <= 2)%Z.
Proof.
  unfold experience_verdict, Py.le, actual_experience.
  destruct (Qle_bool _ _) eqn:E; simpl.
  - apply Qle_bool_iff in E. unfold Qle in E. simpl in E. split; [lia|reflexivity].
  - split; [discriminate|]. intros H.
    assert (Qle_bool (inject_Z required_exp) ((3 # 2) + 1) = true) as E'.
    { apply Qle_bool_iff. unfold Qle. simpl. lia. }
    congruence.
Qed.

(** X5. On a description that is a string [calculate_experience_match]
    returns a verdict or raises the fault of [int] on a figure of the
    description that has more than 4300 digits; a description of at most
    4300 characters always gets a verdict. The requirement of a verdict
    is a number of years that is not negative, and the verdict accepts
    exactly the requirements of 0, 1 and 2 years. A description that is no
    string raises the attribute error of [lower]. *)
Theorem calculate_experience_match_range (job_description : Py.scalar) :
  let outcome := calculate_experience_match float_str job_description in
  (forall description, job_description = Py.SStr description ->
   (exists check,
      outcome = Py.Ok check /\
      (0 <= ec_required_exp check)%Z /\
      (ec_is_match check = true <-> (ec_required_exp check <= 2)%Z)) \/
   (exists figure,
      long figure /\
      (String.length figure <= String.length description)%nat /\
      outcome = Py.Raise (Py.int_limit (String.length figure)))) /\
  (forall description, job_description = Py.SStr description ->
   (Z.of_nat (String.length description) <= Py.max_str_digits)%Z ->
   exists check, outcome = Py.Ok check) /\
  ((forall description, job_description <> Py.SStr description) ->
   outcome = Py.Raise (no_lower job_description)).
Proof.
  cbv zeta.
  assert (forall description,
            (exists check,
               calculate_experience_match float_str (Py.SStr description) =
                 Py.Ok check /\
               (0 <= ec_required_exp check)%Z /\
               (ec_is_match check = true <-> (ec_required_exp check <= 2)%Z)) \/
            (exists figure,
               long figure /\
               (String.length figure <= String.length description)%nat /\
               calculate_experience_match float_str (Py.SStr description) =
                 Py.Raise (Py.int_limit (String.length figure)))) as Hstr.
  { intros description.
    change (calculate_experience_match float_str (Py.SStr description))
      with (experience_scan float_str exp_patterns (lower description)).
    destruct (experience_scan_cases exp_patterns (lower description) exp_patterns_ok)
      as [->|[(r & Hr & ->)|(x & Hl & Hx & ->)]].
    - left. eexists. split; [reflexivity|]. cbn [ec_required_exp ec_is_match].
      split; [lia|]. split; [lia|reflexivity].
    - left. eexists. split; [reflexivity|].
      assert (ec_required_exp (experience_verdict float_str r) = r) as ->
        by (unfold experience_verdict; destruct (Py.le _ _); reflexivity).
      split; [exact Hr|apply experience_verdict_two].
    - right. exists x. rewrite length_lower in Hx. auto. }
  split; [|split].
  - intros description ->. apply Hstr.
  - intros description -> Hshort.
    destruct (Hstr description) as [(check & E & _)|(x & Hl & Hx & _)]; [eauto|].
    unfold long in Hl. lia.
  - intros H. destruct job_description as [| | |s]; try reflexivity.
    exfalso. exact (H s eq_refl).
Qed.

(** The ways [filter_job] ends: on a fault, at the stage that rejects,
    or with an acceptance. *)
Lemma filter_job_cases (job_data : job) :
  let title := get job_data "title" in
  let description := get job_data "description" in
  let role_check := is_relevant_role cfg title description in
  let r := filter_job float_str cfg job_data in
  let det1 : gmap string stage := <[ "role_check" := RoleStage role_check ]> ∅ in
  (exists e, r = on_fault e) \/
  (rc_is_relevant role_check = false /\ r = rejected (rc_reason role_check) det1) \/
  (exists lc,
     rc_is_relevant role_check = true /\
     is_location_match cfg (get job_data "location") = Py.Ok lc /\
     lc_is_match lc = false /\
     r = rejected (lc_reason lc) (<[ "location_check" := LocationStage lc ]> det1)) \/
  (exists lc ec,
     rc_is_relevant role_check = true /\
     is_location_match cfg (get job_data "location") = Py.Ok lc /\
     lc_is_match lc = true /\
     calculate_experience_match float_str description = Py.Ok ec /\
     ec_is_match ec = false /\
     r = rejected (ec_reason ec)
           (<[ "experience_check" := ExperienceStage ec ]>
              (<[ "location_check" := LocationStage lc ]> det1))) \/
  (exists lc ec si,
     rc_is_relevant role_check = true /\
     is_location_match cfg (get job_data "location") = Py.Ok lc /\
     lc_is_match lc = true /\
     calculate_experience_match float_str description = Py.Ok ec /\
     ec_is_match ec = true /\
     extract_salary (Py.fmt title +:+ " " +:+ Py.fmt description) = Py.Ok si /\
     let det4 : gmap string stage :=
       <[ "salary_info" := SalaryStage si ]>
         (<[ "experience_check" := ExperienceStage ec ]>
            (<[ "location_check" := LocationStage lc ]> det1)) in
     (exists why, salary_objection float_str cfg si = Some why /\
                  r = rejected why det4) \/
     (salary_objection float_str cfg si = None /\
      r = {| is_relevant := true;
             reason := "Job matches all criteria";
             details := det4;
             resume_to_use := select_resume cfg title description;
             relevance_score := rc_score role_check;
             salary_lpa := Some (if si_found si
                                 then Lpa (si_average_salary si)
                                 else NotSpecified);
             is_fresher_friendly :=
               Some (default false (rc_fresher_friendly role_check));
             matched_keywords := Some (rc_matched_keywords role_check) |})).
Proof.
  intros title description role_check r det1.
  unfold r, filter_job, filter_job_try.
  fold title. fold description. fold role_check.
  change ({[ "role_check" := RoleStage role_check ]} : gmap string stage) with det1.
  destruct (rc_is_relevant role_check); cbn [negb]; [|right; left; auto].
  destruct (is_location_match cfg (get job_data "location")) as [lc|e];
    cbn [mbind Py.res_bind mret Py.res_ret]; [|left; eauto].
  destruct (lc_is_match lc) eqn:Hlc; cbn [negb];
    [|right; right; left; exists lc; auto].
  destruct (calculate_experience_match float_str description) as [ec|e];
    cbn [mbind Py.res_bind mret Py.res_ret]; [|left; eauto].
  destruct (ec_is_match ec) eqn:Hec; cbn [negb];
    [|right; right; right; left; exists lc, ec; auto 10].
  destruct (extract_salary _) as [si|e];
    cbn [mbind Py.res_bind mret Py.res_ret]; [|left; eauto].
  right. right. right. right. exists lc, ec, si.
  repeat (split; [first [reflexivity|assumption]|]).
  destruct (salary_objection float_str cfg si) as [why|]; [left; eauto|right; auto].
Qed.

Ltac map_keys H :=
  repeat (apply lookup_insert_is_Some' in H as [<-|H]; [simpl; auto 10|]);
  rewrite lookup_empty in H; destruct H; discriminate.

(** X6. The details of a result hold the results of the stages that ran,
    and of those only: every key is one of the four stage keys; a stage is
    recorded only if the stages before it are; an accepted job carries all
    four; the role check recorded is the one of the title and the
    description, and each later entry is what its stage returned. After a
    fault the details are empty, whatever the stages had recorded. *)
Theorem filter_job_details (job_data : job) :
  let title := get job_data "title" in
  let description := get job_data "description" in
  let r := filter_job float_str cfg job_data in
  let d := details r in
  (forall e, filter_job_try float_str cfg job_data = Py.Raise e -> d = ∅) /\
  (forall k, is_Some (d !! k) ->
   In k ["role_check"; "location_check"; "experience_check"; "salary_info"]) /\
  (is_Some (d !! "salary_info") -> is_Some (d !! "experience_check")) /\
  (is_Some (d !! "experience_check") -> is_Some (d !! "location_check")) /\
  (is_Some (d !! "location_check") -> is_Some (d !! "role_check")) /\
  (is_relevant r = true -> is_Some (d !! "salary_info")) /\
  (forall s, d !! "role_check" = Some s ->
   s = RoleStage (is_relevant_role cfg title description)) /\
  (forall s, d !! "location_check" = Some s ->
   exists lc, s = LocationStage lc /\
              is_location_match cfg (get job_data "location") = Py.Ok lc) /\
  (forall s, d !! "experience_check" = Some s ->
   exists ec, s = ExperienceStage ec /\
              calculate_experience_match float_str description = Py.Ok ec) /\
  (forall s, d !! "salary_info" = Some s ->
   exists si, s = SalaryStage si /\
              extract_salary (Py.fmt title +:+ " " +:+ Py.fmt description)
                = Py.Ok si).
Proof.
  intros title description r d.
  split; [intros e H; unfold d, r, filter_job; rewrite H; reflexivity|].
  destruct (filter_job_cases job_data)
    as [(e & H)|[(Hr & H)|[(lc & Hr & Hl & Hm & H)
       |[(lc & ec & Hr & Hl & Hm & He & Hn & H)
        |(lc & ec & si & Hr & Hl & Hm & He & Hn & Hs & H)]]]];
    fold title in H; fold description in H; fold r in H;
    try (destruct H as [(why & _ & H)|(_ & H)]);
    unfold d; rewrite H; cbn [details rejected on_fault is_relevant];
    (split; [intros k Hk; first [map_keys Hk
                                |rewrite lookup_empty in Hk; destruct Hk; discriminate]|]);
    repeat split;
    rewrite ?lookup_empty;
    repeat (rewrite lookup_insert_ne by discriminate);
    rewrite ?lookup_insert_eq, ?lookup_empty;
    try (intros [? ?]; discriminate); try discriminate; eauto;
    try (intros ? [= <-]; eauto).
Qed.

Lemma relevant_role_score (job_title job_description : Py.scalar) :
  let check := is_relevant_role cfg job_title job_description in
  rc_is_relevant check = true ->
  (20 <= rc_score check <= 100)%Z /\
  (2 <= List.length (rc_matched_keywords check))%nat.
Proof.
  intros check. unfold check, is_relevant_role.
  set (text := joined job_title job_description).
  fold (score (positive cfg) text). fold (score (negative cfg) text).
  assert (0 <= score (fresher_friendly cfg) text)%Z as Hf by (unfold score; lia).
  destruct (Z.ltb_spec (score (positive cfg) text) 2) as [Hp|Hp]; simpl;
    [discriminate|].
  destruct (Z.ltb_spec 0 (score (negative cfg) text)) as [Hn'|Hn'];
    destruct (Z.eqb_spec (score (fresher_friendly cfg) text) 0) as [Hf'|Hf'];
    simpl; try discriminate; intros _; unfold score in *; lia.
Qed.

Lemma select_resume_configured (job_title job_description : Py.scalar) :
  In (select_resume cfg job_title job_description)
     [qa_automation cfg; qa_entry cfg; qa_general cfg].
Proof.
  unfold select_resume.
  destruct (_ || _); [simpl; auto|].
  destruct (_ <=? _)%Z; simpl; auto.
Qed.

(** X7. [filter_job] accepts a job exactly when its four stages do: the
    role is relevant, the location matches, the experience matches and
    the salary raises no objection. An accepted job has the reason of
    acceptance, one of the three configured resumes, the score of the role
    check, between 20 and 100, and the three keys of the final update; a
    rejected one has an empty resume name, the score 0 and none of the
    three keys. *)
Theorem filter_job_accepts (job_data : job) :
  let title := get job_data "title" in
  let description := get job_data "description" in
  let role_check := is_relevant_role cfg title description in
  let r := filter_job float_str cfg job_data in
  (is_relevant r = true <->
   rc_is_relevant role_check = true /\
   exists lc ec si,
     is_location_match cfg (get job_data "location") = Py.Ok lc /\
     lc_is_match lc = true /\
     calculate_experience_match float_str description = Py.Ok ec /\
     ec_is_match ec = true /\
     extract_salary (Py.fmt title +:+ " " +:+ Py.fmt description) = Py.Ok si /\
     salary_objection float_str cfg si = None) /\
  (is_relevant r = true ->
   reason r = "Job matches all criteria" /\
   In (resume_to_use r) [qa_automation cfg; qa_entry cfg; qa_general cfg] /\
   relevance_score r = rc_score role_check /\
   (20 <= relevance_score r <= 100)%Z /\
   is_Some (salary_lpa r) /\
   is_fresher_friendly r = Some (default false (rc_fresher_friendly role_check)) /\
   matched_keywords r = Some (rc_matched_keywords role_check)) /\
  (is_relevant r = false ->
   resume_to_use r = "" /\ relevance_score r = 0%Z /\ salary_lpa r = None /\
   is_fresher_friendly r = None /\ matched_keywords r = None).
Proof.
  cbv zeta. pose proof (filter_job_cases job_data) as C. cbv zeta in C.
  destruct C
    as [(e & H)|[(Hr & H)|[(lc & Hr & Hl & Hm & H)
       |[(lc & ec & Hr & Hl & Hm & He & Hn & H)
        |(lc & ec & si & Hr & Hl & Hm & He & Hn & Hs & H)]]]].
  - rewrite H. split; [|split; [discriminate|intros _; repeat split]].
    split; [discriminate|]. intros (Hr & lc & ec & si & Hl & Hm & He & Hn & Hs & Ho).
    exfalso. unfold filter_job, filter_job_try in H.
    rewrite Hr in H. cbn [negb] in H. rewrite Hl in H.
    cbn [mbind Py.res_bind mret Py.res_ret] in H. rewrite Hm in H. cbn [negb] in H.
    rewrite He in H.
    cbn [mbind Py.res_bind mret Py.res_ret] in H. rewrite Hn in H. cbn [negb] in H.
    rewrite Hs in H.
    cbn [mbind Py.res_bind mret Py.res_ret] in H. rewrite Ho in H.
    discriminate H.
  - rewrite H. split; [|split; [discriminate|intros _; repeat split]].
    split; [discriminate|]. intros (Hr' & _). congruence.
  - rewrite H. split; [|split; [discriminate|intros _; repeat split]].
    split; [discriminate|]. intros (_ & lc' & ec & si & Hl' & Hm' & _).
    congruence.
  - rewrite H. split; [|split; [discriminate|intros _; repeat split]].
    split; [discriminate|].
    intros (_ & lc' & ec' & si & Hl' & Hm' & He' & Hn' & _).
    congruence.
  - destruct H as [(why & Ho & H)|(Ho & H)]; rewrite H.
    + split; [|split; [discriminate|intros _; repeat split]].
      split; [discriminate|].
      intros (_ & lc' & ec' & si' & Hl' & Hm' & He' & Hn' & Hs' & Ho').
      congruence.
    + cbn [is_relevant reason resume_to_use relevance_score salary_lpa
           is_fresher_friendly matched_keywords].
      split; [|split; [intros _|discriminate]].
      * split; [intros _|reflexivity]. split; [exact Hr|].
        exists lc, ec, si. auto 10.
      * destruct (relevant_role_score _ _ Hr) as [Hscore _].
        repeat split; try apply Hscore; eauto.
        apply select_resume_configured.
Qed.

End WithConfig.

End FilterMore.

(** ** More on extract_salary *)

Module SalaryMore.

Import Str Re StrFacts ReFacts Filter FilterFacts FilterMore.

Lemma to_float_nonneg s q : to_float s = Some q -> (0 <= q)%Q.
Proof.
  unfold to_float. destruct (cut_dot s) as [i [f|]].
  - destruct (decimal i) as [zi|] eqn:Ei; [|discriminate].
    destruct (decimal f) as [zf|] eqn:Ef; [|discriminate].
    simpl. intros [= <-]. apply decimal_nonneg in Ei, Ef.
    unfold Qle. simpl.
    assert (0 <= 10 ^ Z.of_nat (String.length f))%Z by (apply Z.pow_nonneg; lia).
    nia.
  - destruct (decimal i) as [zi|] eqn:Ei; [|discriminate].
    simpl. intros [= <-]. apply decimal_nonneg in Ei. unfold Qle. simpl. lia.
Qed.

Lemma float_nonneg x q : Py.float x = Py.Ok q -> (0 <= q)%Q.
Proof.
  unfold Py.float. destruct (to_float x) as [q'|] eqn:E; [|discriminate].
  intros [= <-]. rewrite Qred_correct. eapply to_float_nonneg, E.
Qed.

Lemma traverse_float_nonneg l : forall qs,
  Py.traverse Py.float l = Py.Ok qs ->
  Forall (Qle 0) qs /\ List.length qs = List.length l.
Proof.
  induction l as [|x l IH]; simpl; intros qs H.
  - injection H as <-. split; [apply List.Forall_nil|reflexivity].
  - destruct (Py.float x) as [q|] eqn:Eq; [|discriminate]. simpl in H.
    destruct (Py.traverse Py.float l) as [qs'|]; [|discriminate]. simpl in H.
    injection H as <-. destruct (IH _ eq_refl) as [IH1 IH2].
    split; [|simpl; congruence].
    apply List.Forall_cons; [eapply float_nonneg, Eq|exact IH1].
Qed.

(** [x.replace('.', '')] drops the full stops and keeps the rest. *)
Lemma replace_dot a s :
  replace "." "" (String a s) =
  if Ascii.eqb a "." then replace "." "" s else String a (replace "." "" s).
Proof.
  unfold replace. cbn [replace_go String.prefix].
  destruct (ascii_dec "." a) as [<-|Hne].
  - destruct s; reflexivity.
  - destruct (Ascii.eqb_spec a "."); [congruence|reflexivity].
Qed.

Lemma replace_dot_digits s :
  all (fun a => is_digit a || Ascii.eqb a ".") s = true ->
  all is_digit (replace "." "" s) = true.
Proof.
  induction s as [|a s IH]; [reflexivity|].
  cbn [all]. intros H. apply andb_true_iff in H as [Ha Hs].
  rewrite replace_dot. destruct (Ascii.eqb a ".") eqn:E; [exact (IH Hs)|].
  cbn [all]. rewrite orb_false_r in Ha. rewrite Ha. exact (IH Hs).
Qed.

Lemma cut_dot_inv s : forall i f,
  cut_dot s = (i, f) ->
  s = i +:+ match f with Some f' => String "." f' | None => "" end.
Proof.
  induction s as [|a s IH]; simpl; intros i f H.
  - injection H as <- <-. reflexivity.
  - destruct (Ascii.eqb_spec a ".") as [->|_].
    + injection H as <- <-. reflexivity.
    + destruct (cut_dot s) as [i' f']. injection H as <- <-.
      rewrite app_cons, <- (IH _ _ eq_refl). reflexivity.
Qed.

Lemma all_weaken (p q : ascii -> bool) s :
  (forall a, p a = true -> q a = true) -> all p s = true -> all q s = true.
Proof.
  intros Hpq. induction s as [|a s IH]; [reflexivity|].
  cbn [all]. intros H. apply andb_true_iff in H as [Ha Hs].
  rewrite (Hpq _ Ha), (IH Hs). reflexivity.
Qed.

(** What [float] reads passes the test of the comprehension. *)
Lemma float_is_amount s : is_Some (to_float s) -> is_amount s = true.
Proof.
  intros [q H]. unfold to_float in H.
  destruct (cut_dot s) as [i f] eqn:E. apply cut_dot_inv in E.
  assert (isdigit i = true /\
          all (fun a => is_digit a || Ascii.eqb a ".")
              match f with Some f' => String "." f' | None => "" end = true)
    as [Hi Hf].
  { destruct f as [f|].
    - destruct (decimal i) eqn:Ei; [|discriminate]. simpl in H.
      destruct (decimal f) eqn:Ef; [|discriminate].
      unfold decimal in Ei, Ef.
      destruct (isdigit i); [|discriminate].
      destruct (isdigit f) eqn:Hf; [|discriminate].
      split; [reflexivity|]. cbn [all]. rewrite orb_true_r. cbn [andb].
      apply isdigit_all in Hf as [_ Hf].
      eapply all_weaken; [|exact Hf]. intros a ->. reflexivity.
    - destruct (decimal i) eqn:Ei; [|discriminate].
      unfold decimal in Ei. destruct (isdigit i); [|discriminate].
      split; reflexivity. }
  apply isdigit_all in Hi as [Hne Hi].
  destruct i as [|a i]; [congruence|]. rewrite app_cons in E. subst s.
  cbn [all] in Hi. apply andb_true_iff in Hi as [Ha Hi].
  unfold is_amount. cbn [String.eqb negb andb].
  rewrite replace_dot, (is_digit_not_dot _ Ha).
  unfold isdigit. cbn [all]. rewrite Ha. cbn [andb].
  apply replace_dot_digits. rewrite all_app, Hf, andb_true_r.
  eapply all_weaken; [|exact Hi]. intros b ->. reflexivity.
Qed.

(** Minimum, maximum and mean of two amounts. *)
Lemma pair_bounds (a b : Q) :
  (0 <= a)%Q -> (0 <= b)%Q ->
  (0 <= min2 a b)%Q /\ (min2 a b <= mean2 a b)%Q /\ (mean2 a b <= max2 a b)%Q.
Proof.
  intros Ha Hb. unfold min2, max2, mean2, Py.lt. rewrite !Qred_correct.
  destruct (Qle_bool a b) eqn:E1; destruct (Qle_bool b a) eqn:E2; cbn [negb];
    try (apply Qle_bool_iff in E1); try (apply Qle_bool_iff in E2);
    try (assert (~ (a <= b)%Q) as N1
           by (intros N; apply Qle_bool_iff in N; congruence));
    try (assert (~ (b <= a)%Q) as N2
           by (intros N; apply Qle_bool_iff in N; congruence));
    repeat split; try assumption;
    unfold Qdiv; change (/ 2)%Q with (1 # 2)%Q; lra.
Qed.

(** The result of a found salary: one amount, or two with their minimum,
    maximum and mean. *)
Lemma salary_scan_cases ps text :
  Forall (fun p => amount_pattern p /\ binds 1 (pat_re p) = true /\
                   (1 <= pat_groups p <= 2)%nat) ps ->
  (Forall (fun p => findall p text = []) ps /\
   salary_scan ps text = Py.Ok no_salary) \/
  (Exists (fun p => findall p text <> []) ps /\
   exists a, (0 <= a)%Q /\
     (salary_scan ps text = Py.Ok (one_salary a) \/
      exists b, (0 <= b)%Q /\
        salary_scan ps text =
          Py.Ok {| si_min_salary := min2 a b; si_max_salary := max2 a b;
                   si_average_salary := mean2 a b; si_found := true |})).
Proof.
  induction 1 as [|p ps ([G _] & B & Hn) _ IH]; cbn [salary_scan].
  - left. split; [apply List.Forall_nil|reflexivity].
  - destruct (findall p text) as [|first more] eqn:E.
    + destruct IH as [[IH1 IH2]|[IH1 IH2]].
      * left. split; [apply List.Forall_cons; assumption|exact IH2].
      * right. split; [apply Exists_cons_tl, IH1|exact IH2].
    + right. split; [apply Exists_cons_hd; rewrite E; discriminate|].
      destruct (findall_head _ _ _ _ E) as (h & H & ->).
      pose proof (hit_bound floatP _ _ _ _ G B H) as F1. cbv beta in F1.
      unfold item_of.
      destruct (pat_groups p) as [|[|[|n]]]; [lia| | |lia].
      * destruct (float_ok _ F1) as [q Hq]. rewrite Hq.
        cbn [mbind Py.res_bind mret Py.res_ret].
        exists q. split; [eapply float_nonneg, Hq|left; reflexivity].
      * unfold groups. cbn [seq List.map List.filter].
        rewrite (float_is_amount _ F1).
        destruct (float_ok _ F1) as [q Hq].
        pose proof (float_nonneg _ _ Hq) as Hq0.
        destruct (is_amount (group_text 2 h)) eqn:E2; cbn [Py.traverse];
          rewrite Hq; cbn [mbind Py.res_bind mret Py.res_ret].
        -- destruct (hit_group floatP _ _ _ 2 G H) as [E0|F2];
             [rewrite E0 in E2; discriminate|].
           destruct (float_ok _ F2) as [q2 Hq2]. rewrite Hq2.
           cbn [mbind Py.res_bind mret Py.res_ret].
           exists q. split; [exact Hq0|right].
           exists q2. split; [eapply float_nonneg, Hq2|reflexivity].
        -- exists q. split; [exact Hq0|left; reflexivity].
Qed.

Lemma salary_patterns_bound :
  Forall (fun p => amount_pattern p /\ binds 1 (pat_re p) = true /\
                   (1 <= pat_groups p <= 2)%nat) salary_patterns.
Proof.
  pose proof salary_patterns_ok as H. unfold salary_patterns in *.
  repeat match goal with
         | H : Forall _ (_ :: _) |- _ =>
             apply List.Forall_cons_iff in H; destruct H as [? H]
         end.
  repeat (apply List.Forall_cons;
          [split; [assumption|split; [reflexivity|cbn [pat_groups]; lia]]|]).
  apply List.Forall_nil.
Qed.

(** A result without a salary holds the zeros. *)
Lemma extract_salary_found_or_none job_text info :
  extract_salary job_text = Py.Ok info ->
  si_found info = true \/ info = no_salary.
Proof.
  unfold extract_salary.
  destruct (salary_scan_cases _ (lower job_text) salary_patterns_bound)
    as [[_ ->]|[_ (a & Ha & [->|(b & Hb & ->)])]]; intros [= <-]; auto.
Qed.

(** X2. [extract_salary] never raises, on any text: [float] reads every
    amount the patterns capture, whatever its length. When it finds no
    salary it returns zeros; when it finds one, the minimum is not
    negative and is at most the maximum and at most the average. (That
    the average is at most the maximum holds of the exact amounts, but
    not of the floats of the interpreter, where the sum of two amounts
    near the top of the range is infinite; it is not stated.) *)
Theorem extract_salary_bounds (job_text : string) :
  exists info,
    extract_salary job_text = Py.Ok info /\
    (si_found info = false -> info = no_salary) /\
    (si_found info = true ->
     (0 <= si_min_salary info)%Q /\
     (si_min_salary info <= si_max_salary info)%Q /\
     (si_min_salary info <= si_average_salary info)%Q).
Proof.
  unfold extract_salary.
  destruct (salary_scan_cases _ (lower job_text) salary_patterns_bound)
    as [[_ ->]|[_ (a & Ha & [->|(b & Hb & ->)])]]; eexists; (split; [reflexivity|]);
    cbn [si_found si_min_salary si_max_salary si_average_salary one_salary];
    split; try discriminate; try reflexivity; intros _.
  - repeat split; [exact Ha|apply Qle_refl|apply Qle_refl].
  - destruct (pair_bounds a b Ha Hb) as (H0 & Hmin & Hmax).
    repeat split; [exact H0| |exact Hmin].
    eapply Qle_trans; [exact Hmin|exact Hmax].
Qed.

(** X3. [extract_salary] finds a salary exactly when one of its eight
    patterns matches the lowered text: the first match of the first
    pattern that matches always yields one or two amounts, so the loop
    never goes on to a later pattern after a match. *)
Theorem extract_salary_found (job_text : string) :
  exists info,
    extract_salary job_text = Py.Ok info /\
    (si_found info = true <->
     exists pattern, In pattern salary_patterns /\
                     findall pattern (lower job_text) <> []).
Proof.
  unfold extract_salary.
  destruct (salary_scan_cases _ (lower job_text) salary_patterns_bound)
    as [[Hnone ->]|[Hsome (a & Ha & [->|(b & Hb & ->)])]];
    eexists; (split; [reflexivity|]); cbn [si_found no_salary one_salary].
  - split; [discriminate|]. intros (p & Hin & Hp).
    rewrite List.Forall_forall in Hnone. elim Hp. exact (Hnone _ Hin).
  - split; [intros _|reflexivity]. apply List.Exists_exists in Hsome. exact Hsome.
  - split; [intros _|reflexivity]. apply List.Exists_exists in Hsome. exact Hsome.
Qed.

End SalaryMore.

(** ** get_filter_summary *)

Module SummaryMore.

Import Filter Summary.

Lemma sum_counts_insert (m : gmap string Z) k v :
  m !! k = None -> sum_counts (<[ k := v ]> m) = (v + sum_counts m)%Z.
Proof.
  intros H. unfold sum_counts.
  apply (map_fold_insert_L (fun _ n acc => (n + acc)%Z)); [|exact H].
  intros. lia.
Qed.

Lemma sum_counts_bump (m : gmap string Z) k :
  sum_counts (<[ k := (default 0 (m !! k) + 1)%Z ]> m) = (sum_counts m + 1)%Z.
Proof.
  destruct (m !! k) as [n|] eqn:E; cbn [default]; unfold id.
  - rewrite <- (insert_delete_eq m k (n + 1)%Z).
    rewrite sum_counts_insert by apply lookup_delete_eq.
    rewrite <- (insert_delete_id m k n E) at 2.
    rewrite sum_counts_insert by apply lookup_delete_eq. lia.
  - rewrite sum_counts_insert by exact E. lia.
Qed.

Lemma sum_counts_nonneg (m : gmap string Z) :
  (forall k n, m !! k = Some n -> (0 <= n)%Z) -> (0 <= sum_counts m)%Z.
Proof.
  induction m as [|k n m Hk IH] using map_ind; intros H; [reflexivity|].
  rewrite sum_counts_insert by exact Hk.
  assert (0 <= n)%Z by (apply (H k); apply lookup_insert_eq).
  assert (0 <= sum_counts m)%Z; [|lia].
  apply IH. intros k' n' Hk'. apply (H k').
  rewrite lookup_insert_ne; [exact Hk'|]. intros ->. congruence.
Qed.

Section WithConfig.

Variable float_str : Q -> string.
Variable cfg : Config.
Variable round2 : Q -> Q.

Lemma rejected_with_nonneg why jobs : (0 <= rejected_with float_str cfg why jobs)%Z.
Proof. unfold rejected_with. lia. Qed.

Lemma rejected_with_cons why job jobs :
  rejected_with float_str cfg why (job :: jobs) =
  ((if negb (is_relevant (filter_job float_str cfg job)) &&
       String.eqb (reason (filter_job float_str cfg job)) why
    then 1 else 0) + rejected_with float_str cfg why jobs)%Z.
Proof.
  unfold rejected_with. cbn [List.filter].
  destruct (_ && _); cbn [List.length]; lia.
Qed.

(** The loop with its two accumulators. *)
Lemma summary_scan_spec jobs : forall relevant reasons,
  let found := summary_scan float_str cfg jobs relevant reasons in
  fst found =
    relevant ++ List.filter (fun job => is_relevant (filter_job float_str cfg job)) jobs /\
  (forall why,
     default 0%Z (snd found !! why) =
     (default 0 (reasons !! why) + rejected_with float_str cfg why jobs)%Z) /\
  (forall why,
     is_Some (snd found !! why) <->
     is_Some (reasons !! why) \/ (0 < rejected_with float_str cfg why jobs)%Z) /\
  (Z.of_nat (List.length (fst found)) + sum_counts (snd found) =
   Z.of_nat (List.length relevant) + sum_counts reasons +
   Z.of_nat (List.length jobs))%Z.
Proof.
  induction jobs as [|job jobs IH]; intros relevant reasons; cbn [summary_scan].
  - cbn [fst snd List.filter List.length]. rewrite List.app_nil_r.
    repeat split; try (unfold rejected_with; cbn; lia).
    + intros H. left. exact H.
    + intros [H|H]; [exact H|]. unfold rejected_with in H. cbn in H. lia.
  - cbn zeta. cbn [List.filter].
    destruct (is_relevant (filter_job float_str cfg job)) eqn:E.
    + destruct (IH (relevant ++ [job]) reasons) as (H1 & H2 & H3 & H4).
      repeat split.
      * rewrite H1, <- List.app_assoc. reflexivity.
      * intros why. rewrite H2, rejected_with_cons, E. cbn [negb andb]. lia.
      * rewrite H3, rejected_with_cons, E. cbn [negb andb]. intros [?|?]; [left|right]; auto.
      * rewrite H3, rejected_with_cons, E. cbn [negb andb]. intros [?|?]; [left|right]; auto.
      * rewrite H4, List.length_app. cbn [List.length]. lia.
    + remember (reason (filter_job float_str cfg job)) as why0 eqn:Hw0.
      destruct (IH relevant
                  (<[ why0 := (default 0 (reasons !! why0) + 1)%Z ]> reasons))
        as (H1 & H2 & H3 & H4).
      repeat split.
      * exact H1.
      * intros why. rewrite H2, rejected_with_cons, E, <- Hw0. cbn [negb andb].
        destruct (String.eqb_spec why0 why) as [->|Hne].
        -- rewrite lookup_insert_eq. cbn [default]; unfold id. lia.
        -- rewrite lookup_insert_ne by exact Hne. lia.
      * rewrite H3, rejected_with_cons, E, <- Hw0. cbn [negb andb].
        pose proof (rejected_with_nonneg why jobs).
        destruct (String.eqb_spec why0 why) as [->|Hne].
        -- intros _. right. lia.
        -- rewrite lookup_insert_ne by exact Hne. intros [?|?]; [left|right]; auto.
      * rewrite H3, rejected_with_cons, E, <- Hw0. cbn [negb andb].
        destruct (String.eqb_spec why0 why) as [->|Hne].
        -- intros _. left. rewrite lookup_insert_eq. eauto.
        -- rewrite lookup_insert_ne by exact Hne. intros [?|?]; [left|right]; auto.
      * rewrite H4, sum_counts_bump. cbn [List.length]. lia.
Qed.

(** X8. [get_filter_summary] never divides by zero, the empty list
    included. It counts the jobs, lists the relevant ones in their order,
    and files every other job under the reason of its rejection: a reason
    is a key exactly when some job was rejected with it, its count is the
    number of those jobs, and the relevant jobs and the counts add up to
    the total. *)
Theorem get_filter_summary_counts (jobs : list (gmap string Py.scalar)) :
  exists summary,
    get_filter_summary float_str cfg round2 jobs = Some summary /\
    total_jobs summary = Z.of_nat (List.length jobs) /\
    relevant_job_list summary =
      List.filter (fun job => is_relevant (filter_job float_str cfg job)) jobs /\
    relevant_jobs summary = Z.of_nat (List.length (relevant_job_list summary)) /\
    (forall why,
       is_Some (rejection_reasons summary !! why) <->
       (0 < rejected_with float_str cfg why jobs)%Z) /\
    (forall why,
       default 0%Z (rejection_reasons summary !! why) =
       rejected_with float_str cfg why jobs) /\
    (relevant_jobs summary + sum_counts (rejection_reasons summary) =
     total_jobs summary)%Z /\
    (0 <= relevant_jobs summary <= total_jobs summary)%Z.
Proof.
  unfold get_filter_summary, true_div.
  destruct (Z.eqb_spec (Z.max (Z.of_nat (List.length jobs)) 1) 0) as [H0|_]; [lia|].
  cbn [mbind option_bind]. eexists. split; [reflexivity|].
  cbn [total_jobs relevant_jobs relevant_job_list rejection_reasons].
  destruct (summary_scan_spec jobs [] ∅) as (H1 & H2 & H3 & H4).
  cbn zeta in H1, H2, H3, H4. cbn [app] in H1.
  assert (sum_counts (∅ : gmap string Z) = 0%Z) as Hempty by reflexivity.
  rewrite Hempty in H4. cbn [List.length] in H4.
  repeat split.
  - exact H1.
  - intros H. apply H3 in H as [H|H]; [|exact H].
    rewrite lookup_empty in H. destruct H; discriminate.
  - intros H. apply H3. right. exact H.
  - intros why. rewrite H2, lookup_empty. cbn [default]; unfold id. lia.
  - lia.
  - lia.
  - assert (0 <= sum_counts (snd (summary_scan float_str cfg jobs [] ∅)))%Z; [|lia].
    apply sum_counts_nonneg. intros k n Hk.
    assert (default 0%Z (snd (summary_scan float_str cfg jobs [] ∅) !! k) = n)
      as Hn by (rewrite Hk; reflexivity).
    rewrite H2, lookup_empty in Hn. cbn [default] in Hn; unfold id in Hn.
    pose proof (rejected_with_nonneg k jobs). lia.
Qed.

End WithConfig.

End SummaryMore.

(** ** main.py: the batches of the morning and of the evening *)

Module MainMore.

Import Filter Main.

Section Sorting.

Context {A : Type} (key : A -> Z).

Lemma insert_desc_perm x l : Permutation (insert_desc key x l) (x :: l).
Proof.
  induction l as [|y l IH]; cbn [insert_desc]; [reflexivity|].
  destruct (key x <? key y)%Z; [|reflexivity].
  rewrite IH. apply perm_swap.
Qed.

Lemma sorted_desc_perm l : Permutation (sorted_desc key l) l.
Proof.
  induction l as [|x l IH]; [reflexivity|].
  unfold sorted_desc. cbn [List.fold_right]. fold (sorted_desc key l).
  rewrite insert_desc_perm, IH. reflexivity.
Qed.

Lemma insert_desc_sorted x l :
  StronglySorted (above key) l -> StronglySorted (above key) (insert_desc key x l).
Proof.
  induction 1 as [|y l Hl IH Hy]; cbn [insert_desc].
  - apply SSorted_cons; [apply SSorted_nil|apply List.Forall_nil].
  - destruct (Z.ltb_spec (key x) (key y)) as [Hlt|Hge].
    + apply SSorted_cons; [exact IH|].
      rewrite insert_desc_perm. apply List.Forall_cons; [|exact Hy].
      unfold above. lia.
    + apply SSorted_cons; [apply SSorted_cons; assumption|].
      apply List.Forall_cons; [exact Hge|].
      eapply List.Forall_impl; [|exact Hy]. unfold above. intros z Hz. lia.
Qed.

Lemma sorted_desc_sorted l : StronglySorted (above key) (sorted_desc key l).
Proof.
  induction l as [|x l IH]; [apply SSorted_nil|].
  unfold sorted_desc. cbn [List.fold_right]. apply insert_desc_sorted, IH.
Qed.

Lemma sorted_falling l : StronglySorted (above key) l -> falling key l.
Proof.
  induction 1 as [|x l Hl IH Hx]; intros i j a b Hij Ha Hb.
  - destruct i; discriminate.
  - destruct j as [|j]; [lia|]. cbn [nth_error] in Hb.
    destruct i as [|i]; cbn [nth_error] in Ha.
    + injection Ha as <-. rewrite List.Forall_forall in Hx.
      apply Hx. eapply nth_error_In, Hb.
    + eapply (IH i j); [lia|exact Ha|exact Hb].
Qed.

Lemma insert_desc_with_key k x l :
  with_key key k (insert_desc key x l) = with_key key k (x :: l).
Proof.
  induction l as [|y l IH]; cbn [insert_desc]; [reflexivity|].
  destruct (Z.ltb_spec (key x) (key y)) as [Hlt|Hge]; [|reflexivity].
  unfold with_key in *. cbn [List.filter] in *. rewrite IH.
  destruct (Z.eqb_spec (key x) k), (Z.eqb_spec (key y) k); try reflexivity. lia.
Qed.

Lemma sorted_desc_with_key k l :
  with_key key k (sorted_desc key l) = with_key key k l.
Proof.
  induction l as [|x l IH]; [reflexivity|].
  unfold sorted_desc. cbn [List.fold_right]. fold (sorted_desc key l).
  rewrite insert_desc_with_key. unfold with_key in *. cbn [List.filter].
  rewrite IH. reflexivity.
Qed.

(** A slice of the sorted pool, with what it leaves, is the sorted
    pool. *)
Lemma slice_best n pool :
  (0 <= n)%Z ->
  best_of key pool (slice_to n (sorted_desc key pool)) /\
  List.length (slice_to n (sorted_desc key pool)) =
    Nat.min (Z.to_nat n) (List.length pool).
Proof.
  intros Hn. unfold slice_to. destruct (Z.leb_spec 0 n) as [_|]; [|lia]. split.
  - exists (List.skipn (Z.to_nat n) (sorted_desc key pool)).
    rewrite List.firstn_skipn. split; [apply sorted_desc_perm|]. split.
    + apply sorted_falling, sorted_desc_sorted.
    + intros k. apply sorted_desc_with_key.
  - rewrite List.length_firstn. rewrite (Permutation_length (sorted_desc_perm pool)).
    reflexivity.
Qed.

End Sorting.

Section WithConfig.

Variable float_str : Q -> string.
Variable cfg : Config.

(** The annotated jobs are the relevant jobs of the scrape, in its
    order, each with the result of [filter_job] on it. *)
Lemma relevant_jobs_spec jobs :
  relevant_jobs float_str cfg jobs =
  List.map (fun job => {| fields := job;
                          filter_result := filter_job float_str cfg job |})
           (List.filter (fun job => is_relevant (filter_job float_str cfg job)) jobs).
Proof.
  induction jobs as [|job jobs IH]; [reflexivity|].
  unfold relevant_jobs in *. cbn [List.flat_map List.filter].
  destruct (is_relevant (filter_job float_str cfg job)); cbn [app List.map];
    rewrite IH; reflexivity.
Qed.

Lemma relevant_jobs_in x jobs :
  In x (relevant_jobs float_str cfg jobs) ->
  In (fields x) jobs /\
  filter_result x = filter_job float_str cfg (fields x) /\
  is_relevant (filter_result x) = true.
Proof.
  rewrite relevant_jobs_spec. intros H.
  apply in_map_iff in H as (job & <- & H). apply filter_In in H as [H1 H2].
  cbn [fields filter_result]. auto.
Qed.

(** X9. The morning batch, for a limit that is not negative. The routine
    stops without a batch exactly when no scraped job is relevant.
    Otherwise the batch holds the limit of jobs, or all the relevant ones
    if they are fewer; each is a scraped job that [filter_job] accepts,
    with its result; and the batch is a best choice: the scores fall along
    it, no job left out scores higher than a chosen one, and jobs of equal
    score keep the order of the scrape. *)
Theorem morning_jobs_best (morning_limit : Z) (jobs : list (gmap string Py.scalar)) :
  (0 <= morning_limit)%Z ->
  (morning_jobs float_str cfg morning_limit jobs = None <->
   forall job, In job jobs -> is_relevant (filter_job float_str cfg job) = false) /\
  (forall batch,
     morning_jobs float_str cfg morning_limit jobs = Some batch ->
     List.length batch =
       Nat.min (Z.to_nat morning_limit)
               (List.length (relevant_jobs float_str cfg jobs)) /\
     (forall x, In x batch ->
        In (fields x) jobs /\
        filter_result x = filter_job float_str cfg (fields x) /\
        is_relevant (filter_result x) = true) /\
     best_of key (relevant_jobs float_str cfg jobs) batch).
Proof.
  intros Hn. unfold morning_jobs. split.
  - rewrite relevant_jobs_spec.
    destruct (List.filter _ jobs) as [|job' l] eqn:E; cbn [List.map].
    + split; [intros _|reflexivity]. intros job Hin.
      destruct (is_relevant (filter_job float_str cfg job)) eqn:Hr; [|reflexivity].
      assert (In job []) as []. rewrite <- E. apply filter_In. auto.
    + split; [discriminate|]. intros H.
      assert (In job' (List.filter
                (fun job => is_relevant (filter_job float_str cfg job)) jobs)) as Hin
        by (rewrite E; left; reflexivity).
      apply filter_In in Hin as [Hin Hr]. rewrite (H _ Hin) in Hr. discriminate.
  - intros batch H.
    assert (batch = slice_to morning_limit
                      (sorted_desc key (relevant_jobs float_str cfg jobs))) as ->.
    { destruct (relevant_jobs float_str cfg jobs); [discriminate|].
      injection H as <-. reflexivity. }
    destruct (slice_best key morning_limit (relevant_jobs float_str cfg jobs) Hn)
      as [Hbest Hlen].
    split; [exact Hlen|]. split; [|exact Hbest].
    intros x Hx. apply relevant_jobs_in.
    destruct Hbest as (rest & Hperm & _).
    eapply Permutation_in; [exact Hperm|]. apply in_or_app. left. exact Hx.
Qed.

(** X10. The evening batch, for an evening limit that is not negative.
    There is a batch exactly when some evening job is relevant and the
    day's quota is not used up. The batch then has as many jobs as the
    evening limit, the remaining quota and the number of relevant jobs
    allow, so the applications of the day stay within the maximum; and it
    is a best choice among the relevant evening jobs. *)
Theorem best_evening_jobs_quota
  (evening_limit max_applications applications_attempted : Z)
  (evening_jobs : list (gmap string Py.scalar)) :
  (0 <= evening_limit)%Z ->
  let chosen := best_evening_jobs float_str cfg evening_limit max_applications
                                  applications_attempted evening_jobs in
  (is_Some chosen <->
   relevant_jobs float_str cfg evening_jobs <> [] /\
   (applications_attempted < max_applications)%Z) /\
  (forall batch, chosen = Some batch ->
     Z.of_nat (List.length batch) =
       Z.min (Z.min evening_limit (max_applications - applications_attempted))
             (Z.of_nat (List.length (relevant_jobs float_str cfg evening_jobs))) /\
     (applications_attempted + Z.of_nat (List.length batch) <= max_applications)%Z /\
     (forall x, In x batch ->
        In (fields x) evening_jobs /\
        filter_result x = filter_job float_str cfg (fields x) /\
        is_relevant (filter_result x) = true) /\
     best_of key (relevant_jobs float_str cfg evening_jobs) batch).
Proof.
  intros Hn chosen. unfold chosen, best_evening_jobs.
  destruct (relevant_jobs float_str cfg evening_jobs) as [|x0 l0] eqn:E.
  - split; [|discriminate]. split; [intros [? ?]; discriminate|].
    intros [H _]. congruence.
  - rewrite <- E.
    destruct (Z.ltb_spec 0 (max_applications - applications_attempted)) as [Hq|Hq].
    + split; [split; [intros _; split; [congruence|lia]|eauto]|].
      intros batch [= <-].
      destruct (slice_best key
                  (Z.min evening_limit (max_applications - applications_attempted))
                  (relevant_jobs float_str cfg evening_jobs)) as [Hbest Hlen]; [lia|].
      split; [rewrite Hlen; lia|]. split; [rewrite Hlen; lia|].
      split; [|exact Hbest].
      intros x Hx. apply relevant_jobs_in.
      destruct Hbest as (rest & Hperm & _).
      eapply Permutation_in; [exact Hperm|]. apply in_or_app. left. exact Hx.
    + split; [|discriminate]. split; [intros [? ?]; discriminate|].
      intros [_ H]. lia.
Qed.

End WithConfig.

Lemma morning_jobs_best_witness :
  (0 <= 1)%Z /\
  exists batch,
    morning_jobs Sample.float_str Sample.cfg 1
      [Sample.senior_job; Sample.remote_job; Sample.fresher_job] = Some batch /\
    List.map key batch = [40%Z] /\
    best_of key
      (relevant_jobs Sample.float_str Sample.cfg
         [Sample.senior_job; Sample.remote_job; Sample.fresher_job]) batch.
Proof.
  split; [lia|].
  destruct (morning_jobs_best Sample.float_str Sample.cfg 1
              [Sample.senior_job; Sample.remote_job; Sample.fresher_job])
    as [_ H]; [lia|].
  destruct (morning_jobs Sample.float_str Sample.cfg 1
              [Sample.senior_job; Sample.remote_job; Sample.fresher_job])
    as [batch|] eqn:E; [|vm_compute in E; discriminate].
  exists batch. split; [reflexivity|].
  destruct (H batch eq_refl) as (_ & _ & Hbest).
  split; [|exact Hbest].
  vm_compute in E. injection E as <-. reflexivity.
Defined.

Lemma best_evening_jobs_quota_witness :
  (0 <= 2)%Z /\
  exists batch,
    best_evening_jobs Sample.float_str Sample.cfg 2 5 4
      [Sample.remote_job; Sample.cook_job; Sample.fresher_job] = Some batch /\
    (4 + Z.of_nat (List.length batch) <= 5)%Z.
Proof.
  split; [lia|].
  destruct (best_evening_jobs_quota Sample.float_str Sample.cfg 2 5 4
              [Sample.remote_job; Sample.cook_job; Sample.fresher_job])
    as [_ H]; [lia|].
  destruct (best_evening_jobs Sample.float_str Sample.cfg 2 5 4
              [Sample.remote_job; Sample.cook_job; Sample.fresher_job])
    as [batch|] eqn:E; [|vm_compute in E; discriminate].
  exists batch. split; [reflexivity|].
  destruct (H batch eq_refl) as (_ & Hquota & _). exact Hquota.
Defined.

End MainMore.

(** ** More on the contact extraction *)

Module EmailerMore.

Import Str Re StrFacts ReFacts Emailer EmailerSpec.

(** *** The matcher finds what the pattern covers *)

Lemma run_chr total (p : ascii -> bool) a s c :
  p a = true -> In (s, c) (run total (Chr p) (String a s) c).
Proof. intros H. cbn [run]. rewrite H. left. reflexivity. Qed.

Lemma run_cat total r1 r2 s c s1 c1 s2 c2 :
  In (s1, c1) (run total r1 s c) -> In (s2, c2) (run total r2 s1 c1) ->
  In (s2, c2) (run total (Cat r1 r2) s c).
Proof.
  intros H1 H2. cbn [run]. apply in_flat_map. exists (s1, c1). auto.
Qed.

Lemma rep_greedy_complete p w : forall s,
  all p w = true -> In s (rep_greedy p (w +:+ s)).
Proof.
  induction w as [|a w IH]; intros s H.
  - change ("" +:+ s) with s. destruct s as [|b s]; cbn [rep_greedy].
    + left. reflexivity.
    + destruct (p b); [apply in_or_app; right|]; left; reflexivity.
  - rewrite app_cons. cbn [rep_greedy all] in *.
    apply andb_true_iff in H as [Ha Hw]. rewrite Ha.
    apply in_or_app. left. apply IH, Hw.
Qed.

Lemma eat_complete p n : forall w s,
  (n <= String.length w)%nat -> all p w = true ->
  exists w', eat p n (w +:+ s) = Some (w' +:+ s) /\ all p w' = true.
Proof.
  induction n as [|n IH]; intros w s Hn Hw; cbn [eat].
  - exists w. auto.
  - destruct w as [|a w]; [cbn in Hn; lia|].
    rewrite app_cons. cbn [all] in Hw. apply andb_true_iff in Hw as [Ha Hw].
    rewrite Ha. apply IH; [cbn in Hn; lia|exact Hw].
Qed.

Lemma run_rep total p n w s c :
  (n <= String.length w)%nat -> all p w = true ->
  In (s, c) (run total (Rep p n) (w +:+ s) c).
Proof.
  intros Hn Hw. cbn [run].
  destruct (eat_complete p n w s Hn Hw) as (w' & -> & Hw').
  apply in_map_iff. exists s. split; [reflexivity|].
  apply rep_greedy_complete, Hw'.
Qed.

(** What is left after a pattern that ends in [$]. *)
Lemma run_cat_left total r1 r2 (P : string -> Prop) :
  (forall s c s1 c1, In (s1, c1) (run total r2 s c) -> P s1) ->
  forall s c s1 c1, In (s1, c1) (run total (Cat r1 r2) s c) -> P s1.
Proof.
  intros H s c s1 c1 Hin. cbn [run] in Hin.
  apply in_flat_map in Hin as ([s' c'] & _ & Hin). eapply H, Hin.
Qed.

Lemma run_eol_left total s c s1 c1 :
  In (s1, c1) (run total Eol s c) -> s1 = "" \/ s1 = String "010" "".
Proof.
  cbn [run]. destruct s as [|a [|b s]].
  - intros [[= <- <-]|[]]. left. reflexivity.
  - destruct (Ascii.eqb_spec a "010") as [->|_]; [|intros []].
    intros [[= <- <-]|[]]. right. reflexivity.
  - intros [].
Qed.

(** The words of the six parts of an address. *)
Lemma lang_address w :
  lang (cat address) w <->
  exists local domain c tld, w = address_of local domain c tld /\
                             address_parts local domain c tld.
Proof.
  unfold address, address_of, address_parts. cbn [cat lang chr]. split.
  - intros (local & w1 & -> & [Hl1 Hl2] & w2 & w3 & -> & (a & -> & Ha) &
            domain & w4 & -> & [Hd1 Hd2] & w5 & w6 & -> & (b & -> & Hb) &
            w7 & tld & -> & (c & -> & Hc) & [Ht1 Ht2]).
    apply Ascii.eqb_eq in Ha, Hb. subst a b.
    exists local, domain, c, tld. split; [reflexivity|]. auto 10.
  - intros (local & domain & c & tld & -> & Hl1 & Hl2 & Hd1 & Hd2 & Hc & Ht1 & Ht2).
    exists local, ("@" +:+ domain +:+ "\" +:+ String c tld).
    split; [reflexivity|]. split; [auto|].
    exists "@", (domain +:+ "\" +:+ String c tld).
    split; [reflexivity|]. split; [exists "@"%char; auto|].
    exists domain, ("\" +:+ String c tld).
    split; [reflexivity|]. split; [auto|].
    exists "\", (String c tld).
    split; [reflexivity|]. split; [exists "\"%char; auto|].
    exists (String c ""), tld.
    split; [reflexivity|]. split; [exists c; auto|auto].
Qed.

Lemma app_one a s : String a "" +:+ s = String a s.
Proof. reflexivity. Qed.

(** The matcher goes through an address that stands at the head of the
    subject. *)
Lemma run_address total r local domain c tld s caps0 s' caps' :
  address_parts local domain c tld ->
  In (s', caps') (run total r s caps0) ->
  In (s', caps') (run total (cat (address ++ [r]))
                      (address_of local domain c tld +:+ s) caps0).
Proof.
  intros (Hl1 & Hl2 & Hd1 & Hd2 & Hc & Ht1 & Ht2) Hr.
  unfold address, address_of. cbn [app cat].
  rewrite !app_assoc.
  eapply run_cat; [apply run_rep; assumption|]. rewrite app_one.
  eapply run_cat; [apply run_chr, Ascii.eqb_refl|].
  eapply run_cat; [apply run_rep; assumption|]. rewrite app_one.
  eapply run_cat; [apply run_chr, Ascii.eqb_refl|]. rewrite app_cons.
  eapply run_cat; [apply run_chr, Hc|].
  eapply run_cat; [apply run_rep; assumption|]. exact Hr.
Qed.

Lemma matches_some total r s s1 c1 :
  In (s1, c1) (run total r s []) -> first_hit total r s <> None.
Proof.
  unfold first_hit. destruct (run total r s []) as [|[s2 c2] l]; [intros []|].
  discriminate.
Qed.

Lemma valid_pattern_left total : forall s c s1 c1,
  In (s1, c1) (run total valid_pattern s c) -> s1 = "" \/ s1 = String "010" "".
Proof.
  unfold valid_pattern, address. cbn [app cat].
  repeat apply (run_cat_left _ _ _ (fun s1 => s1 = "" \/ s1 = String "010" "")).
  apply run_eol_left.
Qed.

(** A valid address has the six parts, and at most a line feed after
    them. *)
Lemma valid_email_parts email :
  is_valid_email email = true ->
  exists local domain c tld nl,
    email = address_of local domain c tld +:+ nl /\
    address_parts local domain c tld /\
    (nl = "" \/ nl = String "010" "").
Proof.
  unfold is_valid_email, matches, first_hit.
  destruct (run _ valid_pattern email []) as [|[s1 c1] l] eqn:E; [discriminate|].
  intros _.
  assert (In (s1, c1) (run (String.length email) valid_pattern email [])) as Hin
    by (rewrite E; left; reflexivity).
  assert (s1 = "" \/ s1 = String "010" "") as Hnl
    by (eapply valid_pattern_left, Hin).
  apply run_sound in Hin as (w & -> & Hw).
  assert (lang (cat address) w) as Ha.
  { unfold valid_pattern, address in Hw. cbn [app cat lang] in Hw.
    destruct Hw as (w0 & w1 & -> & -> & Hw). change ("" +:+ w1) with w1.
    unfold address. cbn [cat lang].
    destruct Hw as (x1 & y1 & -> & H1 & x2 & y2 & -> & H2 & x3 & y3 & -> & H3 &
                    x4 & y4 & -> & H4 & x5 & y5 & -> & H5 & x6 & y6 & -> & H6 & ->).
    rewrite app_nil_r.
    repeat (do 2 eexists; split; [reflexivity|]; split; [eassumption|]).
    exact H6. }
  apply lang_address in Ha as (local & domain & c & tld & -> & Hp).
  exists local, domain, c, tld, s1. auto.
Qed.

(** A text without a backslash is no valid address. *)
Lemma plain_invalid email :
  all plain_char email = true -> is_valid_email email = false.
Proof.
  intros Hplain. destruct (is_valid_email email) eqn:E; [|reflexivity].
  destruct (valid_email_parts _ E) as (local & domain & c & tld & nl & -> & _).
  unfold address_of in Hplain. rewrite !all_app in Hplain.
  cbn [all plain_char Ascii.eqb Bool.eqb negb andb] in Hplain.
  rewrite ?andb_false_r in Hplain. cbn [andb] in Hplain.
  rewrite ?andb_false_r in Hplain. discriminate.
Qed.

(** X11. [is_valid_email] accepts exactly the texts made of a local part,
    an at sign, a domain part, a backslash, one more character and two or
    more of the letters and the bar, with at most a line feed after them.
    The backslash is required: the pattern asks for it before the last
    part, so that no text without a backslash is a valid address. *)
Theorem is_valid_email_shape (email : string) :
  (is_valid_email email = true <->
   exists local domain c tld nl,
     email = address_of local domain c tld +:+ nl /\
     address_parts local domain c tld /\
     (nl = "" \/ nl = String "010" "")) /\
  (all plain_char email = true -> is_valid_email email = false).
Proof.
  split; [split; [apply valid_email_parts|]|apply plain_invalid].
  intros (local & domain & c & tld & nl & -> & Hp & Hnl).
  unfold is_valid_email, matches.
  destruct (first_hit _ valid_pattern _) eqn:E; [reflexivity|].
  exfalso. revert E. apply (matches_some _ _ _ nl []).
  unfold valid_pattern. cbn [cat]. unfold address at 1. cbn [app].
  eapply run_cat.
  - cbn [run]. rewrite Nat.eqb_refl. left. reflexivity.
  - apply (run_address _ Eol); [exact Hp|].
    destruct Hnl as [->| ->]; left; reflexivity.
Qed.

(** *** The scan of a text for addresses *)

Lemma all_first_hit p total r s len h :
  all p s = true -> first_hit total r s = Some (len, h) -> all p (fst h) = true.
Proof.
  unfold first_hit. intros Hs.
  destruct (run total r s []) as [|[s1 c1] l]; [discriminate|].
  intros [= _ <-]. cbn [fst]. apply all_take, Hs.
Qed.

Lemma all_findall_go p total r s : forall skip h,
  all p s = true -> In h (findall_go total r s skip) -> all p (fst h) = true.
Proof.
  induction s as [|a s IH]; intros skip h Hs; cbn [findall_go].
  - destruct skip; [|intros []].
    destruct (first_hit total r "") as [[len h0]|] eqn:E; [|intros []].
    intros [<-|[]]. eapply all_first_hit; [exact Hs|exact E].
  - pose proof Hs as Hs'. cbn [all] in Hs'. apply andb_true_iff in Hs' as [_ Hs'].
    destruct skip; [|apply IH, Hs'].
    destruct (first_hit total r (String a s)) as [[len h0]|] eqn:E; [|apply IH, Hs'].
    intros [<-|H]; [eapply all_first_hit; [exact Hs|exact E]|eapply IH; eauto].
Qed.

Lemma lang_lit s w : lang (lit s) w -> w = s.
Proof.
  revert w. induction s as [|a s IH]; intros w; cbn [lit lang].
  - auto.
  - destruct s as [|b s].
    + intros (c & -> & Hc). apply Ascii.eqb_eq in Hc as <-. reflexivity.
    + cbn [lang]. intros (w1 & w2 & -> & (c & -> & Hc) & H2).
      apply Ascii.eqb_eq in Hc as <-. rewrite (IH _ H2). reflexivity.
Qed.

(** The scan finds nothing in a text without a backslash. *)
Lemma extract_emails_plain s :
  all plain_char s = true -> extract_emails_from_text (Py.SStr s) = Py.Ok [].
Proof.
  intros Hplain. unfold extract_emails_from_text.
  cbn [mret Py.res_ret]. f_equal.
  match goal with |- ?l = [] => destruct l as [|e l'] eqn:E end; [reflexivity|].
  exfalso.
  assert (In e (e :: l')) as He by (left; reflexivity).
  rewrite <- E in He. apply filter_In in He as [He _].
  destruct (found_email_backslash _ _ He) as [s' Hs'].
  apply texts_findall in He as (h & Hh & ->); [|reflexivity].
  apply (all_findall_go plain_char) in Hh; [|exact Hplain].
  rewrite Hs' in Hh. discriminate.
Qed.

(** X12. [extract_emails_from_text] raises a type error on a value that
    is no text. In a text it finds the addresses that stand between two
    literal [\b], markers included: every address it returns has that
    form, holds none of the five tokens to avoid, and fails
    [is_valid_email]. A text without a backslash yields nothing. *)
Theorem extract_emails_from_text_shape (text : Py.scalar) :
  ((forall s, text <> Py.SStr s) ->
   extract_emails_from_text text =
   Py.Raise (Py.TypeError ("expected string or bytes-like object, got '"
                           +:+ Py.type_name text +:+ "'"))) /\
  (forall s, text = Py.SStr s ->
   exists emails,
     extract_emails_from_text text = Py.Ok emails /\
     (forall e, In e emails ->
        (exists local domain c tld,
           e = "\b" +:+ address_of local domain c tld +:+ "\b" /\
           address_parts local domain c tld) /\
        (forall pattern, In pattern avoid_patterns ->
           contains pattern (lower e) = false) /\
        is_valid_email e = false) /\
     (all plain_char s = true -> emails = [])).
Proof.
  split.
  - intros H. destruct text as [| | |s]; try reflexivity. elim (H s). reflexivity.
  - intros s ->. eexists. split; [reflexivity|]. split.
    + intros e He. split; [|split].
      * apply filter_In in He as [He _].
        apply texts_findall in He as (h & Hh & ->); [|reflexivity].
        apply finditer_hits, hit_lang in Hh.
        change (pat_re email_pattern)
          with (Cat (lit "\b") (cat (address ++ [lit "\b"]))) in Hh.
        destruct Hh as (w1 & w2 & -> & H1 & H2).
        apply lang_lit in H1 as ->.
        assert (exists w, w2 = w +:+ "\b" /\ lang (cat address) w)
          as (w & -> & Hw).
        { unfold address in *. cbn [app cat lang] in *.
          destruct H2 as (x1 & y1 & -> & H1 & x2 & y2 & -> & H2 & x3 & y3 & -> & H3 &
                          x4 & y4 & -> & H4 & x5 & y5 & -> & H5 & x6 & y6 & -> & H6 &
                          H7).
          apply (lang_lit "\b") in H7 as ->.
          exists (x1 +:+ x2 +:+ x3 +:+ x4 +:+ x5 +:+ x6).
          split; [rewrite !app_assoc; reflexivity|].
          repeat (do 2 eexists; split; [reflexivity|]; split; [eassumption|]).
          exact H6. }
        apply lang_address in Hw as (local & domain & c & tld & -> & Hp).
        exists local, domain, c, tld. auto.
      * intros pattern Hp.
        eapply (extract_emails_no_noise (Py.SStr s)); [reflexivity|exact He|exact Hp].
      * destruct (extract_emails_backslash (Py.SStr s) _ e eq_refl He) as [s' ->].
        apply backslash_invalid.
    + intros Hplain. pose proof (extract_emails_plain s Hplain) as H.
      unfold extract_emails_from_text in H. cbn [mret Py.res_ret] in H.
      injection H as H. exact H.
Qed.

(** *** The cleaning of a company name *)

Ltac by_cases_on a :=
  destruct a as [[] [] [] [] [] [] [] []]; vm_compute; try reflexivity;
  intros; try reflexivity; discriminate.

Lemma keep_plain a :
  plain_char a = true ->
  negb (negb (one_of "\s" [("a", "z"); ("A", "Z"); ("0", "9")]%char a)) =
  (is_alpha a || is_digit a).
Proof. by_cases_on a. Qed.

Lemma keep_clean a :
  negb (is_upper a) = true ->
  negb (one_of "\s" [("a", "z"); ("A", "Z"); ("0", "9")]%char a) = false ->
  clean_char a = true.
Proof. by_cases_on a. Qed.

Lemma letter_no_space a : is_alpha a || is_digit a = true -> is_space a = false.
Proof. by_cases_on a. Qed.

Lemma letter_plain a : is_alpha a || is_digit a = true -> plain_char a = true.
Proof. by_cases_on a. Qed.

Lemma lower_char_plain a : plain_char a = true -> plain_char (lower_char a) = true.
Proof. by_cases_on a. Qed.

Lemma all_map_lower s : all plain_char s = true -> all plain_char (lower s) = true.
Proof.
  induction s as [|a s IH]; [reflexivity|].
  cbn [lower map all]. intros H. apply andb_true_iff in H as [Ha Hs].
  rewrite (lower_char_plain _ Ha). exact (IH Hs).
Qed.

(** A pattern that starts with a backslash finds nothing in a text
    without one, and [re.sub] leaves the text as it is. *)
Lemma run_backslash total r s c :
  match s with String a _ => plain_char a = true | EmptyString => True end ->
  run total (Cat (chr "\") r) s c = [].
Proof.
  cbn [run chr]. destruct s as [|a s]; [reflexivity|].
  unfold plain_char. intros H. apply negb_true_iff in H.
  rewrite Ascii.eqb_sym, H. reflexivity.
Qed.

Lemma remove_go_plain total r s :
  all plain_char s = true -> remove_go total (Cat (chr "\") r) s 0 = s.
Proof.
  induction s as [|a s IH]; intros H; cbn [remove_go].
  - unfold first_hit. rewrite run_backslash by exact I. reflexivity.
  - cbn [all] in H. apply andb_true_iff in H as [Ha Hs].
    unfold first_hit. rewrite run_backslash by exact Ha.
    rewrite (IH Hs). reflexivity.
Qed.

Lemma remove_suffixes_plain l : forall s,
  all plain_char s = true ->
  List.fold_left (fun acc suffix => remove (suffix_pattern suffix) acc) l s = s.
Proof.
  induction l as [|x l IH]; intros s Hs; cbn [List.fold_left]; [reflexivity|].
  assert (remove (suffix_pattern x) s = s) as ->; [|exact (IH s Hs)].
  unfold remove, suffix_pattern.
  change ("\b" +:+ x +:+ "\b") with (String "\" (String "b" (x +:+ "\b"))).
  cbn [lit]. apply remove_go_plain, Hs.
Qed.

(** [re.sub] with a character class drops the characters of the class. *)
Lemma first_hit_chr total p a s :
  first_hit total (Chr p) (String a s) =
  if p a then Some (1%nat, (String a "", [])) else None.
Proof.
  unfold first_hit. cbn [run]. destruct (p a); [|reflexivity].
  unfold consumed. cbn [String.length].
  replace (S (String.length s) - String.length s)%nat with 1%nat by lia.
  reflexivity.
Qed.

Lemma remove_special_plain total s :
  all plain_char s = true ->
  remove_go total special_char s 0 = letters_and_digits s.
Proof.
  induction s as [|a s IH]; intros H; [reflexivity|].
  cbn [all] in H. apply andb_true_iff in H as [Ha Hs].
  cbn [remove_go letters_and_digits]. unfold special_char at 1.
  rewrite first_hit_chr. rewrite <- (keep_plain a Ha).
  destruct (negb (one_of _ _ a)); cbn [negb Nat.eqb Nat.sub];
    fold special_char; rewrite (IH Hs); reflexivity.
Qed.

Lemma remove_special_clean total s :
  lowered s -> all clean_char (remove_go total special_char s 0) = true.
Proof.
  unfold lowered. induction s as [|a s IH]; intros H; [reflexivity|].
  cbn [all] in H. apply andb_true_iff in H as [Ha Hs].
  cbn [remove_go]. unfold special_char at 1.
  rewrite first_hit_chr.
  destruct (negb (one_of _ _ a)) eqn:E; cbn [Nat.eqb Nat.sub];
    fold special_char; [exact (IH Hs)|].
  cbn [all]. rewrite (keep_clean a Ha E). exact (IH Hs).
Qed.

Lemma letters_and_digits_all s :
  all (fun a => is_alpha a || is_digit a) (letters_and_digits s) = true.
Proof.
  induction s as [|a s IH]; [reflexivity|]. cbn [letters_and_digits].
  destruct (is_alpha a || is_digit a) eqn:E; [|exact IH].
  cbn [all]. rewrite E. exact IH.
Qed.

Lemma all_impl (p q : ascii -> bool) s :
  (forall a, p a = true -> q a = true) -> all p s = true -> all q s = true.
Proof.
  intros Hpq. induction s as [|a s IH]; [reflexivity|].
  cbn [all]. intros H. apply andb_true_iff in H as [Ha Hs].
  rewrite (Hpq _ Ha), (IH Hs). reflexivity.
Qed.

(** [strip] leaves a text without blanks as it is. *)
Lemma rev_app_twice s : forall a b,
  String.rev_app (String.rev_app s a) b = String.rev_app a (s +:+ b).
Proof.
  induction s as [|c s IH]; intros a b; [reflexivity|].
  cbn [String.rev_app]. rewrite IH, app_cons. reflexivity.
Qed.

Lemma rev_twice s : String.rev (String.rev s) = s.
Proof. unfold String.rev. rewrite rev_app_twice. apply app_nil_r. Qed.

Lemma lstrip_id s : all (fun a => negb (is_space a)) s = true -> lstrip s = s.
Proof.
  destruct s as [|a s]; [reflexivity|]. cbn [all lstrip].
  intros H. apply andb_true_iff in H as [Ha _]. apply negb_true_iff in Ha.
  rewrite Ha. reflexivity.
Qed.

Lemma strip_id s : all (fun a => negb (is_space a)) s = true -> strip s = s.
Proof.
  intros H. unfold strip. rewrite (lstrip_id s H).
  rewrite lstrip_id by (apply all_rev, H). apply rev_twice.
Qed.

(** X13. [clean_company_name] raises the attribute error of [lower] on a
    value that is no text. The clean name of a text holds lower-case
    letters, digits and backslashes only. For a name without a backslash
    it is the letters and digits of the lowered name: the suffix patterns
    ask for a literal [\b] on both sides, so no suffix is ever taken off
    such a name, and the blanks go with the special characters. *)
Theorem clean_company_name_plain (company_name : Py.scalar) :
  ((forall s, company_name <> Py.SStr s) ->
   clean_company_name company_name = Py.Raise (Filter.no_lower company_name)) /\
  (forall s, company_name = Py.SStr s ->
   exists clean_name,
     clean_company_name company_name = Py.Ok clean_name /\
     all clean_char clean_name = true /\
     (all plain_char s = true -> clean_name = letters_and_digits (lower s))).
Proof.
  split.
  - intros H. destruct company_name as [| | |s]; try reflexivity.
    elim (H s). reflexivity.
  - intros s ->. rewrite clean_company_name_str. eexists.
    split; [reflexivity|]. split.
    + apply all_strip, all_remove. unfold remove.
      apply remove_special_clean. unfold lowered.
      apply all_remove_suffixes. apply lowered_lower.
    + intros Hplain. apply all_map_lower in Hplain.
      rewrite (remove_suffixes_plain _ _ Hplain).
      unfold remove at 2. rewrite (remove_special_plain _ _ Hplain).
      pose proof (letters_and_digits_all (lower s)) as Hl.
      unfold remove, backslash_s. rewrite remove_go_plain
        by (eapply all_impl; [apply letter_plain|exact Hl]).
      apply strip_id. eapply all_impl; [|exact Hl].
      intros a Ha. rewrite (letter_no_space a Ha). reflexivity.
Qed.

(** *** The guessed domains *)

Lemma prefix_length old : forall s,
  String.prefix old s = true -> (String.length old <= String.length s)%nat.
Proof.
  induction old as [|a old IH]; intros s; [cbn; lia|].
  destruct s as [|b s]; [discriminate|]. cbn [String.prefix String.length].
  destruct (ascii_dec a b); [|discriminate]. intros H. apply IH in H. lia.
Qed.

(** A text shorter than [old] holds no occurrence of it. *)
Lemma replace_short old new s :
  (String.length s < String.length old)%nat -> replace old new s = s.
Proof.
  unfold replace. induction s as [|a s IH]; intros H; [reflexivity|].
  cbn [replace_go].
  destruct (String.prefix old (String a s)) eqn:E.
  - apply prefix_length in E. lia.
  - rewrite IH by (cbn [String.length] in H; lia). reflexivity.
Qed.

Lemma variations_append (clean_company : string) variations : forall domains,
  exists more,
    List.fold_left
      (fun acc variation =>
         if String.eqb variation clean_company then acc
         else acc ++ with_tlds variation [".com"; ".in"])
      variations domains = domains ++ more.
Proof.
  induction variations as [|v l IH]; intros domains; cbn [List.fold_left].
  - exists []. rewrite List.app_nil_r. reflexivity.
  - destruct (String.eqb v clean_company); [apply IH|].
    destruct (IH (domains ++ with_tlds v [".com"; ".in"])) as [more ->].
    rewrite <- List.app_assoc. eauto.
Qed.

(** X14. [generate_company_domains] returns nothing for an empty name.
    For any other name it returns the name under [.com], [.in], [.co.in]
    and [.org], in this order, and at most one domain more: for a name
    of more than eight characters its first eight under [.com]; for a
    shorter one the name with [systems] cut to [sys], under [.com], if
    that differs. The cut to five leaves no room for any other guess: the
    [.in] forms of the short names and the variations on [technologies]
    and [solutions] are never returned. *)
Theorem generate_company_domains_shape (clean_company : string) :
  generate_company_domains "" = [] /\
  (clean_company <> "" ->
   exists more,
     generate_company_domains clean_company =
       with_tlds clean_company [".com"; ".in"; ".co.in"; ".org"] ++ more /\
     ((8 < String.length clean_company)%nat ->
      more = [take 8 clean_company +:+ ".com"]) /\
     ((String.length clean_company <= 8)%nat ->
      more = if String.eqb (replace "systems" "sys" clean_company) clean_company
             then []
             else [replace "systems" "sys" clean_company +:+ ".com"])).
Proof.
  split; [reflexivity|]. intros Hne. unfold generate_company_domains.
  destruct (String.eqb_spec clean_company "") as [|_]; [contradiction|].
  destruct (Nat.ltb_spec 8 (String.length clean_company)) as [Hlong|Hshort].
  - destruct (variations_append clean_company
                [replace "technologies" "tech" clean_company;
                 replace "solutions" "sol" clean_company;
                 replace "systems" "sys" clean_company]
                (with_tlds clean_company [".com"; ".in"; ".co.in"; ".org"] ++
                 with_tlds (take 8 clean_company) [".com"; ".in"]))
      as [more ->].
    eexists. split; [|split; [intros _; reflexivity|lia]].
    reflexivity.
  - rewrite (replace_short "technologies") by (cbn [String.length]; lia).
    rewrite (replace_short "solutions") by (cbn [String.length]; lia).
    cbn [List.fold_left]. rewrite String.eqb_refl.
    eexists. split; [|split; [lia|intros _; reflexivity]].
    destruct (String.eqb (replace "systems" "sys" clean_company) clean_company);
      reflexivity.
Qed.

(** *** The contacts returned *)

Lemma dedupe_firstn contacts : forall seen_emails unique_contacts,
  (List.length unique_contacts < 3)%nat ->
  dedupe contacts seen_emails unique_contacts =
  List.firstn 3 (unique_contacts ++ distinct_valid seen_emails contacts).
Proof.
  induction contacts as [|contact rest IH]; intros seen unique Hlen;
    cbn [dedupe distinct_valid].
  - rewrite List.app_nil_r, List.firstn_all2 by lia. reflexivity.
  - destruct (bool_decide (email contact ∉ seen) && is_valid_email (email contact)).
    + cbv zeta.
      replace (unique ++ contact :: distinct_valid ({[email contact]} ∪ seen) rest)
        with ((unique ++ [contact]) ++
              distinct_valid ({[email contact]} ∪ seen) rest)
        by (rewrite <- List.app_assoc; reflexivity).
      destruct (Nat.leb_spec 3 (List.length (unique ++ [contact]))) as [Hfull|Hroom].
      * assert (List.length (unique ++ [contact]) = 3%nat) as H3
          by (rewrite List.length_app in *; cbn [List.length] in *; lia).
        rewrite List.firstn_app, H3, Nat.sub_diag. cbn [List.firstn].
        rewrite List.app_nil_r, List.firstn_all2 by lia. reflexivity.
      * apply IH, Hroom.
    + apply IH, Hlen.
Qed.

(** X15. The contacts returned are the first three of the gathered
    contacts that pass [is_valid_email] and whose address has not occurred
    earlier in the list, in the order in which they were gathered: the
    guesses for the first domain come first, the addresses of the
    description after all guesses. Without a company nothing is
    gathered. *)
Theorem extract_hr_contacts_first_three (job_data : job) :
  (Py.truthy (get job_data "company") = false -> extract_hr_contacts job_data = []) /\
  (Py.truthy (get job_data "company") = true ->
   extract_hr_contacts job_data =
   List.firstn 3 (distinct_valid ∅ (gather_from job_data (get job_data "company")))).
Proof.
  unfold extract_hr_contacts, gather. split; intros ->; cbn [negb]; [reflexivity|].
  rewrite dedupe_firstn by (cbn; lia). reflexivity.
Qed.

Lemma plain_app s t :
  all plain_char s = true -> all plain_char t = true ->
  all plain_char (s +:+ t) = true.
Proof. intros Hs Ht. rewrite all_app, Hs, Ht. reflexivity. Qed.

Lemma with_tlds_plain base tlds :
  all plain_char base = true ->
  Forall (fun w => all plain_char w = true) tlds ->
  Forall (fun w => all plain_char w = true) (with_tlds base tlds).
Proof.
  intros Hb Ht. unfold with_tlds. apply List.Forall_forall. intros d Hd.
  apply in_map_iff in Hd as (tld & <- & Hin).
  apply plain_app; [exact Hb|].
  rewrite List.Forall_forall in Ht. apply Ht, Hin.
Qed.

Lemma generate_company_domains_plain clean_company :
  all plain_char clean_company = true ->
  Forall (fun w => all plain_char w = true)
         (generate_company_domains clean_company).
Proof.
  intros H. unfold generate_company_domains.
  destruct (String.eqb clean_company ""); [constructor|].
  apply Forall_take.
  assert (forall tlds, Forall (fun w => all plain_char w = true) tlds ->
          forall vs acc,
            Forall (fun w => all plain_char w = true) vs ->
            Forall (fun w => all plain_char w = true) acc ->
            Forall (fun w => all plain_char w = true)
              (List.fold_left
                 (fun acc variation =>
                    if String.eqb variation clean_company then acc
                    else acc ++ with_tlds variation tlds) vs acc)) as Hfold.
  { intros tlds Ht vs. induction vs as [|v vs IH]; intros acc Hvs Hacc;
      cbn [List.fold_left].
    - exact Hacc.
    - inversion Hvs; subst. apply IH; [assumption|].
      destruct (String.eqb v clean_company); [exact Hacc|].
      apply Forall_app. split; [exact Hacc|]. apply with_tlds_plain; assumption. }
  apply Hfold.
  - repeat constructor.
  - repeat constructor; apply all_replace_go; (reflexivity || exact H).
  - destruct (_ <? _)%nat.
    + apply Forall_app. split; apply with_tlds_plain;
        try exact H; try (apply all_take, H); repeat constructor.
    + apply with_tlds_plain; [exact H|repeat constructor].
Qed.

Lemma clean_company_name_keeps_plain company_value clean_company :
  plain_value company_value = true ->
  clean_company_name company_value = Py.Ok clean_company ->
  all plain_char clean_company = true.
Proof.
  destruct company_value as [| | |s]; try discriminate.
  cbn [plain_value]. intros Hp Hc.
  eapply all_clean_company_name; [exact Hc|]. apply all_map_lower, Hp.
Qed.

(** No contact gathered from a job without a backslash has one in its
    address. *)
Lemma gather_from_plain job_data company_value c :
  plain_value company_value = true ->
  plain_value (get job_data "description") = true ->
  plain_value (get job_data "location") = true ->
  In c (gather_from job_data company_value) ->
  all plain_char (email c) = true.
Proof.
  intros Hc Hd Hl Hin.
  destruct (gather_from_sources _ _ _ Hin)
    as [(clean & d & Hclean & Hdom & He & _)
       |[(extracted & E & He & _)
        |(clean & location & city & rest & Hclean & Hloc & Hs & He & _)]].
  - apply (clean_company_name_keeps_plain _ _ Hc) in Hclean.
    apply generate_company_domains_plain in Hclean.
    rewrite List.Forall_forall in Hclean. specialize (Hclean _ Hdom).
    unfold hr_patterns in He. apply in_map_iff in He as (who & <- & Hw).
    apply plain_app; [|apply plain_app; [reflexivity|exact Hclean]].
    cbn [In] in Hw. repeat (destruct Hw as [<-|Hw]; [reflexivity|]). destruct Hw.
  - destruct (get job_data "description") as [| | |text]; try discriminate.
    rewrite (extract_emails_plain text Hd) in E. injection E as <-. destruct He.
  - rewrite He.
    apply (clean_company_name_keeps_plain _ _ Hc) in Hclean.
    apply generate_company_domains_plain in Hclean.
    assert (all plain_char city = true) as Hcity.
    { assert (all plain_char location = true) as Hlp.
      { destruct (get job_data "location") as [| | |text]; try discriminate.
        injection Hloc as <-. apply all_map_lower, Hl. }
      pose proof (all_split_go plain_char location "" eq_refl Hlp) as F.
      fold (split location) in F. rewrite Hs in F. inversion F; assumption. }
    apply plain_app; [reflexivity|]. apply plain_app; [exact Hcity|].
    apply plain_app; [reflexivity|].
    destruct (generate_company_domains clean) as [|d ?]; [reflexivity|].
    inversion Hclean; assumption.
Qed.

Lemma dedupe_invalid contacts : forall seen_emails unique_contacts,
  (forall c, In c contacts -> is_valid_email (email c) = false) ->
  dedupe contacts seen_emails unique_contacts = unique_contacts.
Proof.
  induction contacts as [|contact rest IH]; intros seen unique H;
    cbn [dedupe]; [reflexivity|].
  rewrite (H contact) by (left; reflexivity). rewrite andb_false_r.
  apply IH. intros c Hc. apply H. right. exact Hc.
Qed.

(** X16. A job whose company, description and location hold no backslash
    gets no contact at all, whatever the company is called and whatever
    addresses its description shows: every address gathered for it fails
    [is_valid_email]. *)
Theorem extract_hr_contacts_plain (job_data : job) :
  plain_value (get job_data "company") = true ->
  plain_value (get job_data "description") = true ->
  plain_value (get job_data "location") = true ->
  extract_hr_contacts job_data = [].
Proof.
  intros Hc Hd Hl. unfold extract_hr_contacts, gather.
  destruct (negb _); [reflexivity|].
  apply dedupe_invalid. intros c Hin.
  apply plain_invalid.
  exact (gather_from_plain job_data (get job_data "company") c Hc Hd Hl Hin).
Qed.

Lemma extract_hr_contacts_plain_witness :
  plain_value (get Sample.acme_job "company") = true /\
  plain_value (get Sample.acme_job "description") = true /\
  plain_value (get Sample.acme_job "location") = true /\
  extract_hr_contacts Sample.acme_job = [].
Proof.
  split; [reflexivity|]. split; [reflexivity|]. split; [reflexivity|].
  apply (extract_hr_contacts_plain Sample.acme_job); reflexivity.
Defined.

End EmailerMore.

(** ** get_application_summary *)

Module ApplicatorMore.

Import Applicator.

Lemma count_status_spec status results :
  (count_status status results = None <->
   exists r, In r results /\ r !! "status" = None) /\
  (forall n, count_status status results = Some n ->
             n = with_status status results).
Proof.
  induction results as [|r rest [IHn IHs]]; cbn [count_status].
  - split; [|intros n [= <-]; reflexivity].
    split; [discriminate|]. intros (r & [] & _).
  - unfold with_status, has_status in *. cbn [List.filter].
    destruct (r !! "status") as [v|] eqn:E; cbn [mbind option_bind].
    + destruct (count_status status rest) as [m|]; cbn [mbind option_bind].
      * split.
        -- split; [discriminate|]. intros (r' & [<-|Hin] & Hr'); [congruence|].
           assert (Some m = None) as H by (apply IHn; eauto). discriminate.
        -- intros n [= <-]. rewrite (IHs m eq_refl).
           destruct (is_status status v); cbn [List.length]; lia.
      * split; [|discriminate]. split; [intros _|reflexivity].
        destruct (proj1 IHn eq_refl) as (r' & Hin & Hr'). exists r'. split; [right|]; auto.
    + split; [|discriminate]. split; [intros _|reflexivity].
      exists r. split; [left; reflexivity|exact E].
Qed.

(** A result counts for one of the five statuses at most. *)
Lemma one_status r :
  let b status := if has_status status r then 1%Z else 0%Z in
  (0 <= b "success" + b "failed" + b "external" + b "login_required" +
        b "unsupported" <= 1)%Z /\
  (b "success" + b "failed" + b "external" + b "login_required" +
   b "unsupported" = 1 <->
   exists status, In status counted /\ has_status status r = true)%Z.
Proof.
  cbv zeta. unfold has_status, counted.
  destruct (r !! "status") as [[[| | |s]|]|]; cbn [is_status];
    try (split; [lia|]; split; [lia|]; intros (st & _ & H); discriminate).
  destruct (String.eqb_spec s "success") as [->|H1];
    [cbn; split; [lia|]; split; [intros _|reflexivity];
     exists "success"; cbn; auto|].
  destruct (String.eqb_spec s "failed") as [->|H2];
    [cbn; split; [lia|]; split; [intros _|reflexivity];
     exists "failed"; cbn; auto|].
  destruct (String.eqb_spec s "external") as [->|H3];
    [cbn; split; [lia|]; split; [intros _|reflexivity];
     exists "external"; cbn; auto|].
  destruct (String.eqb_spec s "login_required") as [->|H4];
    [cbn; split; [lia|]; split; [intros _|reflexivity];
     exists "login_required"; cbn; auto 10|].
  destruct (String.eqb_spec s "unsupported") as [->|H5];
    [cbn; split; [lia|]; split; [intros _|reflexivity];
     exists "unsupported"; cbn; auto 10|].
  split; [lia|]. split; [lia|].
  intros (st & Hin & H). apply String.eqb_eq in H. subst st.
  cbn [In] in Hin. intuition congruence.
Qed.

Lemma with_status_cons status r rest :
  with_status status (r :: rest) =
  ((if has_status status r then 1 else 0) + with_status status rest)%Z.
Proof.
  unfold with_status. cbn [List.filter].
  destruct (has_status status r); cbn [List.length]; lia.
Qed.

Lemma statuses_add_up results :
  let total := (with_status "success" results + with_status "failed" results +
                with_status "external" results +
                with_status "login_required" results +
                with_status "unsupported" results)%Z in
  (0 <= total <= Z.of_nat (List.length results))%Z /\
  (total = Z.of_nat (List.length results) <->
   Forall (fun r => exists status, In status counted /\
                                   has_status status r = true) results).
Proof.
  cbv zeta. induction results as [|r rest [IH1 IH2]].
  - unfold with_status. cbn [List.filter List.length].
    split; [lia|]. split; [intros _; apply List.Forall_nil|reflexivity].
  - rewrite !with_status_cons. cbn [List.length].
    destruct (one_status r) as [Hr1 Hr2]. cbv zeta in Hr1, Hr2.
    split; [lia|]. split.
    + intros H. apply List.Forall_cons.
      * apply Hr2. lia.
      * apply IH2. lia.
    + intros H. inversion H as [|? ? Hr Hrest]; subst.
      apply Hr2 in Hr. apply IH2 in Hrest. lia.
Qed.

Section WithRound.

Variable round2 : Q -> Q.

(** X17. [get_application_summary] fails, with a key error, exactly when
    some result has no status. Otherwise it reports the number of
    results, the results themselves, and for each of the five statuses
    the number of results that have it; the five counts add up to the
    total at most, and to the total exactly when every result has one of
    the five statuses. It never divides by zero: for no results the rate
    is the integer 0, otherwise the rounded share of the successes. *)
Theorem get_application_summary_counts (results : list result) :
  (get_application_summary round2 results = None <->
   exists r, In r results /\ r !! "status" = None) /\
  (forall summary,
     get_application_summary round2 results = Some summary ->
     total_attempted summary = Z.of_nat (List.length results) /\
     details summary = results /\
     successful summary = with_status "success" results /\
     failed summary = with_status "failed" results /\
     external summary = with_status "external" results /\
     login_required summary = with_status "login_required" results /\
     unsupported summary = with_status "unsupported" results /\
     (successful summary + failed summary + external summary +
      login_required summary + unsupported summary <= total_attempted summary)%Z /\
     (successful summary + failed summary + external summary +
      login_required summary + unsupported summary = total_attempted summary <->
      Forall (fun r => exists status, In status counted /\
                                      has_status status r = true) results)%Z /\
     (results = [] -> success_rate summary = Py.NInt 0) /\
     (results <> [] ->
      success_rate summary =
      Py.NFloat (round2 (Qred (inject_Z (successful summary) /
                               inject_Z (total_attempted summary)) * 100)%Q))).
Proof.
  unfold get_application_summary.
  destruct (count_status_spec "success" results) as [N1 S1].
  destruct (count_status_spec "failed" results) as [N2 S2].
  destruct (count_status_spec "external" results) as [N3 S3].
  destruct (count_status_spec "login_required" results) as [N4 S4].
  destruct (count_status_spec "unsupported" results) as [N5 S5].
  destruct (count_status "success" results) as [n1|]; cbn [mbind option_bind];
    [|split; [split; [intros _; apply N1; reflexivity|reflexivity]|discriminate]].
  assert ((exists r, In r results /\ r !! "status" = None) -> False) as Hno.
  { intros H. apply N1 in H. discriminate. }
  destruct (count_status "failed" results) as [n2|];
    [|elim Hno; apply N2; reflexivity]; cbn [mbind option_bind].
  destruct (count_status "external" results) as [n3|];
    [|elim Hno; apply N3; reflexivity]; cbn [mbind option_bind].
  destruct (count_status "login_required" results) as [n4|];
    [|elim Hno; apply N4; reflexivity]; cbn [mbind option_bind].
  destruct (count_status "unsupported" results) as [n5|];
    [|elim Hno; apply N5; reflexivity]; cbn [mbind option_bind].
  rewrite (S1 _ eq_refl), (S2 _ eq_refl), (S3 _ eq_refl), (S4 _ eq_refl),
          (S5 _ eq_refl).
  destruct (statuses_add_up results) as [Hsum Hall5]. cbv zeta in Hsum, Hall5.
  split; [split; [|intros H; elim (Hno H)]|].
  { destruct (Z.ltb_spec 0 (Z.of_nat (List.length results))) as [Hpos|_];
      cbn [mbind option_bind]; [|discriminate].
    unfold Summary.true_div.
    destruct (Z.eqb_spec (Z.of_nat (List.length results)) 0) as [H0|_]; [lia|].
    cbn [mbind option_bind]. discriminate. }
  intros summary.
  destruct (Z.ltb_spec 0 (Z.of_nat (List.length results))) as [Hpos|Hzero].
  - unfold Summary.true_div.
    destruct (Z.eqb_spec (Z.of_nat (List.length results)) 0) as [|_]; [lia|].
    cbn [mbind option_bind]. intros [= <-].
    cbn [total_attempted details successful failed external login_required
         unsupported success_rate].
    repeat split; try reflexivity; try lia; try apply Hall5.
    intros ->. cbn [List.length] in Hpos. lia.
  - cbn [mbind option_bind]. intros [= <-].
    cbn [total_attempted details successful failed external login_required
         unsupported success_rate].
    repeat split; try reflexivity; try lia; try apply Hall5.
    intros H. destruct results; [congruence|]. cbn [List.length] in Hzero. lia.
Qed.

End WithRound.

End ApplicatorMore.

(** ** filter_job and the store *)

Module HeapSpec.

Import Filter Heap.

(** *** The steps of a run *)

Lemma bind_new_dict (A : Type) (h : heap) (d : dict) (k : loc -> M A) :
  bind (new_dict d) k h = k (fresh (dom h)) (<[ fresh (dom h) := d ]> h).
Proof. reflexivity. Qed.

Lemma bind_dict_get (A : Type) (h : heap) l o key otherwise (k : value -> M A) :
  h !! l = Some o ->
  bind (dict_get l key otherwise) k h = k (default otherwise (o !! key)) h.
Proof. intros H. unfold bind, dict_get. rewrite H. reflexivity. Qed.

Lemma bind_setitem (A : Type) (h : heap) l o key v (k : unit -> M A) :
  h !! l = Some o ->
  bind (setitem l key v) k h = k tt (<[ l := <[ key := v ]> o ]> h).
Proof. intros H. unfold bind, setitem. rewrite H. reflexivity. Qed.

Lemma bind_setitem2 (A : Type) (h : heap) l o outer inner oi key v
  (k : unit -> M A) :
  h !! l = Some o -> o !! outer = Some (Ref inner) -> h !! inner = Some oi ->
  bind (setitem2 l outer key v) k h = k tt (<[ inner := <[ key := v ]> oi ]> h).
Proof.
  intros H Ho Hi. unfold setitem2, bind at 1 2 3, getitem, reference, ret.
  rewrite H, Ho. unfold setitem. rewrite Hi. reflexivity.
Qed.

Lemma bind_lift (A B : Type) (h : heap) (r : Py.res A) (k : A -> M B) :
  bind (lift r) k h =
  match r with
  | Py.Ok a => k a h
  | Py.Raise e => Some (Py.Raise e, h)
  end.
Proof. destruct r; reflexivity. Qed.

Lemma bind_ret (A B : Type) (h : heap) (a : A) (k : A -> M B) :
  bind (ret a) k h = k a h.
Proof. reflexivity. Qed.

Lemma update_run l entries : forall (h : heap) o,
  h !! l = Some o ->
  update l entries h =
  Some (Py.Ok tt,
        <[ l := List.fold_left (fun o kv => <[ fst kv := snd kv ]> o) entries o ]> h).
Proof.
  induction entries as [|[key v] rest IH]; intros h o H; cbn [update List.fold_left].
  - unfold ret. rewrite insert_id by exact H. reflexivity.
  - rewrite (bind_setitem _ _ _ _ _ _ _ H).
    rewrite (IH _ (<[ key := v ]> o)) by apply lookup_insert_eq.
    rewrite insert_insert_eq. reflexivity.
Qed.

Lemma fresh_unused (h : heap) : h !! fresh (dom h) = None.
Proof. apply not_elem_of_dom, is_fresh. Qed.

Lemma kept_refl (h : heap) : kept h h.
Proof. intros l d H. exact H. Qed.

Lemma kept_insert (h h' : heap) l d :
  kept h h' -> h !! l = None -> kept h (<[ l := d ]> h').
Proof.
  intros K H l' d' H'. rewrite lookup_insert_ne; [apply K, H'|].
  intros ->. congruence.
Qed.

Lemma kept_unused (h h' : heap) l : kept h h' -> h' !! l = None -> h !! l = None.
Proof.
  intros K H. destruct (h !! l) as [d|] eqn:E; [|reflexivity].
  apply K in E. congruence.
Qed.

(** *** Reading back what was written *)

Lemma read_role_dict c : read_role (role_dict c) = Some c.
Proof. destruct c as [rel why kws [b|] sc]; reflexivity. Qed.

Lemma read_location_dict c : read_location (location_dict c) = Some c.
Proof. destruct c; reflexivity. Qed.

Lemma read_experience_dict c : read_experience (experience_dict c) = Some c.
Proof. destruct c; reflexivity. Qed.

Lemma read_salary_dict s :
  si_found s = true \/ s = no_salary -> read_salary (salary_dict s) = Some s.
Proof. intros [H| ->]; [destruct s; cbn in H; subst|]; reflexivity. Qed.

Lemma read_first_result h why det :
  read_fields h (first_result why det) =
  (details_dict ← h !! det; stages ← read_details h details_dict;
   Some (rejected why stages)).
Proof. reflexivity. Qed.

Lemma set_reason why why' det :
  <[ "reason" := str_value why' ]> (first_result why det) = first_result why' det.
Proof. reflexivity. Qed.

Lemma read_stage_ref (A : Type) (h : heap) (read : dict -> option A)
  (wrap : A -> stage) (d : dict) key l o a :
  d !! key = Some (Ref l) -> h !! l = Some o -> read o = Some a ->
  read_stage h read wrap d key = Some (Some (wrap a)).
Proof. intros Hd Hl Ha. unfold read_stage. rewrite Hd. cbn. rewrite Hl. cbn.
  rewrite Ha. reflexivity. Qed.

Lemma read_stage_none (A : Type) (h : heap) (read : dict -> option A)
  (wrap : A -> stage) (d : dict) key :
  d !! key = None -> read_stage h read wrap d key = Some None.
Proof. intros Hd. unfold read_stage. rewrite Hd. reflexivity. Qed.

Lemma bind_scalar (A : Type) (h : heap) s (k : Py.scalar -> M A) :
  bind (scalar (Scalar s)) k h = k s h.
Proof. reflexivity. Qed.

Lemma holds_get job fields key :
  holds job fields -> In key ["title"; "description"; "location"] ->
  default (str_value "") (job !! key) = Scalar (Filter.get fields key).
Proof.
  intros H Hk. rewrite (H key Hk). unfold Filter.get.
  destruct (fields !! key); reflexivity.
Qed.

Lemma read_accepted h det why resume_file role_check salary_info :
  read_fields h
    (List.fold_left (fun (o : dict) kv => <[ fst kv := snd kv ]> o)
       (accepted_entries resume_file role_check salary_info)
       (first_result why det)) =
  (details_dict ← h !! det; stages ← read_details h details_dict;
   Some {| is_relevant := true;
           reason := "Job matches all criteria";
           details := stages;
           resume_to_use := resume_file;
           relevance_score := rc_score role_check;
           salary_lpa := Some (if si_found salary_info
                               then Lpa (si_average_salary salary_info)
                               else NotSpecified);
           is_fresher_friendly :=
             Some (default false (rc_fresher_friendly role_check));
           matched_keywords := Some (rc_matched_keywords role_check) |}).
Proof. destruct (si_found salary_info) eqn:E; unfold accepted_entries; rewrite E;
  reflexivity. Qed.

Ltac neq := first [assumption | apply not_eq_sym; assumption | congruence].

Ltac look :=
  repeat first [rewrite lookup_insert_eq | rewrite lookup_insert_ne by neq].

Ltac alloc l :=
  rewrite bind_new_dict;
  match goal with
  | |- context [fresh (dom ?hc)] =>
      let H := fresh "F" in
      pose proof (fresh_unused hc) as H;
      set (l := fresh (dom hc)) in *;
      repeat (let N := fresh "N" in apply lookup_insert_None in H as [H N])
  end.

Ltac store key :=
  erewrite (bind_setitem2 _ _ _ _ "details" _ _ key);
  [|look; reflexivity|reflexivity|look; reflexivity].

Ltac assign :=
  erewrite bind_setitem; [|look; reflexivity].

Ltac read_stages :=
  unfold read_details;
  repeat first
    [ erewrite read_stage_ref;
      [|reflexivity|look; reflexivity
       |first [apply read_role_dict|apply read_location_dict
              |apply read_experience_dict|apply read_salary_dict; eassumption]]
    | rewrite read_stage_none by reflexivity ];
  cbn [mbind option_bind];
  match goal with
  | |- context [bool_decide ?P] => change (bool_decide P) with true
  end;
  cbv iota.

Ltac finish result :=
  unfold ret; eexists _, _; split; [reflexivity|];
  split; [repeat apply kept_insert; try apply kept_refl; assumption|];
  cbn [mret Py.res_ret mbind Py.res_bind];
  exists result; split; [reflexivity|]; split; [assumption|];
  unfold read_result; look; cbn [mbind option_bind];
  rewrite ?set_reason, ?read_first_result; look; cbn [mbind option_bind].

Ltac faulted :=
  eexists _, _; split; [reflexivity|];
  split; [repeat apply kept_insert; try apply kept_refl; assumption|reflexivity].

Section WithConfig.

Variable float_str : Q -> string.
Variable cfg : Config.

Lemma filter_job_try_run (h : heap) (job_data : loc) job fields :
  h !! job_data = Some job -> holds job fields ->
  exists outcome h',
    Heap.filter_job_try float_str cfg job_data h = Some (outcome, h') /\
    kept h h' /\
    match Filter.filter_job_try float_str cfg fields with
    | Py.Ok r =>
        exists result,
          outcome = Py.Ok result /\ h !! result = None /\
          read_result h' result = Some r
    | Py.Raise e => outcome = Py.Raise e
    end.
Proof.
  intros Hj Hf. unfold Heap.filter_job_try.
  rewrite !(bind_dict_get _ _ _ _ _ _ _ Hj).
  rewrite !(holds_get _ _ _ Hf) by (cbn; auto).
  alloc det. alloc fr.
  rewrite !bind_scalar.
  unfold Filter.filter_job_try.
  set (title := Filter.get fields "title").
  set (description := Filter.get fields "description").
  set (location := Filter.get fields "location").
  set (role_check := is_relevant_role cfg title description).
  alloc role_ref. store "role_check".
  destruct (rc_is_relevant role_check) eqn:Hrole; cbn [negb].
  2:{ assign. finish fr. read_stages. reflexivity. }
  rewrite bind_scalar, bind_lift.
  destruct (is_location_match cfg location) as [location_check|e];
    cbn [mbind Py.res_bind]; [|faulted].
  alloc location_ref. store "location_check".
  destruct (lc_is_match location_check) eqn:Hloc; cbn [negb].
  2:{ assign. finish fr. read_stages. reflexivity. }
  rewrite bind_lift.
  destruct (calculate_experience_match float_str description) as [exp_check|e];
    cbn [mbind Py.res_bind]; [|faulted].
  alloc exp_ref. store "experience_check".
  destruct (ec_is_match exp_check) eqn:Hexp; cbn [negb].
  2:{ assign. finish fr. read_stages. reflexivity. }
  rewrite bind_lift.
  destruct (extract_salary _) as [salary_info|e] eqn:Hsal;
    cbn [mbind Py.res_bind]; [|faulted].
  apply SalaryMore.extract_salary_found_or_none in Hsal.
  alloc salary_ref. store "salary_info".
  destruct (salary_objection float_str cfg salary_info) as [why|].
  - assign. finish fr. read_stages. reflexivity.
  - unfold bind at 1. erewrite update_run by (look; reflexivity).
    finish fr. rewrite read_accepted. look. cbn [mbind option_bind].
    read_stages. reflexivity.
Qed.

(** C10. [filter_job] does not write to its input. In a store where
    every dict can be written, a call on a job dict ends at a result and
    leaves the job dict as it was, with every key it held and every
    value, as it leaves every other dict that was there before the call.
    The result is a dict at a location that was unused before the call,
    so it is not the job dict; read back from the store it is the result
    the pipeline computes from the fields of the job, on a fault of a
    stage as well. *)
Theorem filter_job_frame (h : heap) (job_data : loc) (job : dict)
  (fields : gmap string Py.scalar) :
  h !! job_data = Some job -> holds job fields ->
  exists result h',
    Heap.filter_job float_str cfg job_data h = Some (result, h') /\
    h' !! job_data = Some job /\
    kept h h' /\
    h !! result = None /\
    result <> job_data /\
    read_result h' result = Some (Filter.filter_job float_str cfg fields).
Proof.
  intros Hj Hf.
  destruct (filter_job_try_run h job_data job fields Hj Hf)
    as (outcome & h1 & E & K & R).
  unfold Heap.filter_job, Filter.filter_job. rewrite E.
  destruct (Filter.filter_job_try float_str cfg fields) as [r|e].
  - destruct R as (result & -> & Hnew & Hread).
    exists result, h1. split; [reflexivity|]. split; [apply K, Hj|].
    split; [exact K|]. split; [exact Hnew|]. split; [congruence|exact Hread].
  - subst outcome. rewrite bind_new_dict. unfold new_dict.
    pose proof (fresh_unused h1) as F1. set (det := fresh (dom h1)) in *.
    pose proof (fresh_unused (<[ det := ∅ ]> h1)) as F2.
    set (fr := fresh (dom (<[ det := ∅ ]> h1))) in *.
    apply lookup_insert_None in F2 as [F2 N].
    assert (h !! det = None) as Hdet by (eapply kept_unused; eauto).
    assert (h !! fr = None) as Hfr by (eapply kept_unused; eauto).
    eexists _, _. split; [reflexivity|].
    assert (kept h (<[ fr := first_result ("Error filtering job: " +:+ Py.exn_str e)
                                          det ]> (<[ det := ∅ ]> h1))) as K'
      by (repeat apply kept_insert; assumption).
    split; [apply K', Hj|]. split; [exact K'|]. split; [exact Hfr|].
    split; [congruence|].
    unfold read_result. look. cbn [mbind option_bind].
    rewrite read_first_result. look. cbn [mbind option_bind]. reflexivity.
Qed.

(** The store does record a write to a job dict: the assignment
    [job['filter_result'] = filter_result] of the routines of [main.py],
    made by the primitive [filter_job] assigns with, changes the job
    dict. *)
Lemma annotate_writes (h : heap) (job_data result : loc) (job : dict) :
  h !! job_data = Some job -> job !! "filter_result" = None ->
  exists h',
    annotate job_data result h = Some (Py.Ok tt, h') /\
    h' !! job_data = Some (<[ "filter_result" := Ref result ]> job) /\
    h' !! job_data <> Some job.
Proof.
  intros Hj Hn. unfold annotate, setitem. rewrite Hj. eexists.
  split; [reflexivity|]. rewrite lookup_insert_eq. split; [reflexivity|].
  intros [= H]. rewrite <- H, lookup_insert_eq in Hn. discriminate.
Qed.

End WithConfig.

Lemma filter_job_frame_witness :
  Sample.store !! 7%nat = Some (Scalar <$> Sample.fresher_job) /\
  holds (Scalar <$> Sample.fresher_job) Sample.fresher_job /\
  exists result h',
    Heap.filter_job Sample.float_str Sample.cfg 7%nat Sample.store =
      Some (result, h') /\
    h' !! 7%nat = Some (Scalar <$> Sample.fresher_job) /\
    h' !! 2%nat = Some (Scalar <$> Sample.senior_job) /\
    read_result h' result =
      Some (Filter.filter_job Sample.float_str Sample.cfg Sample.fresher_job).
Proof.
  assert (Sample.store !! 7%nat = Some (Scalar <$> Sample.fresher_job)) as H
    by reflexivity.
  assert (holds (Scalar <$> Sample.fresher_job) Sample.fresher_job) as Hf.
  { intros key [<-|[<-|[<-|[]]]]; reflexivity. }
  split; [exact H|]. split; [exact Hf|].
  destruct (filter_job_frame Sample.float_str Sample.cfg Sample.store 7%nat
              _ Sample.fresher_job H Hf)
    as (result & h' & E & Hjob & K & _ & _ & R).
  exists result, h'. split; [exact E|]. split; [exact Hjob|].
  split; [apply K; reflexivity|exact R].
Defined.

End HeapSpec.
